(** * Duplicate detection over JSON declarations

    A shallow embedding of the three scripts of the repository:

    - [detector_duplicados.py]: the whole-tree detector.  It walks a
      directory tree, files every person under the string key
      [nombre|primerApellido|segundoApellido] and writes one report.
    - [detector_duplicados_1_v2.py] and [detector_duplicados_s1_v3.py]: the
      partitioned detectors.  Their functions [extraer_datos_persona],
      [leer_archivos_json_directorio] and [analizar_duplicados] are the same
      text in both files and are embedded once.

    Parsed JSON documents are values of [json]; Python exceptions are the
    [Raise] results of the [res] monad; the [try]/[except] blocks of the
    scripts are the matches on [Raise]. *)

From Stdlib Require Import List String Ascii ZArith Bool Arith Lia.
From Stdlib Require Import Permutation Sorted.
From Stdlib Require Import Floats.SpecFloat.
Import ListNotations.

Set Warnings "-register-all".

Local Open Scope string_scope.
Local Open Scope list_scope.

(** ** Python exceptions as results *)

Inductive excepcion : Type :=
| TypeError | KeyError | AttributeError | ValueError | OSError.

Inductive res (A : Type) : Type :=
| Ok (a : A)
| Raise (e : excepcion).

Arguments Ok {A} a.
Arguments Raise {A} e.

Definition bind {A B : Type} (c : res A) (k : A -> res B) : res B :=
  match c with
  | Ok a => k a
  | Raise e => Raise e
  end.

Notation "x <- c ;; k" := (bind c (fun x => k))
  (at level 61, c at next level, right associativity).

(** ** Parsed JSON documents, as [json.load] returns them *)

Inductive json : Type :=
| JNull
| JBool (b : bool)
| JInt (z : Z)
| JFloat (f : spec_float)
| JStr (s : string)
| JArr (l : list json)
| JObj (m : list (string * json)).

(** A [dict] is kept as its members in document order; [json.load] keeps the
    last value of a repeated key. *)
Fixpoint dict_lookup (k : string) (m : list (string * json)) : option json :=
  match m with
  | [] => None
  | (k', v) :: m' =>
      match dict_lookup k m' with
      | Some w => Some w
      | None => if (k' =? k)%string then Some v else None
      end
  end.

(** [sub in s] on two Python strings. *)
Fixpoint es_subcadena (sub s : string) : bool :=
  match s with
  | EmptyString => String.prefix sub EmptyString
  | String _ s' => String.prefix sub s || es_subcadena sub s'
  end.

(** [k in v]: key test on a dict, element test on a list, substring test on
    a string, [TypeError] on the values that are not iterable. *)
Definition py_in (k : string) (v : json) : res bool :=
  match v with
  | JObj m => Ok (match dict_lookup k m with Some _ => true | None => false end)
  | JArr l =>
      Ok (existsb (fun e => match e with
                            | JStr s => (s =? k)%string
                            | _ => false
                            end) l)
  | JStr s => Ok (es_subcadena k s)
  | _ => Raise TypeError
  end.

(** [v[k]] with a string index: only a dict accepts it. *)
Definition py_getitem (v : json) (k : string) : res json :=
  match v with
  | JObj m =>
      match dict_lookup k m with
      | Some w => Ok w
      | None => Raise KeyError
      end
  | _ => Raise TypeError
  end.

(** [v.get(k, d)]: only a dict has the method. *)
Definition py_get (v : json) (k : string) (d : json) : res json :=
  match v with
  | JObj m =>
      match dict_lookup k m with
      | Some w => Ok w
      | None => Ok d
      end
  | _ => Raise AttributeError
  end.

(** Truth value of a parsed JSON value. *)
Definition truthy (v : json) : bool :=
  match v with
  | JNull => false
  | JBool b => b
  | JInt z => negb (z =? 0)%Z
  | JFloat (S754_zero _) => false
  | JFloat _ => true
  | JStr s => negb (s =? "")%string
  | JArr l => match l with [] => false | _ => true end
  | JObj m => match m with [] => false | _ => true end
  end.

Fixpoint caracteres (s : string) : list json :=
  match s with
  | EmptyString => []
  | String c s' => JStr (String c EmptyString) :: caracteres s'
  end.

(** [for registro in contenido], after a bare dict has been wrapped in a
    list: a list yields its elements, a string its characters, the other
    values are not iterable. *)
Definition iterar (contenido : json) : res (list json) :=
  match contenido with
  | JArr l => Ok l
  | JStr s => Ok (caracteres s)
  | JObj m => Ok (map (fun kv => JStr (fst kv)) m)
  | _ => Raise TypeError
  end.

(** [if isinstance(contenido, dict): contenido = [contenido]] *)
Definition envolver (contenido : json) : json :=
  match contenido with
  | JObj _ => JArr [contenido]
  | _ => contenido
  end.

(** [str.split(sep)] for a one-character separator. *)
Fixpoint split (sep : ascii) (s : string) : list string :=
  match s with
  | EmptyString => [EmptyString]
  | String c s' =>
      if Ascii.eqb c sep then EmptyString :: split sep s'
      else match split sep s' with
           | [] => [String c EmptyString]
           | h :: t => String c h :: t
           end
  end.

Definition barra : ascii := "|"%char.

Fixpoint contar (c : ascii) (s : string) : nat :=
  match s with
  | EmptyString => 0
  | String c' s' => (if Ascii.eqb c' c then 1 else 0) + contar c s'
  end.

Definition contiene (c : ascii) (s : string) : bool :=
  negb (contar c s =? 0)%nat.

(** [enumerate(l, n)] *)
Fixpoint enumerate {A : Type} (n : nat) (l : list A) : list (nat * A) :=
  match l with
  | [] => []
  | x :: l' => (n, x) :: enumerate (S n) l'
  end.

(** ** pandas operations used by [analizar_duplicados] *)

(** A sort that keeps the input order of rows that compare equal, as
    [sort_values] on several columns and [value_counts] do. *)
Fixpoint insertar {A : Type} (le : A -> A -> bool) (x : A) (l : list A)
  : list A :=
  match l with
  | [] => [x]
  | y :: l' => if le x y then x :: l else y :: insertar le x l'
  end.

Fixpoint ordenar {A : Type} (le : A -> A -> bool) (l : list A) : list A :=
  match l with
  | [] => []
  | x :: l' => insertar le x (ordenar le l')
  end.

Definition contar_nombre (n : string) (l : list string) : nat :=
  List.length (filter (fun m => (m =? n)%string) l).

(** [Series.unique()]: the distinct values in order of first appearance. *)
Fixpoint unique (l : list string) : list string :=
  match l with
  | [] => []
  | x :: l' => x :: filter (fun y => negb (y =? x)%string) (unique l')
  end.

(** [Series.value_counts().reset_index()]: one row per distinct value with
    its number of occurrences, most frequent first. *)
Definition value_counts (l : list string) : list (string * nat) :=
  ordenar (fun a b => (snd b <=? snd a)%nat)
          (map (fun n => (n, contar_nombre n l)) (unique l)).

Section Detector.

(** [str(v)] of a JSON value that is not a string (numbers, [None], lists,
    dicts inside an f-string): Python's own conversion, not part of the
    repository. *)
Variable str_py : json -> string.

(** [f"{v}"] *)
Definition formato (v : json) : string :=
  match v with
  | JStr s => s
  | _ => str_py v
  end.

(** ** The whole-tree detector, [detector_duplicados.py] *)

(** The dict stored for each person by [procesar_archivo_json]. *)
Record ocurrencia : Type := {
  o_id : json;
  o_nombre : json;
  o_primerApellido : json;
  o_segundoApellido : json;
  o_institucion : json;
  o_fechaActualizacion : json;
  o_rutaArchivo : string
}.

(** [f"{nombre}|{primer_apellido}|{segundo_apellido}"] *)
Definition persona_key (nombre primer segundo : json) : string :=
  (formato nombre ++ "|" ++ formato primer ++ "|" ++ formato segundo)%string.

(** The body of the inner [try] of [procesar_archivo_json] for one element:
    the key and the dict appended under it, [None] when nothing is
    appended, [Raise] when the navigation raises. *)
Definition extraer_registro (ruta : string) (registro : json)
  : res (option (string * ocurrencia)) :=
  c1 <- py_in "declaracion" registro ;;
  if (c1 : bool) then
    decl <- py_getitem registro "declaracion" ;;
    c2 <- py_in "situacionPatrimonial" decl ;;
    if (c2 : bool) then
      sp <- py_getitem decl "situacionPatrimonial" ;;
      datos_generales <- py_get sp "datosGenerales" (JObj []) ;;
      if truthy datos_generales then
        nombre <- py_get datos_generales "nombre" (JStr "") ;;
        primer_apellido <- py_get datos_generales "primerApellido" (JStr "") ;;
        segundo_apellido <- py_get datos_generales "segundoApellido" (JStr "") ;;
        if truthy nombre && truthy primer_apellido then
          id_registro <- py_get registro "id" (JStr "Sin ID") ;;
          metadata <- py_get registro "metadata" (JObj []) ;;
          institucion <- py_get metadata "institucion" (JStr "Sin institución") ;;
          fecha_actualizacion <- py_get metadata "actualizacion" (JStr "Sin fecha") ;;
          Ok (Some (persona_key nombre primer_apellido segundo_apellido,
                    {| o_id := id_registro;
                       o_nombre := nombre;
                       o_primerApellido := primer_apellido;
                       o_segundoApellido := segundo_apellido;
                       o_institucion := institucion;
                       o_fechaActualizacion := fecha_actualizacion;
                       o_rutaArchivo := ruta |}))
        else Ok None
      else Ok None
    else Ok None
  else Ok None.

(** [defaultdict(list)]: keys in order of first insertion. *)
Definition datos_personas : Type := list (string * list ocurrencia).

(** [datos_personas[k].append(o)] *)
Fixpoint agregar (k : string) (o : ocurrencia) (d : datos_personas)
  : datos_personas :=
  match d with
  | [] => [(k, [o])]
  | (k', os) :: d' =>
      if (k' =? k)%string then (k', os ++ [o]) :: d'
      else (k', os) :: agregar k o d'
  end.

(** The [logger.error] calls of the walk, one per element and one per file
    that raised; progress messages are left out. *)
Inductive entrada_log : Type :=
| ErrorRegistro (ruta : string) (e : excepcion)
| ErrorArchivo (ruta : string) (e : excepcion).

Record estado : Type := {
  st_datos : datos_personas;
  st_log : list entrada_log
}.

Definition estado_inicial : estado := {| st_datos := []; st_log := [] |}.

(** One turn of [for registro in contenido]. *)
Definition paso_registro (ruta : string) (st : estado) (registro : json)
  : estado :=
  match extraer_registro ruta registro with
  | Ok (Some (k, o)) =>
      {| st_datos := agregar k o (st_datos st); st_log := st_log st |}
  | Ok None => st
  | Raise e =>
      {| st_datos := st_datos st;
         st_log := st_log st ++ [ErrorRegistro ruta e] |}
  end.

(** A file the walk meets: its path and what [open] and [json.load] gave. *)
Definition archivo : Type := (string * res json)%type.

Definition procesar_archivo_json (a : archivo) (st : estado) : estado :=
  let (ruta, lectura) := a in
  match lectura with
  | Raise e =>
      {| st_datos := st_datos st; st_log := st_log st ++ [ErrorArchivo ruta e] |}
  | Ok contenido =>
      match iterar (envolver contenido) with
      | Raise e =>
          {| st_datos := st_datos st;
             st_log := st_log st ++ [ErrorArchivo ruta e] |}
      | Ok registros => fold_left (paso_registro ruta) registros st
      end
  end.

(** [explorar_directorios] over the [.json] files [os.walk] yields, in the
    order it yields them. *)
Definition explorar_directorios (archivos : list archivo) : estado :=
  fold_left (fun st a => procesar_archivo_json a st) archivos estado_inicial.

(** A row of the report, the dict appended to [registros]. *)
Record fila : Type := {
  f_nombre : string;
  f_primerApellido : string;
  f_segundoApellido : string;
  f_cantidadOcurrencias : nat;
  f_ocurrenciaNumero : nat;
  f_id : json;
  f_institucion : json;
  f_fechaActualizacion : json;
  f_rutaArchivo : string
}.

(** [pd.DataFrame(registros)], [os.makedirs] and [df.to_excel]: the sink of
    the report, outside the repository. *)
Variable escribir_excel : string -> list fila -> res unit.

(** The rows of one duplicated key: the body of
    [for persona_key, ocurrencias in duplicados.items()]. *)
Definition filas_de_grupo (persona_key : string) (ocurrencias : list ocurrencia)
  : res (list fila) :=
  match split barra persona_key with
  | [nombre; primer_apellido; segundo_apellido] =>
      let cantidad := List.length ocurrencias in
      Ok (map (fun io : nat * ocurrencia =>
                 let (i, oc) := io in
                 {| f_nombre := nombre;
                    f_primerApellido := primer_apellido;
                    f_segundoApellido := segundo_apellido;
                    f_cantidadOcurrencias := cantidad;
                    f_ocurrenciaNumero := i;
                    f_id := o_id oc;
                    f_institucion := o_institucion oc;
                    f_fechaActualizacion := o_fechaActualizacion oc;
                    f_rutaArchivo := o_rutaArchivo oc |})
              (enumerate 1 ocurrencias))
  | _ => Raise ValueError
  end.

Fixpoint construir_registros (duplicados : datos_personas) (registros : list fila)
  : res (list fila) :=
  match duplicados with
  | [] => Ok registros
  | (k, ocs) :: resto =>
      fs <- filas_de_grupo k ocs ;;
      construir_registros resto (registros ++ fs)
  end.

(** What [generar_informe_duplicados] did: nothing to report (a
    [logger.info], [return False]), the report handed to the sink
    ([return True]), or an exception caught by its [except]
    ([logger.error], [return False]). *)
Inductive informe : Type :=
| SinDuplicados
| InformeGenerado (registros : list fila)
| ErrorInforme (e : excepcion).

Definition retorno (i : informe) : bool :=
  match i with
  | InformeGenerado _ => true
  | _ => false
  end.

Definition filas_informe (i : informe) : list fila :=
  match i with
  | InformeGenerado registros => registros
  | _ => []
  end.

(** [{k: v for k, v in datos_personas.items() if len(v) > 1}] *)
Definition filtrar_duplicados (d : datos_personas) : datos_personas :=
  filter (fun kv => (1 <? List.length (snd kv))%nat) d.

Definition generar_informe_duplicados (d : datos_personas) (ruta_destino : string)
  : informe :=
  let duplicados := filtrar_duplicados d in
  match duplicados with
  | [] => SinDuplicados
  | _ =>
      match construir_registros duplicados [] with
      | Raise e => ErrorInforme e
      | Ok registros =>
          match escribir_excel ruta_destino registros with
          | Raise e => ErrorInforme e
          | Ok _ => InformeGenerado registros
          end
      end
  end.

(** ** The partitioned detectors, [detector_duplicados_1_v2.py] and
    [detector_duplicados_s1_v3.py] *)

(** The dict [extraer_datos_persona] returns; [rutaArchivo] is set by the
    caller. *)
Record persona : Type := {
  p_id : json;
  p_nombre : json;
  p_primerApellido : json;
  p_segundoApellido : json;
  p_nombreCompleto : string;
  p_institucion : json;
  p_fechaActualizacion : json;
  p_tipoDeclaracion : json;
  p_rutaArchivo : option string
}.

(** [f"{nombre} {primer_apellido} {segundo_apellido}"] *)
Definition nombre_completo (nombre primer segundo : json) : string :=
  (formato nombre ++ " " ++ formato primer ++ " " ++ formato segundo)%string.

(** The body of the [try] of [extraer_datos_persona]. *)
Definition cuerpo_extraer (registro : json) : res (option persona) :=
  c1 <- py_in "declaracion" registro ;;
  if (c1 : bool) then
    decl <- py_getitem registro "declaracion" ;;
    c2 <- py_in "situacionPatrimonial" decl ;;
    if (c2 : bool) then
      sp <- py_getitem decl "situacionPatrimonial" ;;
      datos_generales <- py_get sp "datosGenerales" (JObj []) ;;
      if truthy datos_generales then
        nombre <- py_get datos_generales "nombre" (JStr "") ;;
        primer_apellido <- py_get datos_generales "primerApellido" (JStr "") ;;
        segundo_apellido <- py_get datos_generales "segundoApellido" (JStr "") ;;
        id_registro <- py_get registro "id" (JStr "Sin ID") ;;
        metadata <- py_get registro "metadata" (JObj []) ;;
        institucion <- py_get metadata "institucion" (JStr "Sin institución") ;;
        fecha_actualizacion <- py_get metadata "actualizacion" (JStr "Sin fecha") ;;
        tipo_declaracion <- py_get metadata "tipo" (JStr "Sin tipo") ;;
        Ok (Some {| p_id := id_registro;
                    p_nombre := nombre;
                    p_primerApellido := primer_apellido;
                    p_segundoApellido := segundo_apellido;
                    p_nombreCompleto :=
                      nombre_completo nombre primer_apellido segundo_apellido;
                    p_institucion := institucion;
                    p_fechaActualizacion := fecha_actualizacion;
                    p_tipoDeclaracion := tipo_declaracion;
                    p_rutaArchivo := None |})
      else Ok None
    else Ok None
  else Ok None.

(** [extraer_datos_persona]: an exception is logged and [None] returned. *)
Definition extraer_datos_persona (registro : json) : option persona :=
  match cuerpo_extraer registro with
  | Ok r => r
  | Raise _ => None
  end.

(** [datos_persona['rutaArchivo'] = ruta_completa] *)
Definition con_ruta (ruta : string) (p : persona) : persona :=
  {| p_id := p_id p;
     p_nombre := p_nombre p;
     p_primerApellido := p_primerApellido p;
     p_segundoApellido := p_segundoApellido p;
     p_nombreCompleto := p_nombreCompleto p;
     p_institucion := p_institucion p;
     p_fechaActualizacion := p_fechaActualizacion p;
     p_tipoDeclaracion := p_tipoDeclaracion p;
     p_rutaArchivo := Some ruta |}.

(** One turn of [for registro in contenido] in
    [leer_archivos_json_directorio]. *)
Definition paso_persona (ruta : string) (registros : list persona)
  (registro : json) : list persona :=
  match extraer_datos_persona registro with
  | Some datos_persona => registros ++ [con_ruta ruta datos_persona]
  | None => registros
  end.

(** One turn of [for archivo in archivos_json]: a file that raises leaves
    the counter as it was. *)
Definition paso_archivo (acc : list persona * nat) (a : archivo)
  : list persona * nat :=
  let (registros, archivos_procesados) := acc in
  let (ruta, lectura) := a in
  match lectura with
  | Raise _ => acc
  | Ok contenido =>
      match iterar (envolver contenido) with
      | Raise _ => acc
      | Ok elementos =>
          (fold_left (paso_persona ruta) elementos registros,
           S archivos_procesados)
      end
  end.

(** [leer_archivos_json_directorio], over what [os.listdir] gave: an error,
    or the [.json] files of the directory in listing order. *)
Definition leer_archivos_json_directorio (listado : res (list archivo))
  : list persona * nat :=
  match listado with
  | Raise _ => ([], 0)
  | Ok archivos_json => fold_left paso_archivo archivos_json ([], 0)
  end.

(** A row of the frame [analizar_duplicados] returns: the person and the
    merged column [cantidadOcurrencias]. *)
Record fila_duplicado : Type := {
  d_persona : persona;
  d_cantidadOcurrencias : nat
}.

Definition d_nombreCompleto (r : fila_duplicado) : string :=
  p_nombreCompleto (d_persona r).

(** [df.duplicated(['nombreCompleto'], keep=False)] at one row. *)
Definition duplicated (df : list persona) (p : persona) : bool :=
  (1 <? contar_nombre (p_nombreCompleto p) (map p_nombreCompleto df))%nat.

(** [duplicados.merge(conteo, on='nombreCompleto', how='left')]: the rows of
    the left frame in their order, each joined with the rows of [conteo] of
    the same name. *)
Definition merge_left (duplicados : list persona) (conteo : list (string * nat))
  : list fila_duplicado :=
  flat_map (fun p =>
              map (fun kv => {| d_persona := p; d_cantidadOcurrencias := snd kv |})
                  (filter (fun kv => (fst kv =? p_nombreCompleto p)%string) conteo))
           duplicados.

(** The order of [sort_values(by=['cantidadOcurrencias', 'nombreCompleto'],
    ascending=[False, True])]; Python compares strings by code point, which
    is the byte order of their UTF-8 form. *)
Definition orden_filas (a b : fila_duplicado) : bool :=
  (d_cantidadOcurrencias b <? d_cantidadOcurrencias a)%nat
  || ((d_cantidadOcurrencias a =? d_cantidadOcurrencias b)%nat
      && (d_nombreCompleto a <=? d_nombreCompleto b)%string).

Definition sort_values (rows : list fila_duplicado) : list fila_duplicado :=
  ordenar orden_filas rows.

Definition analizar_duplicados (df : list persona)
  : list fila_duplicado * nat :=
  match df with
  | [] => ([], 0)
  | _ =>
      match filter (duplicated df) df with
      | [] => ([], 0)
      | duplicados =>
          let conteo := value_counts (map p_nombreCompleto df) in
          let duplicados := merge_left duplicados conteo in
          let duplicados := sort_values duplicados in
          (duplicados, List.length (unique (map d_nombreCompleto duplicados)))
      end
  end.

End Detector.

(** ** Running the detectors on small batches *)

Definition str_demo (v : json) : string := "?".

Definition excel_demo (ruta : string) (registros : list fila) : res unit :=
  Ok tt.

Definition declaracion (id : string) (n p s : string) : json :=
  JObj [("id", JStr id);
        ("declaracion",
         JObj [("situacionPatrimonial",
                JObj [("datosGenerales",
                       JObj [("nombre", JStr n);
                             ("primerApellido", JStr p);
                             ("segundoApellido", JStr s)])])])].

(** The name tuple of a stored person. *)
Definition tupla_ocurrencia (o : ocurrencia) : json * json * json :=
  (o_nombre o, o_primerApellido o, o_segundoApellido o).

Definition tupla_persona (p : persona) : json * json * json :=
  (p_nombre p, p_primerApellido p, p_segundoApellido p).

(** Three files with the same person and one file with another. *)
Definition lote_ana : list archivo :=
  [("a.json", Ok (declaracion "1" "Ana" "Lopez" "Garcia"));
   ("b.json", Ok (JArr [declaracion "2" "Ana" "Lopez" "Garcia";
                        declaracion "3" "Bob" "Diaz" ""]));
   ("c.json", Ok (declaracion "4" "Ana" "Lopez" "Garcia"))].

(** Two persons whose names differ and whose joined keys are equal. *)
Definition lote_barra : list archivo :=
  [("a.json", Ok (declaracion "1" "Ana|Maria" "Lopez" "Garcia"));
   ("b.json", Ok (declaracion "2" "Ana" "Maria|Lopez" "Garcia"))].

Definition lote_espacio : list archivo :=
  [("a.json", Ok (declaracion "1" "Juan de" "la Cruz" "Perez"));
   ("b.json", Ok (declaracion "2" "Juan" "de la Cruz" "Perez"))].

(** A key met twice before a key met three times. *)
Definition lote_dos_tres : list archivo :=
  [("a.json", Ok (JArr [declaracion "1" "Ana" "Lopez" "Garcia";
                        declaracion "2" "Ana" "Lopez" "Garcia"]));
   ("b.json", Ok (JArr [declaracion "3" "Bob" "Diaz" "Ruiz";
                        declaracion "4" "Bob" "Diaz" "Ruiz";
                        declaracion "5" "Bob" "Diaz" "Ruiz"]))].

(** The same two files listed in the two possible orders. *)
Definition lote_ida : list archivo :=
  [("a.json", Ok (declaracion "1" "Ana" "Lopez" "Garcia"));
   ("b.json", Ok (declaracion "2" "Ana" "Lopez" "Garcia"))].

Definition lote_vuelta : list archivo := rev lote_ida.

(** A file with a [null] between two declarations. *)
Definition archivo_con_nulo : list json :=
  [declaracion "1" "Ana" "Lopez" "Garcia"; JNull;
   declaracion "2" "Bob" "Diaz" "Ruiz"].

(** The path is there and [datosGenerales] is the empty object. *)
Definition registro_vacio : list (string * json) :=
  [("declaracion",
    JObj [("situacionPatrimonial", JObj [("datosGenerales", JObj [])])])].

(** The path is there and the three names are empty strings. *)
Definition registro_sin_nombre : list (string * json) :=
  [("declaracion",
    JObj [("situacionPatrimonial",
           JObj [("datosGenerales",
                  JObj [("nombre", JStr ""); ("primerApellido", JStr "");
                        ("segundoApellido", JStr "")])])])].

(** The shape the detectors look for: an object with the nested path
    [declaracion], [situacionPatrimonial], [datosGenerales] made of objects,
    a name and a first surname that are not empty, and a [metadata] member
    that is an object when there is one. *)
Definition metadata_valida (r : list (string * json)) : bool :=
  match dict_lookup "metadata" r with
  | None => true
  | Some (JObj _) => true
  | Some _ => false
  end.

Definition forma_esperada (registro : json) : bool :=
  match registro with
  | JObj r =>
      match dict_lookup "declaracion" r with
      | Some (JObj d) =>
          match dict_lookup "situacionPatrimonial" d with
          | Some (JObj sp) =>
              match dict_lookup "datosGenerales" sp with
              | Some (JObj g) =>
                  match dict_lookup "nombre" g, dict_lookup "primerApellido" g with
                  | Some n, Some p => truthy n && truthy p && metadata_valida r
                  | _, _ => false
                  end
              | _ => false
              end
          | _ => false
          end
      | _ => false
      end
  | _ => false
  end.

(** An element on which the navigation of both extractors raises. *)
Definition navegacion_falla (str_py : json -> string) (registro : json) : bool :=
  match extraer_registro str_py "" registro, cuerpo_extraer str_py registro with
  | Raise _, Raise _ => true
  | _, _ => false
  end.

(** What one element of a file adds to the accumulator and to the log of
    the whole-tree detector. *)
Definition emitido (str_py : json -> string) (ruta : string) (registro : json)
  : list (string * ocurrencia) :=
  match extraer_registro str_py ruta registro with
  | Ok (Some ko) => [ko]
  | _ => []
  end.

Definition error_de_registro (str_py : json -> string) (ruta : string)
  (registro : json) : list entrada_log :=
  match extraer_registro str_py ruta registro with
  | Raise e => [ErrorRegistro ruta e]
  | _ => []
  end.

(** The persons one file hands to the accumulator, in the order of the
    file, and those of a whole walk. *)
Definition emitidos_archivo (str_py : json -> string) (a : archivo)
  : list (string * ocurrencia) :=
  match snd a with
  | Raise _ => []
  | Ok contenido =>
      match iterar (envolver contenido) with
      | Raise _ => []
      | Ok registros => flat_map (emitido str_py (fst a)) registros
      end
  end.

Definition emitidos (str_py : json -> string) (archivos : list archivo)
  : list (string * ocurrencia) :=
  flat_map (emitidos_archivo str_py) archivos.

Definition acumular (es : list (string * ocurrencia)) (d : datos_personas)
  : datos_personas :=
  fold_left (fun d ko => agregar (fst ko) (snd ko) d) es d.

(** The value of a name field of [datosGenerales], [''] when it is absent,
    and the test that the three of them are empty strings. *)
Definition campo (g : list (string * json)) (k : string) : json :=
  match dict_lookup k g with
  | Some v => v
  | None => JStr ""
  end.

Definition es_cadena_vacia (v : json) : bool :=
  match v with
  | JStr EmptyString => true
  | _ => false
  end.

Definition nombres_vacios (g : list (string * json)) : bool :=
  es_cadena_vacia (campo g "nombre")
  && es_cadena_vacia (campo g "primerApellido")
  && es_cadena_vacia (campo g "segundoApellido").

(** [datos_personas[k]] read without inserting: the list filed under [k],
    empty when the key is absent. *)
Fixpoint buscar (k : string) (d : datos_personas) : list ocurrencia :=
  match d with
  | [] => []
  | (k', os) :: d' => if (k' =? k)%string then os else buscar k d'
  end.

(** The key a row of the report belongs to, and the rows of one key. *)
Definition clave_fila (f : fila) : string :=
  (f_nombre f ++ "|" ++ f_primerApellido f ++ "|" ++ f_segundoApellido f)%string.

Definition filas_de_clave (k : string) (filas : list fila) : list fila :=
  filter (fun f => (clave_fila f =? k)%string) filas.

(** What a row copies from the stored dict. *)
Definition datos_fila (f : fila) : json * json * json * string :=
  (f_id f, f_institucion f, f_fechaActualizacion f, f_rutaArchivo f).

Definition datos_ocurrencia (o : ocurrencia) : json * json * json * string :=
  (o_id o, o_institucion o, o_fechaActualizacion o, o_rutaArchivo o).

(** The two sort columns of a row of [analizar_duplicados], and the order
    of [sort_values] read on them. *)
Definition clave_orden (r : fila_duplicado) : nat * string :=
  (d_cantidadOcurrencias r, d_nombreCompleto r).

Definition orden_claves (a b : nat * string) : bool :=
  (fst b <? fst a)%nat
  || ((fst a =? fst b)%nat && (snd a <=? snd b)%string).

(** The row [merge] builds for a person of the frame [df]. *)
Definition con_conteo (df : list persona) (p : persona) : fila_duplicado :=
  {| d_persona := p;
     d_cantidadOcurrencias :=
       contar_nombre (p_nombreCompleto p) (map p_nombreCompleto df) |}.

(** Number of persons filed in the accumulator. *)
Definition total_ocurrencias (d : datos_personas) : nat :=
  list_sum (map (fun kv => List.length (snd kv)) d).

(** ** The sinks and the directory loops of the partitioned detectors *)

(** [s.replace(old, new)] for two one-character strings. *)
Fixpoint replace (old new : ascii) (s : string) : string :=
  match s with
  | EmptyString => EmptyString
  | String c s' => String (if Ascii.eqb c old then new else c) (replace old new s')
  end.

Definition barra_diagonal : ascii := "/"%char.
Definition contrabarra : ascii := ascii_of_nat 92.
Definition espacio : ascii := " "%char.
Definition guion_bajo : ascii := "_"%char.

(** [nombre_directorio.replace('/', '_').replace('\\', '_').replace(' ', '_')]
    in [guardar_csv]. *)
Definition nombre_archivo_seguro (nombre_directorio : string) : string :=
  replace espacio guion_bajo
    (replace contrabarra guion_bajo
       (replace barra_diagonal guion_bajo nombre_directorio)).

(** [f"duplicados_{nombre_archivo_seguro}.csv"] *)
Definition nombre_archivo (nombre_directorio : string) : string :=
  ("duplicados_" ++ nombre_archivo_seguro nombre_directorio ++ ".csv")%string.

(** A row of the summary, the dict appended to [resultados_directorios]. *)
Record fila_resumen : Type := {
  r_directorio : string;
  r_archivos : nat;
  r_registros : nat;
  r_cantidadDuplicados : nat;
  r_nombresDuplicados : nat
}.

(** The calls [detector_duplicados_s1_v3.py] makes on the operating system
    and on the CSV writer.  [OsMakedirs] carries the [mode] argument when
    one is given ([0o777] is 511), [Chmod] is the [chmod 777] subprocess,
    [EscribirPrueba] is opening the test file and writing to it. *)
Inductive llamada : Type :=
| OsPathExists (ruta : string)
| OsPathIsdir (ruta : string)
| OsAccess (ruta : string)
| OsMakedirs (ruta : string) (mode : option nat)
| Chmod (ruta : string)
| EscribirPrueba (ruta : string)
| OsRemove (ruta : string)
| ToCsv (ruta : string) (df : list fila_duplicado)
| ResumenToCsv (ruta : string) (resumen : list fila_resumen).

(** The system the script runs on, outside the repository.  What a call
    answers may depend on the calls made before it: [consulta] answers the
    tests ([os.path.exists], [os.path.isdir], [os.access]), [efecto] the
    calls that can raise, with [None] for a call that went through and
    [Some m] for an exception whose [str] is [m]. *)
Record sistema : Type := {
  consulta : list llamada -> llamada -> bool;
  efecto : list llamada -> llamada -> option string;
  os_path_join : string -> string -> string;
  os_path_normpath : string -> string;
  gettempdir : string;
  es_windows : bool;
  hora : list llamada -> string;
  fecha_hora : list llamada -> string
}.

Definition consultar (sis : sistema) (c : llamada) (h : list llamada)
  : bool * list llamada :=
  (consulta sis h c, h ++ [c]).

Definition efectuar (sis : sistema) (c : llamada) (h : list llamada)
  : option string * list llamada :=
  (efecto sis h c, h ++ [c]).

(** [verificar_permisos_directorio]; [h] is the list of calls made so far,
    returned with the calls of the function added. *)
Definition verificar_permisos_directorio (sis : sistema) (ruta : string)
  (h : list llamada) : bool * list llamada :=
  let ruta := os_path_normpath sis ruta in
  let (existe, h) := consultar sis (OsPathExists ruta) h in
  let (hay_directorio, h) :=
    if existe then (true, h)
    else
      let (r, h) := efectuar sis (OsMakedirs ruta (Some 511)) h in
      match r with
      | None => (true, h)
      | Some _ => (false, h)
      end in
  if negb hay_directorio then (false, h)
  else
    let (es_directorio, h) := consultar sis (OsPathIsdir ruta) h in
    if negb es_directorio then (false, h)
    else
      let (escribible, h) := consultar sis (OsAccess ruta) h in
      if negb escribible then
        if negb (es_windows sis) then
          let (r, h) := efectuar sis (Chmod ruta) h in
          match r with
          | None => consultar sis (OsAccess ruta) h
          | Some _ => (false, h)
          end
        else (false, h)
      else
        let test_file_path :=
          os_path_join sis ruta ("test_permisos_" ++ hora sis h ++ ".tmp")%string in
        let (r, h) := efectuar sis (EscribirPrueba test_file_path) h in
        match r with
        | Some _ => (false, h)
        | None =>
            let (r, h) := efectuar sis (OsRemove test_file_path) h in
            match r with
            | Some _ => (false, h)
            | None => (true, h)
            end
        end.

(** [guardar_csv] *)
Definition guardar_csv (sis : sistema) (df : list fila_duplicado)
  (directorio_destino nombre_directorio : string) (usar_temp : bool)
  (h : list llamada) : bool * list llamada :=
  let directorio_destino :=
    if usar_temp then gettempdir sis else directorio_destino in
  let (existe, h) := consultar sis (OsPathExists directorio_destino) h in
  let '(seguir, directorio_destino, h) :=
    if existe then (true, directorio_destino, h)
    else
      let (r, h) := efectuar sis (OsMakedirs directorio_destino None) h in
      match r with
      | None => (true, directorio_destino, h)
      | Some _ =>
          if negb usar_temp then (true, gettempdir sis, h)
          else (false, directorio_destino, h)
      end in
  if negb seguir then (false, h)
  else
    let ruta_archivo :=
      os_path_join sis directorio_destino (nombre_archivo nombre_directorio) in
    let (r, h) := efectuar sis (ToCsv ruta_archivo df) h in
    match r with
    | None => (true, h)
    | Some e =>
        if negb usar_temp && es_subcadena "Permission denied" e then
          let ruta_temp :=
            os_path_join sis (gettempdir sis) (nombre_archivo nombre_directorio) in
          let (r, h) := efectuar sis (ToCsv ruta_temp df) h in
          match r with
          | None => (true, h)
          | Some _ => (false, h)
          end
        else (false, h)
    end.

(** [guardar_resumen] *)
Definition guardar_resumen (sis : sistema) (resumen_df : list fila_resumen)
  (directorio_destino : string) (usar_temp : bool) (h : list llamada)
  : bool * list llamada :=
  let directorio_destino :=
    if usar_temp then gettempdir sis else directorio_destino in
  let nombre := ("resumen_duplicados_" ++ fecha_hora sis h ++ ".csv")%string in
  let ruta_archivo := os_path_join sis directorio_destino nombre in
  let (r, h) := efectuar sis (ResumenToCsv ruta_archivo resumen_df) h in
  match r with
  | None => (true, h)
  | Some _ =>
      if negb usar_temp then
        let ruta_temp := os_path_join sis (gettempdir sis) nombre in
        let (r, h) := efectuar sis (ResumenToCsv ruta_temp resumen_df) h in
        match r with
        | None => (true, h)
        | Some _ => (false, h)
        end
      else (false, h)
  end.

(** The counters and the summary rows of [procesar_directorio_raiz]; the
    counters are what its last log line reports. *)
Record estado_raiz : Type := {
  total_archivos : nat;
  total_directorios : nat;
  total_registros : nat;
  total_duplicados : nat;
  resultados_directorios : list fila_resumen
}.

Definition estado_raiz_inicial : estado_raiz :=
  {| total_archivos := 0;
     total_directorios := 0;
     total_registros := 0;
     total_duplicados := 0;
     resultados_directorios := [] |}.

(** An immediate subdirectory of the root: its name and what listing it and
    reading its [.json] files gave. *)
Definition subdirectorio : Type := (string * res (list archivo))%type.

(** [detector_duplicados_1_v2.py].  [guardar_excel] and
    [crear_hoja_resumen] are not embedded: each catches its own exceptions
    and the loop ignores what it returns, so the model keeps the arguments
    of the calls. *)
Module V2.

Record estado_bucle : Type := {
  contadores : estado_raiz;
  hojas : list (string * list fila_duplicado)
}.

(** One turn of [for i, subdir in enumerate(subdirectorios, 1)]. *)
Definition paso_subdirectorio (str_py : json -> string) (st : estado_bucle)
  (sd : subdirectorio) : estado_bucle :=
  let (subdir, listado) := sd in
  let c := contadores st in
  let (registros, archivos_procesados) :=
    leer_archivos_json_directorio str_py listado in
  let total_archivos' := total_archivos c + archivos_procesados in
  let total_directorios' :=
    if (0 <? archivos_procesados)%nat then S (total_directorios c)
    else total_directorios c in
  match registros with
  | [] =>
      {| contadores :=
           {| total_archivos := total_archivos';
              total_directorios := total_directorios';
              total_registros := total_registros c;
              total_duplicados := total_duplicados c;
              resultados_directorios :=
                resultados_directorios c
                ++ [{| r_directorio := subdir;
                       r_archivos := archivos_procesados;
                       r_registros := 0;
                       r_cantidadDuplicados := 0;
                       r_nombresDuplicados := 0 |}] |};
         hojas := hojas st |}
  | df =>
      let (duplicados_df, num_nombres_duplicados) := analizar_duplicados df in
      let guardado :=
        match duplicados_df with
        | [] => false
        | _ => true
        end in
      {| contadores :=
           {| total_archivos := total_archivos';
              total_directorios := total_directorios';
              total_registros := total_registros c + List.length df;
              total_duplicados :=
                if guardado then total_duplicados c + List.length duplicados_df
                else total_duplicados c;
              resultados_directorios :=
                resultados_directorios c
                ++ [{| r_directorio := subdir;
                       r_archivos := archivos_procesados;
                       r_registros := List.length df;
                       r_cantidadDuplicados := List.length duplicados_df;
                       r_nombresDuplicados := num_nombres_duplicados |}] |};
         hojas :=
           if guardado then hojas st ++ [(subdir, duplicados_df)]
           else hojas st |}
  end.

(** What [procesar_directorio_raiz] returned and did: its boolean, the
    counters and summary rows, the calls of [guardar_excel], and the
    argument of [crear_hoja_resumen] when it was called. *)
Record salida : Type := {
  retorno_raiz : bool;
  final : estado_bucle;
  resumen : option (list fila_resumen)
}.

Definition bucle_inicial : estado_bucle :=
  {| contadores := estado_raiz_inicial; hojas := [] |}.

Definition procesar_directorio_raiz (str_py : json -> string)
  (origen_es_directorio destino_existe : bool) (os_remove : res unit)
  (subdirectorios : res (list subdirectorio)) : salida :=
  let fallo :=
    {| retorno_raiz := false; final := bucle_inicial; resumen := None |} in
  if negb origen_es_directorio then fallo
  else
    match (if destino_existe then os_remove else Ok tt) with
    | Raise _ => fallo
    | Ok _ =>
        match subdirectorios with
        | Raise _ => fallo
        | Ok subdirs =>
            let st := fold_left (paso_subdirectorio str_py) subdirs bucle_inicial in
            {| retorno_raiz := true;
               final := st;
               resumen :=
                 match resultados_directorios (contadores st) with
                 | [] => None
                 | rs => Some rs
                 end |}
        end
    end.

End V2.

(** [detector_duplicados_s1_v3.py] *)
Module V3.

Record estado_bucle : Type := {
  contadores : estado_raiz;
  historia : list llamada
}.

(** One turn of [for i, subdir in enumerate(subdirectorios, 1)]. *)
Definition paso_subdirectorio (sis : sistema) (str_py : json -> string)
  (dir_destino : string) (usar_temp : bool) (st : estado_bucle) (sd : subdirectorio)
  : estado_bucle :=
  let (subdir, listado) := sd in
  let c := contadores st in
  let (registros, archivos_procesados) :=
    leer_archivos_json_directorio str_py listado in
  let total_archivos' := total_archivos c + archivos_procesados in
  let total_directorios' :=
    if (0 <? archivos_procesados)%nat then S (total_directorios c)
    else total_directorios c in
  match registros with
  | [] =>
      {| contadores :=
           {| total_archivos := total_archivos';
              total_directorios := total_directorios';
              total_registros := total_registros c;
              total_duplicados := total_duplicados c;
              resultados_directorios :=
                resultados_directorios c
                ++ [{| r_directorio := subdir;
                       r_archivos := archivos_procesados;
                       r_registros := 0;
                       r_cantidadDuplicados := 0;
                       r_nombresDuplicados := 0 |}] |};
         historia := historia st |}
  | df =>
      let (duplicados_df, num_nombres_duplicados) := analizar_duplicados df in
      let (resultado, h) :=
        match duplicados_df with
        | [] => (false, historia st)
        | _ => guardar_csv sis duplicados_df dir_destino subdir usar_temp
                 (historia st)
        end in
      {| contadores :=
           {| total_archivos := total_archivos';
              total_directorios := total_directorios';
              total_registros := total_registros c + List.length df;
              total_duplicados :=
                if resultado then total_duplicados c + List.length duplicados_df
                else total_duplicados c;
              resultados_directorios :=
                resultados_directorios c
                ++ [{| r_directorio := subdir;
                       r_archivos := archivos_procesados;
                       r_registros := List.length df;
                       r_cantidadDuplicados := List.length duplicados_df;
                       r_nombresDuplicados := num_nombres_duplicados |}] |};
         historia := h |}
  end.

Record salida : Type := {
  retorno_raiz : bool;
  final : estado_bucle;
  temporal : bool
}.

(** [procesar_directorio_raiz].  [sort_resumen] is
    [resumen_df.sort_values('cantidadDuplicados', ascending=False)], a sort
    on one column, whose order among equal rows pandas does not fix. *)
Definition procesar_directorio_raiz (sis : sistema) (str_py : json -> string)
  (sort_resumen : list fila_resumen -> list fila_resumen)
  (dir_origen dir_destino : string) (usar_temp : bool)
  (subdirectorios : res (list subdirectorio)) (h : list llamada) : salida :=
  let (origen_es_directorio, h) := consultar sis (OsPathIsdir dir_origen) h in
  if negb origen_es_directorio then
    {| retorno_raiz := false;
       final := {| contadores := estado_raiz_inicial; historia := h |};
       temporal := usar_temp |}
  else
    let dir_destino := if usar_temp then gettempdir sis else dir_destino in
    let '(usar_temp, dir_destino, h) :=
      if negb usar_temp then
        let (permisos, h) := verificar_permisos_directorio sis dir_destino h in
        if negb permisos then (true, gettempdir sis, h)
        else (usar_temp, dir_destino, h)
      else (usar_temp, dir_destino, h) in
    let inicio := {| contadores := estado_raiz_inicial; historia := h |} in
    match subdirectorios with
    | Raise _ =>
        {| retorno_raiz := false; final := inicio; temporal := usar_temp |}
    | Ok [] =>
        {| retorno_raiz := false; final := inicio; temporal := usar_temp |}
    | Ok subdirs =>
        let st :=
          fold_left (paso_subdirectorio sis str_py dir_destino usar_temp)
            subdirs inicio in
        let h :=
          match resultados_directorios (contadores st) with
          | [] => historia st
          | rs =>
              snd (guardar_resumen sis (sort_resumen rs) dir_destino usar_temp
                     (historia st))
          end in
        {| retorno_raiz := true;
           final := {| contadores := contadores st; historia := h |};
           temporal := usar_temp |}
    end.

End V3.

(** A JSON document that is neither an object, an array nor a string. *)
Definition es_escalar (contenido : json) : bool :=
  match contenido with
  | JNull | JBool _ | JInt _ | JFloat _ => true
  | _ => false
  end.

(** A file that reaches the [except] of the file: its reading raised or its
    document is a scalar. *)
Definition archivo_fallido (a : archivo) : bool :=
  match snd a with
  | Raise _ => true
  | Ok contenido => es_escalar contenido
  end.

(** The persons one file of a directory gives to
    [leer_archivos_json_directorio], in the order of the file. *)
Definition personas_archivo (str_py : json -> string) (a : archivo)
  : list persona :=
  match snd a with
  | Raise _ => []
  | Ok contenido =>
      match iterar (envolver contenido) with
      | Raise _ => []
      | Ok elementos =>
          flat_map (fun v => match extraer_datos_persona str_py v with
                             | Some p => [con_ruta (fst a) p]
                             | None => []
                             end) elementos
      end
  end.

(** Reading a list of calls [nuevas] made after the calls [h]: the paths
    [to_csv] was called on, and the paths on which the call went through. *)
Definition ruta_csv (c : llamada) : list string :=
  match c with
  | ToCsv ruta _ => [ruta]
  | ResumenToCsv ruta _ => [ruta]
  | _ => []
  end.

Definition csv_intentados (nuevas : list llamada) : list string :=
  flat_map ruta_csv nuevas.

Fixpoint csv_escritos (sis : sistema) (h nuevas : list llamada) : list string :=
  match nuevas with
  | [] => []
  | c :: resto =>
      (match c with
       | ToCsv ruta _ | ResumenToCsv ruta _ =>
           match efecto sis h c with
           | None => [ruta]
           | Some _ => []
           end
       | _ => []
       end) ++ csv_escritos sis (h ++ [c]) resto
  end.

(** The path a call is made on. *)
Definition ruta_llamada (c : llamada) : string :=
  match c with
  | OsPathExists r | OsPathIsdir r | OsAccess r | OsMakedirs r _ | Chmod r
  | EscribirPrueba r | OsRemove r | ToCsv r _ | ResumenToCsv r _ => r
  end.

Definition es_chmod (c : llamada) : bool :=
  match c with
  | Chmod _ => true
  | _ => false
  end.

(** What the system answered to the calls [nuevas] made after [h]. *)
Fixpoint consultas (sis : sistema) (h nuevas : list llamada)
  : list (llamada * bool) :=
  match nuevas with
  | [] => []
  | c :: resto => (c, consulta sis h c) :: consultas sis (h ++ [c]) resto
  end.

Fixpoint efectos (sis : sistema) (h nuevas : list llamada)
  : list (llamada * option string) :=
  match nuevas with
  | [] => []
  | c :: resto => (c, efecto sis h c) :: efectos sis (h ++ [c]) resto
  end.

(** A system where every path exists and is writable, and where writing a
    CSV file outside [/tmp] is refused. *)
Definition sistema_demo : sistema :=
  {| consulta := fun _ _ => true;
     efecto := fun _ c =>
       match c with
       | ToCsv ruta _ | ResumenToCsv ruta _ =>
           if String.prefix "/tmp/" ruta then None
           else Some "[Errno 13] Permission denied"
       | _ => None
       end;
     os_path_join := fun a b => (a ++ "/" ++ b)%string;
     os_path_normpath := fun a => a;
     gettempdir := "/tmp";
     es_windows := false;
     hora := fun _ => "120000";
     fecha_hora := fun _ => "20250101_120000" |}.

(** The summary row of one subdirectory, and the frame of duplicates that
    is saved for it when it is not empty. *)
Definition fila_de_subdirectorio (str_py : json -> string) (sd : subdirectorio)
  : fila_resumen :=
  let lectura := leer_archivos_json_directorio str_py (snd sd) in
  let analisis := analizar_duplicados (fst lectura) in
  {| r_directorio := fst sd;
     r_archivos := snd lectura;
     r_registros := List.length (fst lectura);
     r_cantidadDuplicados := List.length (fst analisis);
     r_nombresDuplicados := snd analisis |}.

Definition hoja_de_subdirectorio (str_py : json -> string) (sd : subdirectorio)
  : list (string * list fila_duplicado) :=
  match fst (analizar_duplicados
               (fst (leer_archivos_json_directorio str_py (snd sd)))) with
  | [] => []
  | duplicados_df => [(fst sd, duplicados_df)]
  end.

(** Two directories: one with the same person in two files and an
    unreadable file, one with a single person. *)
Definition raiz_demo : list subdirectorio :=
  [("entidad uno", Ok (lote_ida ++ [("roto.json", Raise OSError)]));
   ("entidad_dos", Ok [("c.json", Ok (declaracion "3" "Bob" "Diaz" "Ruiz"))])].

(** Number of rows of the frames of duplicates that [to_csv] wrote among
    the calls [nuevas] made after [h]. *)
Fixpoint filas_escritas (sis : sistema) (h nuevas : list llamada) : nat :=
  match nuevas with
  | [] => 0
  | c :: resto =>
      (match c with
       | ToCsv _ df =>
           match efecto sis h c with
           | None => List.length df
           | Some _ => 0
           end
       | _ => 0
       end) + filas_escritas sis (h ++ [c]) resto
  end.

(** A sort of the summary by [cantidadDuplicados], largest first. *)
Definition sort_demo (l : list fila_resumen) : list fila_resumen :=
  ordenar (fun a b => (r_cantidadDuplicados b <=? r_cantidadDuplicados a)%nat) l.

(** The same person once in each of two directories. *)
Definition raiz_repartida : list subdirectorio :=
  [("entidad_uno", Ok [("a.json", Ok (declaracion "1" "Ana" "Lopez" "Garcia"))]);
   ("entidad_dos", Ok [("b.json", Ok (declaracion "2" "Ana" "Lopez" "Garcia"))])].

(** ** Properties *)

(** *** The Python operations on small values *)

Example py_in_subcadena :
  py_in "declaracion" (JStr "una declaracion") = Ok true
  /\ py_in "declaracion" (JStr "decl") = Ok false
  /\ py_in "declaracion" (JArr [JInt 1; JStr "declaracion"]) = Ok true
  /\ py_in "declaracion" (JInt 1) = Raise TypeError.
Proof. repeat split. Qed.

Example py_getitem_no_dict :
  py_getitem (JStr "una declaracion") "declaracion" = Raise TypeError
  /\ py_get JNull "institucion" (JStr "Sin institución") = Raise AttributeError.
Proof. split; reflexivity. Qed.

Example dict_lookup_ultimo :
  dict_lookup "id" [("id", JInt 1); ("id", JInt 2)] = Some (JInt 2).
Proof. reflexivity. Qed.

Example split_barra :
  split barra "Ana|Lopez|Garcia" = ["Ana"; "Lopez"; "Garcia"]
  /\ split barra "Bob|Diaz|" = ["Bob"; "Diaz"; ""]
  /\ split barra "Ana|Maria|Lopez|Garcia" = ["Ana"; "Maria"; "Lopez"; "Garcia"]
  /\ split barra "" = [""].
Proof. repeat split. Qed.

Example ordenar_estable :
  ordenar (fun a b : nat * string => (fst a <=? fst b)%nat)
          [(2, "x"); (1, "y"); (2, "z"); (1, "w")]
  = [(1, "y"); (1, "w"); (2, "x"); (2, "z")].
Proof. reflexivity. Qed.

Example value_counts_ejemplo :
  value_counts ["b"; "a"; "b"; "c"; "a"; "b"] = [("b", 3); ("a", 2); ("c", 1)].
Proof. reflexivity. Qed.

Section Propiedades.

Variable str_py : json -> string.
Variable escribir_excel : string -> list fila -> res unit.

(** *** Bare object and one-element array *)

(** C7: a file holding the bare object [o] and a file holding the array
    [[o]] are processed alike, by the whole-tree extractor
    ([procesar_archivo_json]) and by the partitioned one (one turn of the
    file loop of [leer_archivos_json_directorio]); both amount to one
    extraction on [o]. *)
Theorem objeto_como_lista_unitaria :
  forall (o : list (string * json)) (ruta : string) (st : estado)
         (acc : list persona * nat),
    procesar_archivo_json str_py (ruta, Ok (JObj o)) st
    = procesar_archivo_json str_py (ruta, Ok (JArr [JObj o])) st
    /\ procesar_archivo_json str_py (ruta, Ok (JObj o)) st
       = paso_registro str_py ruta st (JObj o)
    /\ paso_archivo str_py acc (ruta, Ok (JObj o))
       = paso_archivo str_py acc (ruta, Ok (JArr [JObj o]))
    /\ paso_archivo str_py acc (ruta, Ok (JObj o))
       = (paso_persona str_py ruta (fst acc) (JObj o), S (snd acc)).
Proof.
  intros o ruta st [registros n]. repeat split.
Qed.

(** *** Empty [datosGenerales] *)

(** C10: in the partitioned extractor, when the path [declaracion],
    [situacionPatrimonial], [datosGenerales] is present and
    [datosGenerales] is the empty object, no person is returned and nothing
    is raised; an absent [datosGenerales] gives the same. *)
Theorem datos_generales_vacio_sin_persona :
  forall (r d sp : list (string * json)),
    dict_lookup "declaracion" r = Some (JObj d) ->
    dict_lookup "situacionPatrimonial" d = Some (JObj sp) ->
    dict_lookup "datosGenerales" sp = Some (JObj [])
    \/ dict_lookup "datosGenerales" sp = None ->
    cuerpo_extraer str_py (JObj r) = Ok None
    /\ extraer_datos_persona str_py (JObj r) = None.
Proof.
  intros r d sp Hd Hsp Hdg.
  assert (H : cuerpo_extraer str_py (JObj r) = Ok None).
  { unfold cuerpo_extraer, py_in, py_getitem, py_get; cbn [bind].
    rewrite Hd; cbn [bind]. rewrite Hsp; cbn [bind].
    destruct Hdg as [-> | ->]; reflexivity. }
  split; [exact H|]. unfold extraer_datos_persona. now rewrite H.
Qed.

(** *** Records without names *)

Lemma py_get_campo (g : list (string * json)) (k : string) :
  py_get (JObj g) k (JStr "") = Ok (campo g k).
Proof. unfold py_get, campo. now destruct (dict_lookup k g). Qed.

Lemma es_cadena_vacia_eq (v : json) :
  es_cadena_vacia v = true -> v = JStr "".
Proof. destruct v as [| | | |[|]| |]; simpl; congruence. Qed.

Lemma metadata_valida_get (r : list (string * json)) :
  metadata_valida r = true ->
  exists m, py_get (JObj r) "metadata" (JObj []) = Ok (JObj m).
Proof.
  unfold metadata_valida, py_get.
  destruct (dict_lookup "metadata" r) as [[]|]; try discriminate; eauto.
Qed.

Lemma py_get_obj_ok (m : list (string * json)) (k : string) (d : json) :
  exists v, py_get (JObj m) k d = Ok v.
Proof. unfold py_get. destruct (dict_lookup k m); eauto. Qed.

(** C4, amended: when the path is present and the three name fields of
    [datosGenerales] resolve to empty strings, the whole-tree extractor
    emits nothing (and raises nothing); the partitioned extractor returns
    nothing when [datosGenerales] is the empty object, and returns a person
    with the three empty names when [datosGenerales] is a non-empty object
    and [metadata] is absent or an object. *)
Theorem registro_sin_nombres :
  forall (r d sp g : list (string * json)) (ruta : string),
    dict_lookup "declaracion" r = Some (JObj d) ->
    dict_lookup "situacionPatrimonial" d = Some (JObj sp) ->
    dict_lookup "datosGenerales" sp = Some (JObj g) ->
    nombres_vacios g = true ->
    extraer_registro str_py ruta (JObj r) = Ok None
    /\ (g = [] -> extraer_datos_persona str_py (JObj r) = None)
    /\ (g <> [] -> metadata_valida r = true ->
        exists p, extraer_datos_persona str_py (JObj r) = Some p
                  /\ p_nombre p = JStr ""
                  /\ p_primerApellido p = JStr ""
                  /\ p_segundoApellido p = JStr ""
                  /\ p_nombreCompleto p = "  ").
Proof.
  intros r d sp g ruta Hd Hsp Hg Hv.
  unfold nombres_vacios in Hv.
  apply andb_prop in Hv as [Hv H3]. apply andb_prop in Hv as [H1 H2].
  apply es_cadena_vacia_eq in H1, H2, H3.
  split; [|split].
  - unfold extraer_registro. unfold py_in, py_getitem.
    rewrite Hd; cbn [bind]. rewrite Hsp; cbn [bind].
    unfold py_get at 1. rewrite Hg; cbn [bind].
    destruct (truthy (JObj g)); [|reflexivity].
    rewrite !py_get_campo; cbn [bind]. rewrite H1. reflexivity.
  - intros ->. unfold extraer_datos_persona, cuerpo_extraer, py_in, py_getitem.
    rewrite Hd; cbn [bind]. rewrite Hsp; cbn [bind].
    unfold py_get at 1. rewrite Hg; cbn [bind]. reflexivity.
  - intros Hne Hm.
    destruct (metadata_valida_get r Hm) as [m Hmeta].
    destruct (py_get_obj_ok r "id" (JStr "Sin ID")) as [vid Hid].
    destruct (py_get_obj_ok m "institucion" (JStr "Sin institución")) as [vi Hi].
    destruct (py_get_obj_ok m "actualizacion" (JStr "Sin fecha")) as [vf Hf].
    destruct (py_get_obj_ok m "tipo" (JStr "Sin tipo")) as [vt Ht].
    unfold extraer_datos_persona, cuerpo_extraer, py_in, py_getitem.
    rewrite Hd; cbn [bind]. rewrite Hsp; cbn [bind].
    unfold py_get at 1. rewrite Hg; cbn [bind].
    assert (Ht' : truthy (JObj g) = true) by (destruct g; [congruence|reflexivity]).
    rewrite Ht'. rewrite !py_get_campo; cbn [bind].
    rewrite Hid; cbn [bind]. rewrite Hmeta; cbn [bind].
    rewrite Hi, Hf, Ht; cbn [bind].
    eexists; split; [reflexivity|]. cbn.
    rewrite H1, H2, H3. repeat split.
Qed.

(** *** One bad element in a file *)

Ltac casos_bind :=
  repeat match goal with
         | |- context [bind ?c _] => destruct c; cbn [bind]
         | |- context [if ?b then _ else _] => destruct b
         end.

(** Whether the navigation raises does not depend on the path of the
    file. *)
Lemma extraer_registro_raise_ruta (ruta ruta' : string) (v : json) (e : excepcion) :
  extraer_registro str_py ruta v = Raise e ->
  extraer_registro str_py ruta' v = Raise e.
Proof.
  unfold extraer_registro. casos_bind; congruence.
Qed.

Lemma forma_esperada_arbol (ruta : string) (v : json) :
  forma_esperada v = true ->
  exists ko, extraer_registro str_py ruta v = Ok (Some ko).
Proof.
  unfold forma_esperada. intros H.
  destruct v as [| | | | | |r]; try discriminate.
  destruct (dict_lookup "declaracion" r) as [[| | | | | |d]|] eqn:Hd; try discriminate.
  destruct (dict_lookup "situacionPatrimonial" d) as [[| | | | | |sp]|] eqn:Hsp;
    try discriminate.
  destruct (dict_lookup "datosGenerales" sp) as [[| | | | | |g]|] eqn:Hg;
    try discriminate.
  destruct (dict_lookup "nombre" g) as [n|] eqn:Hn; try discriminate.
  destruct (dict_lookup "primerApellido" g) as [a|] eqn:Ha; try discriminate.
  apply andb_prop in H as [H Hm].
  destruct (metadata_valida_get r Hm) as [m Hmeta].
  destruct (py_get_obj_ok r "id" (JStr "Sin ID")) as [vid Hid].
  destruct (py_get_obj_ok m "institucion" (JStr "Sin institución")) as [vi Hi].
  destruct (py_get_obj_ok m "actualizacion" (JStr "Sin fecha")) as [vf Hf].
  unfold extraer_registro, py_in, py_getitem.
  rewrite Hd; cbn [bind]. rewrite Hsp; cbn [bind].
  unfold py_get at 1. rewrite Hg; cbn [bind].
  assert (Hgt : truthy (JObj g) = true) by (destruct g; [discriminate|reflexivity]).
  rewrite Hgt, !py_get_campo; cbn [bind].
  unfold campo at 1 2. rewrite Hn, Ha, H.
  rewrite Hid; cbn [bind]. rewrite Hmeta; cbn [bind]. rewrite Hi, Hf; cbn [bind].
  eauto.
Qed.

Lemma forma_esperada_particion (v : json) :
  forma_esperada v = true ->
  exists p, extraer_datos_persona str_py v = Some p.
Proof.
  unfold forma_esperada. intros H.
  destruct v as [| | | | | |r]; try discriminate.
  destruct (dict_lookup "declaracion" r) as [[| | | | | |d]|] eqn:Hd; try discriminate.
  destruct (dict_lookup "situacionPatrimonial" d) as [[| | | | | |sp]|] eqn:Hsp;
    try discriminate.
  destruct (dict_lookup "datosGenerales" sp) as [[| | | | | |g]|] eqn:Hg;
    try discriminate.
  destruct (dict_lookup "nombre" g) as [n|] eqn:Hn; try discriminate.
  destruct (dict_lookup "primerApellido" g) as [a|] eqn:Ha; try discriminate.
  apply andb_prop in H as [H Hm].
  destruct (metadata_valida_get r Hm) as [m Hmeta].
  destruct (py_get_obj_ok r "id" (JStr "Sin ID")) as [vid Hid].
  destruct (py_get_obj_ok m "institucion" (JStr "Sin institución")) as [vi Hi].
  destruct (py_get_obj_ok m "actualizacion" (JStr "Sin fecha")) as [vf Hf].
  destruct (py_get_obj_ok m "tipo" (JStr "Sin tipo")) as [vt Ht].
  unfold extraer_datos_persona, cuerpo_extraer, py_in, py_getitem.
  rewrite Hd; cbn [bind]. rewrite Hsp; cbn [bind].
  unfold py_get at 1. rewrite Hg; cbn [bind].
  assert (Hgt : truthy (JObj g) = true) by (destruct g; [discriminate|reflexivity]).
  rewrite Hgt, !py_get_campo; cbn [bind].
  rewrite Hid; cbn [bind]. rewrite Hmeta; cbn [bind]. rewrite Hi, Hf, Ht; cbn [bind].
  eauto.
Qed.

Lemma navegacion_falla_arbol (ruta : string) (m : json) :
  navegacion_falla str_py m = true ->
  exists e, extraer_registro str_py ruta m = Raise e.
Proof.
  unfold navegacion_falla.
  destruct (extraer_registro str_py "" m) as [|e] eqn:He; try discriminate.
  intros _. exists e. now apply extraer_registro_raise_ruta with (ruta := "").
Qed.

Lemma navegacion_falla_particion (m : json) :
  navegacion_falla str_py m = true ->
  extraer_datos_persona str_py m = None.
Proof.
  unfold navegacion_falla, extraer_datos_persona.
  destruct (extraer_registro str_py "" m); try discriminate.
  destruct (cuerpo_extraer str_py m); try discriminate. reflexivity.
Qed.

(** The accumulator and the log after the elements of a file. *)
Lemma fold_paso_registro_datos (ruta : string) (l : list json) (st : estado) :
  st_datos (fold_left (paso_registro str_py ruta) l st)
  = acumular (flat_map (emitido str_py ruta) l) (st_datos st).
Proof.
  revert st. induction l as [|v l IH]; intros st; [reflexivity|].
  cbn [fold_left flat_map]. rewrite IH. unfold acumular.
  rewrite fold_left_app. f_equal.
  unfold paso_registro, emitido.
  destruct (extraer_registro str_py ruta v) as [[[k o]|]|]; reflexivity.
Qed.

Lemma fold_paso_registro_log (ruta : string) (l : list json) (st : estado) :
  st_log (fold_left (paso_registro str_py ruta) l st)
  = st_log st ++ flat_map (error_de_registro str_py ruta) l.
Proof.
  revert st. induction l as [|v l IH]; intros st.
  - cbn. now rewrite app_nil_r.
  - cbn [fold_left flat_map]. rewrite IH, app_assoc. f_equal.
    unfold paso_registro, error_de_registro.
    destruct (extraer_registro str_py ruta v) as [[[k o]|]|]; cbn;
      now rewrite ?app_nil_r.
Qed.

Lemma total_ocurrencias_agregar (k : string) (o : ocurrencia) (d : datos_personas) :
  total_ocurrencias (agregar k o d) = S (total_ocurrencias d).
Proof.
  unfold total_ocurrencias.
  induction d as [|[k' os] d IH]; [reflexivity|].
  cbn [agregar]. destruct (k' =? k)%string; simpl in *.
  - rewrite length_app. simpl. lia.
  - rewrite IH. lia.
Qed.

Lemma total_ocurrencias_acumular (es : list (string * ocurrencia)) (d : datos_personas) :
  total_ocurrencias (acumular es d) = total_ocurrencias d + List.length es.
Proof.
  revert d. induction es as [|[k o] es IH]; intros d.
  - change (acumular [] d) with d. cbn [List.length]. lia.
  - change (acumular ((k, o) :: es) d) with (acumular es (agregar k o d)).
    rewrite IH, total_ocurrencias_agregar. cbn [List.length]. lia.
Qed.

Lemma emitidos_validos (ruta : string) (l : list json) :
  forallb forma_esperada l = true ->
  List.length (flat_map (emitido str_py ruta) l) = List.length l
  /\ flat_map (error_de_registro str_py ruta) l = [].
Proof.
  induction l as [|v l IH]; [now split|].
  cbn [forallb]. intros H. apply andb_prop in H as [Hv Hl].
  destruct (IH Hl) as [IH1 IH2].
  destruct (forma_esperada_arbol ruta v Hv) as [ko Hko].
  cbn [flat_map]. unfold emitido at 1, error_de_registro at 1.
  rewrite Hko. cbn. now rewrite IH1, IH2.
Qed.

Lemma fold_paso_persona (ruta : string) (l : list json) (regs : list persona) :
  fold_left (paso_persona str_py ruta) l regs
  = regs ++ flat_map (fun v => match extraer_datos_persona str_py v with
                               | Some p => [con_ruta ruta p]
                               | None => []
                               end) l.
Proof.
  revert regs. induction l as [|v l IH]; intros regs.
  - cbn. now rewrite app_nil_r.
  - cbn [fold_left flat_map]. rewrite IH. unfold paso_persona.
    destruct (extraer_datos_persona str_py v); cbn.
    + now rewrite <- app_assoc.
    + reflexivity.
Qed.

Lemma personas_validas (ruta : string) (l : list json) :
  forallb forma_esperada l = true ->
  List.length (flat_map (fun v => match extraer_datos_persona str_py v with
                                  | Some p => [con_ruta ruta p]
                                  | None => []
                                  end) l) = List.length l.
Proof.
  induction l as [|v l IH]; [reflexivity|].
  cbn [forallb]. intros H. apply andb_prop in H as [Hv Hl].
  destruct (forma_esperada_particion v Hv) as [p Hp].
  cbn [flat_map]. rewrite Hp. cbn. now rewrite IH.
Qed.

(** C6: a file whose array holds two elements of the expected shape and one
    element on which the navigation raises, at any place.  The whole-tree
    detector files exactly two more persons, logs one record error and no
    file error, and leaves the accumulator as the same file without the bad
    element would; the partitioned detector adds exactly two records, the
    same as without the bad element, and counts the file as processed. *)
Theorem dos_validos_un_malformado :
  forall (pre post : list json) (m : json) (ruta : string) (st : estado)
         (regs : list persona) (n : nat),
    forallb forma_esperada (pre ++ post) = true ->
    List.length (pre ++ post) = 2 ->
    navegacion_falla str_py m = true ->
    let st' := procesar_archivo_json str_py (ruta, Ok (JArr (pre ++ m :: post))) st in
    let sal := paso_archivo str_py (regs, n) (ruta, Ok (JArr (pre ++ m :: post))) in
    total_ocurrencias (st_datos st') = total_ocurrencias (st_datos st) + 2
    /\ st_datos st'
       = st_datos (procesar_archivo_json str_py (ruta, Ok (JArr (pre ++ post))) st)
    /\ (exists e, st_log st' = st_log st ++ [ErrorRegistro ruta e])
    /\ (exists p1 p2, fst sal = regs ++ [p1; p2])
    /\ fst sal = fst (paso_archivo str_py (regs, n) (ruta, Ok (JArr (pre ++ post))))
    /\ snd sal = S n.
Proof.
  intros pre post m ruta st regs n Hval Hlen Hm st' sal.
  destruct (navegacion_falla_arbol ruta m Hm) as [e He].
  pose proof (navegacion_falla_particion m Hm) as Hp.
  assert (Hem : emitido str_py ruta m = []) by (unfold emitido; now rewrite He).
  assert (Her : error_de_registro str_py ruta m = [ErrorRegistro ruta e])
    by (unfold error_de_registro; now rewrite He).
  destruct (emitidos_validos ruta _ Hval) as [Hn Hlog].
  assert (Hd : st_datos st'
               = acumular (flat_map (emitido str_py ruta) (pre ++ post)) (st_datos st)).
  { subst st'. cbn [procesar_archivo_json envolver iterar].
    rewrite fold_paso_registro_datos.
    rewrite !flat_map_app. cbn [flat_map]. now rewrite Hem. }
  split; [|split; [|split; [|split; [|split]]]].
  - rewrite Hd, total_ocurrencias_acumular, Hn, Hlen. reflexivity.
  - rewrite Hd. cbn [procesar_archivo_json envolver iterar].
    now rewrite fold_paso_registro_datos.
  - exists e. subst st'. cbn [procesar_archivo_json envolver iterar].
    rewrite fold_paso_registro_log. f_equal.
    rewrite flat_map_app in Hlog |- *. apply app_eq_nil in Hlog as [-> Hpost].
    cbn [flat_map]. now rewrite Hpost, Her.
  - subst sal. cbn [paso_archivo envolver iterar fst].
    rewrite fold_paso_persona, flat_map_app. cbn [flat_map]. rewrite Hp.
    cbn [app]. rewrite <- flat_map_app.
    pose proof (personas_validas ruta _ Hval) as Hl. rewrite Hlen in Hl.
    match type of Hl with
    | List.length ?ps = 2 => destruct ps as [|p1 [|p2 [|p3 l]]]; try discriminate
    end.
    eauto.
  - subst sal. cbn [paso_archivo envolver iterar fst].
    rewrite !fold_paso_persona, !flat_map_app. cbn [flat_map]. now rewrite Hp.
  - reflexivity.
Qed.

(** *** Splitting the key *)

Lemma split_no_vacio (sep : ascii) (s : string) : split sep s <> [].
Proof.
  destruct s as [|c s]; cbn; [discriminate|].
  destruct (Ascii.eqb c sep); [discriminate|].
  destruct (split sep s); discriminate.
Qed.

Lemma split_length (sep : ascii) (s : string) :
  List.length (split sep s) = S (contar sep s).
Proof.
  induction s as [|c s IH]; [reflexivity|].
  cbn [split contar]. destruct (Ascii.eqb c sep).
  - cbn. now rewrite IH.
  - destruct (split sep s) eqn:E; [now destruct (split_no_vacio sep s)|].
    cbn in *. exact IH.
Qed.

Lemma contar_append (c : ascii) (a b : string) :
  contar c (a ++ b)%string = contar c a + contar c b.
Proof.
  induction a as [|x a IH]; [reflexivity|].
  cbn. rewrite IH. lia.
Qed.

Lemma concat_split (sep : ascii) (s : string) :
  String.concat (String sep "") (split sep s) = s.
Proof.
  induction s as [|c s IH]; [reflexivity|].
  cbn [split]. destruct (Ascii.eqb_spec c sep) as [->|Hne].
  - destruct (split sep s) eqn:E; [now destruct (split_no_vacio sep s)|].
    cbn in *. now rewrite IH.
  - destruct (split sep s) as [|h [|h' t]] eqn:E;
      [now destruct (split_no_vacio sep s)| |]; cbn in *; now rewrite IH.
Qed.

Lemma contar_persona_key (n a b : json) :
  contar barra (persona_key str_py n a b)
  = 2 + contar barra (formato str_py n) + contar barra (formato str_py a)
    + contar barra (formato str_py b).
Proof.
  unfold persona_key. rewrite !contar_append. cbn. lia.
Qed.

(** Where the first two parts hold no separator, the joined text gives the
    three parts back. *)
Lemma append_sep_inj (sep : ascii) (a a' b b' : string) :
  contar sep a = 0 -> contar sep a' = 0 ->
  (a ++ String sep b)%string = (a' ++ String sep b')%string ->
  a = a' /\ b = b'.
Proof.
  revert a'. induction a as [|c a IH]; intros [|c' a']; cbn.
  - intros _ _ [= ->]. now split.
  - intros _ H [= <- _]. rewrite Ascii.eqb_refl in H. discriminate.
  - intros H _ [= -> _]. rewrite Ascii.eqb_refl in H. discriminate.
  - intros H H' [= -> E].
    destruct (Ascii.eqb c' sep); [discriminate|].
    destruct (IH a' H H' E) as [-> ->]. now split.
Qed.

Lemma persona_key_inyectiva (n a b n' a' b' : json) :
  contar barra (formato str_py n) = 0 -> contar barra (formato str_py a) = 0 ->
  contar barra (formato str_py n') = 0 -> contar barra (formato str_py a') = 0 ->
  persona_key str_py n a b = persona_key str_py n' a' b' ->
  formato str_py n = formato str_py n'
  /\ formato str_py a = formato str_py a'
  /\ formato str_py b = formato str_py b'.
Proof.
  unfold persona_key. cbn [append]. intros Hn Ha Hn' Ha' E.
  apply append_sep_inj in E as [-> E]; try assumption.
  apply append_sep_inj in E as [-> ->]; try assumption. now repeat split.
Qed.

Lemma nombre_completo_inyectivo (n a b n' a' b' : json) :
  contar " "%char (formato str_py n) = 0 -> contar " "%char (formato str_py a) = 0 ->
  contar " "%char (formato str_py n') = 0 -> contar " "%char (formato str_py a') = 0 ->
  nombre_completo str_py n a b = nombre_completo str_py n' a' b' ->
  formato str_py n = formato str_py n'
  /\ formato str_py a = formato str_py a'
  /\ formato str_py b = formato str_py b'.
Proof.
  unfold nombre_completo. cbn [append]. intros Hn Ha Hn' Ha' E.
  apply append_sep_inj in E as [-> E]; try assumption.
  apply append_sep_inj in E as [-> ->]; try assumption. now repeat split.
Qed.

(** *** The accumulator *)

Lemma buscar_agregar (k k' : string) (o : ocurrencia) (d : datos_personas) :
  buscar k (agregar k' o d)
  = if (k' =? k)%string then buscar k d ++ [o] else buscar k d.
Proof.
  induction d as [|[k0 os] d IH]; cbn.
  - now destruct (k' =? k)%string.
  - destruct (String.eqb_spec k0 k') as [->|Hne]; cbn.
    + now destruct (k' =? k)%string.
    + destruct (String.eqb_spec k0 k) as [->|Hne'].
      * apply String.eqb_neq in Hne. rewrite String.eqb_sym in Hne.
        now rewrite Hne.
      * exact IH.
Qed.

Lemma buscar_acumular (k : string) (es : list (string * ocurrencia))
  (d : datos_personas) :
  buscar k (acumular es d)
  = buscar k d ++ map snd (filter (fun e => (fst e =? k)%string) es).
Proof.
  revert d. induction es as [|[k' o] es IH]; intros d.
  - cbn. now rewrite app_nil_r.
  - change (acumular ((k', o) :: es) d) with (acumular es (agregar k' o d)).
    rewrite IH, buscar_agregar. cbn [filter fst].
    destruct (k' =? k)%string; cbn; now rewrite <- ?app_assoc.
Qed.

Lemma claves_agregar (k : string) (o : ocurrencia) (d : datos_personas) (x : string) :
  In x (map fst (agregar k o d)) <-> x = k \/ In x (map fst d).
Proof.
  induction d as [|[k' os] d IH]; cbn.
  - intuition.
  - destruct (String.eqb_spec k' k) as [->|Hne]; cbn; intuition.
Qed.

Lemma claves_unicas_agregar (k : string) (o : ocurrencia) (d : datos_personas) :
  NoDup (map fst d) -> NoDup (map fst (agregar k o d)).
Proof.
  induction d as [|[k' os] d IH]; cbn; intros H.
  - constructor; [intros []|constructor].
  - inversion H as [|? ? Hnot Hd]; subst.
    destruct (String.eqb_spec k' k) as [->|Hne]; cbn.
    + now constructor.
    + constructor; [|now apply IH].
      rewrite claves_agregar. intros [->|Hin]; congruence.
Qed.

Lemma claves_unicas_acumular (es : list (string * ocurrencia)) (d : datos_personas) :
  NoDup (map fst d) -> NoDup (map fst (acumular es d)).
Proof.
  revert d. induction es as [|[k o] es IH]; intros d H; [exact H|].
  change (acumular ((k, o) :: es) d) with (acumular es (agregar k o d)).
  now apply IH, claves_unicas_agregar.
Qed.

Lemma buscar_en (k : string) (ocs : list ocurrencia) (d : datos_personas) :
  NoDup (map fst d) -> In (k, ocs) d -> buscar k d = ocs.
Proof.
  induction d as [|[k' os] d IH]; cbn; [intros _ []|].
  intros H Hin. inversion H as [|? ? Hnot Hd]; subst.
  destruct Hin as [E|Hin].
  - inversion E; subst. now rewrite String.eqb_refl.
  - destruct (String.eqb_spec k' k) as [->|Hne]; [|now apply IH].
    destruct Hnot. change k with (fst (k, ocs)). now apply in_map.
Qed.

(** The accumulator of a walk holds the persons the files emitted, filed in
    the order of the walk. *)
Lemma procesar_archivo_json_datos (a : archivo) (st : estado) :
  st_datos (procesar_archivo_json str_py a st)
  = acumular (emitidos_archivo str_py a) (st_datos st).
Proof.
  destruct a as [ruta [contenido|e]]; [|reflexivity].
  unfold procesar_archivo_json, emitidos_archivo. cbn [fst snd].
  destruct (iterar (envolver contenido)); [|reflexivity].
  apply fold_paso_registro_datos.
Qed.

Lemma explorar_directorios_datos (archivos : list archivo) :
  st_datos (explorar_directorios str_py archivos)
  = acumular (emitidos str_py archivos) [].
Proof.
  unfold explorar_directorios.
  change (@nil (string * list ocurrencia)) with (st_datos estado_inicial).
  generalize estado_inicial.
  induction archivos as [|a archivos IH]; intros st; [reflexivity|].
  cbn [fold_left]. rewrite IH, procesar_archivo_json_datos.
  unfold emitidos, acumular. cbn [flat_map]. now rewrite fold_left_app.
Qed.

Lemma grupo_en_orden_de_recorrido (archivos : list archivo) (k : string)
  (ocs : list ocurrencia) :
  In (k, ocs) (st_datos (explorar_directorios str_py archivos)) ->
  ocs = map snd (filter (fun e => (fst e =? k)%string) (emitidos str_py archivos)).
Proof.
  rewrite explorar_directorios_datos. intros Hin.
  rewrite <- (buscar_en k ocs _ (claves_unicas_acumular _ [] (NoDup_nil _)) Hin).
  now rewrite buscar_acumular.
Qed.

(** Every emitted person is filed under the key built from its own name
    fields. *)
Lemma emitido_clave (ruta : string) (v : json) (k : string) (o : ocurrencia) :
  In (k, o) (emitido str_py ruta v) ->
  k = persona_key str_py (o_nombre o) (o_primerApellido o) (o_segundoApellido o).
Proof.
  unfold emitido.
  destruct (extraer_registro str_py ruta v) as [[ko|]|] eqn:E;
    [|intros []|intros []].
  intros [->|[]]. revert E. unfold extraer_registro.
  casos_bind; intros E; inversion E; reflexivity.
Qed.

Lemma emitidos_clave (archivos : list archivo) (k : string) (o : ocurrencia) :
  In (k, o) (emitidos str_py archivos) ->
  k = persona_key str_py (o_nombre o) (o_primerApellido o) (o_segundoApellido o).
Proof.
  unfold emitidos. rewrite in_flat_map. intros [[ruta lectura] [_ Hin]].
  unfold emitidos_archivo in Hin. cbn [fst snd] in Hin.
  destruct lectura as [contenido|]; [|destruct Hin].
  destruct (iterar (envolver contenido)); [|destruct Hin].
  apply in_flat_map in Hin as [v [_ Hin]]. now apply emitido_clave in Hin.
Qed.

Lemma clave_de_ocurrencia (archivos : list archivo) (k : string)
  (ocs : list ocurrencia) (o : ocurrencia) :
  In (k, ocs) (st_datos (explorar_directorios str_py archivos)) ->
  In o ocs ->
  k = persona_key str_py (o_nombre o) (o_primerApellido o) (o_segundoApellido o).
Proof.
  intros Hin Ho. rewrite (grupo_en_orden_de_recorrido _ _ _ Hin) in Ho.
  apply in_map_iff in Ho as [[k' o'] [<- Hf]].
  apply filter_In in Hf as [Hf Hk]. cbn [fst snd] in *.
  apply String.eqb_eq in Hk. subst k'. now apply emitidos_clave in Hf.
Qed.

(** *** The report of the whole-tree detector *)

Lemma enumerate_fst {A : Type} (n : nat) (l : list A) :
  map fst (enumerate n l) = seq n (List.length l).
Proof.
  revert n. induction l as [|x l IH]; intros n; cbn; [reflexivity|].
  now rewrite IH.
Qed.

Lemma enumerate_snd {A : Type} (n : nat) (l : list A) :
  map snd (enumerate n l) = l.
Proof.
  revert n. induction l as [|x l IH]; intros n; cbn; [reflexivity|].
  now rewrite IH.
Qed.

Lemma filas_de_grupo_ok (k : string) (ocs : list ocurrencia) (fs : list fila) :
  filas_de_grupo k ocs = Ok fs ->
  Forall (fun f => clave_fila f = k) fs
  /\ map f_ocurrenciaNumero fs = seq 1 (List.length ocs)
  /\ map datos_fila fs = map datos_ocurrencia ocs
  /\ Forall (fun f => f_cantidadOcurrencias f = List.length ocs) fs.
Proof.
  unfold filas_de_grupo.
  destruct (split barra k) as [|a [|b [|c [|x t]]]] eqn:E; try discriminate.
  intros [= <-].
  pose proof (concat_split barra k) as Hk. rewrite E in Hk. cbn in Hk.
  repeat split.
  - apply Forall_forall. intros f Hf. apply in_map_iff in Hf as [[i o] [<- _]].
    exact Hk.
  - rewrite map_map, <- (enumerate_fst 1 ocs). apply map_ext. now intros [i o].
  - rewrite map_map. rewrite <- (enumerate_snd 1 ocs) at 2.
    rewrite map_map. apply map_ext. now intros [i o].
  - apply Forall_forall. intros f Hf. apply in_map_iff in Hf as [[i o] [<- _]].
    reflexivity.
Qed.

Lemma filas_de_grupo_raise (k : string) (ocs : list ocurrencia) (e : excepcion) :
  filas_de_grupo k ocs = Raise e -> e = ValueError.
Proof.
  unfold filas_de_grupo.
  destruct (split barra k) as [|a [|b [|c [|x t]]]]; congruence.
Qed.

Lemma filas_de_grupo_barras (k : string) (ocs : list ocurrencia) :
  contar barra k <> 2 -> filas_de_grupo k ocs = Raise ValueError.
Proof.
  intros H. unfold filas_de_grupo.
  pose proof (split_length barra k) as Hl.
  destruct (split barra k) as [|a [|b [|c [|x t]]]]; try reflexivity.
  cbn in Hl. congruence.
Qed.

Lemma construir_registros_raise (dups : datos_personas) (acc : list fila)
  (k : string) (ocs : list ocurrencia) :
  In (k, ocs) dups ->
  filas_de_grupo k ocs = Raise ValueError ->
  construir_registros dups acc = Raise ValueError.
Proof.
  revert acc. induction dups as [|[k0 ocs0] dups IH]; intros acc Hin Hr;
    [destruct Hin|].
  cbn [construir_registros].
  destruct (filas_de_grupo k0 ocs0) as [fs|e] eqn:E; cbn [bind].
  - destruct Hin as [Heq|Hin]; [inversion Heq; subst; congruence|].
    now apply IH.
  - now rewrite (filas_de_grupo_raise _ _ _ E).
Qed.

Lemma filas_de_clave_app (k : string) (l1 l2 : list fila) :
  filas_de_clave k (l1 ++ l2) = filas_de_clave k l1 ++ filas_de_clave k l2.
Proof. apply filter_app. Qed.

Lemma filas_de_clave_todas (k : string) (fs : list fila) :
  Forall (fun f => clave_fila f = k) fs -> filas_de_clave k fs = fs.
Proof.
  induction 1 as [|f fs Hf _ IH]; [reflexivity|].
  cbn. rewrite Hf, String.eqb_refl. f_equal. exact IH.
Qed.

Lemma filas_de_clave_ninguna (k k' : string) (fs : list fila) :
  k' <> k -> Forall (fun f => clave_fila f = k') fs -> filas_de_clave k fs = [].
Proof.
  intros Hne. induction 1 as [|f fs Hf _ IH]; [reflexivity|].
  cbn. rewrite Hf. apply String.eqb_neq in Hne. now rewrite Hne.
Qed.

Lemma construir_registros_otras (dups : datos_personas) (acc filas : list fila)
  (k : string) :
  construir_registros dups acc = Ok filas ->
  ~ In k (map fst dups) ->
  filas_de_clave k filas = filas_de_clave k acc.
Proof.
  revert acc. induction dups as [|[k0 ocs0] dups IH]; intros acc H Hnot.
  - cbn in H. now inversion H.
  - cbn [construir_registros] in H.
    destruct (filas_de_grupo k0 ocs0) as [fs|e] eqn:E; cbn [bind] in H;
      [|discriminate].
    rewrite (IH _ H); [|intros Hin; apply Hnot; now right].
    rewrite filas_de_clave_app.
    rewrite (filas_de_clave_ninguna k k0 fs); [now rewrite app_nil_r| |].
    + intros ->. apply Hnot. now left.
    + now apply filas_de_grupo_ok in E.
Qed.

Lemma construir_registros_grupo (dups : datos_personas) (acc filas : list fila)
  (k : string) (ocs : list ocurrencia) :
  construir_registros dups acc = Ok filas ->
  NoDup (map fst dups) ->
  In (k, ocs) dups ->
  exists fs, filas_de_grupo k ocs = Ok fs
             /\ filas_de_clave k filas = filas_de_clave k acc ++ fs.
Proof.
  revert acc. induction dups as [|[k0 ocs0] dups IH]; intros acc H Hnd Hin;
    [destruct Hin|].
  cbn [construir_registros] in H.
  destruct (filas_de_grupo k0 ocs0) as [fs0|e] eqn:E; cbn [bind] in H;
    [|discriminate].
  cbn [map fst] in Hnd. inversion Hnd as [|? ? Hnot Hnd']; subst.
  destruct Hin as [Heq|Hin].
  - inversion Heq; subst. exists fs0. split; [exact E|].
    rewrite (construir_registros_otras _ _ _ _ H Hnot), filas_de_clave_app.
    f_equal. apply filas_de_clave_todas. now apply filas_de_grupo_ok in E.
  - destruct (IH _ H Hnd' Hin) as [fs [Hfs Hk]]. exists fs. split; [exact Hfs|].
    rewrite Hk, filas_de_clave_app.
    rewrite (filas_de_clave_ninguna k k0 fs0); [now rewrite app_nil_r| |].
    + intros ->. apply Hnot. change k with (fst (k, ocs)). now apply in_map.
    + now apply filas_de_grupo_ok in E.
Qed.

Lemma claves_unicas_filtrar (d : datos_personas) :
  NoDup (map fst d) -> NoDup (map fst (filtrar_duplicados d)).
Proof.
  unfold filtrar_duplicados.
  induction d as [|[k os] d IH]; cbn [filter map fst snd]; intros H;
    [constructor|].
  inversion H as [|? ? Hnot Hd]; subst.
  destruct (1 <? List.length os)%nat; cbn [map fst]; [|now apply IH].
  constructor; [|now apply IH].
  intros Hin. apply Hnot. apply in_map_iff in Hin as [[k' os'] [Hk Hin]].
  apply filter_In in Hin as [Hin _]. cbn in Hk. subst k'.
  change k with (fst (k, os')). now apply in_map.
Qed.

Lemma generar_informe_generado (d : datos_personas) (destino : string)
  (filas : list fila) :
  generar_informe_duplicados escribir_excel d destino = InformeGenerado filas ->
  construir_registros (filtrar_duplicados d) [] = Ok filas.
Proof.
  unfold generar_informe_duplicados.
  destruct (filtrar_duplicados d) as [|kv dups]; [discriminate|].
  destruct (construir_registros (kv :: dups) []) as [registros|]; [|discriminate].
  destruct (escribir_excel destino registros); [|discriminate].
  congruence.
Qed.

(** C8: when the whole-tree report is produced, the rows of a duplicated
    key with N occurrences are numbered 1, 2, ..., N in [ocurrenciaNumero];
    the i-th row carries the data of the i-th person filed under the key,
    and that list is the persons of the key in the order the walk met
    them; every one of these rows has [cantidadOcurrencias] N. *)
Theorem numeracion_en_orden_de_insercion :
  forall (archivos : list archivo) (destino : string) (filas : list fila)
         (k : string) (ocs : list ocurrencia),
    generar_informe_duplicados escribir_excel
      (st_datos (explorar_directorios str_py archivos)) destino
    = InformeGenerado filas ->
    In (k, ocs) (st_datos (explorar_directorios str_py archivos)) ->
    1 < List.length ocs ->
    ocs = map snd (filter (fun e => (fst e =? k)%string) (emitidos str_py archivos))
    /\ map f_ocurrenciaNumero (filas_de_clave k filas) = seq 1 (List.length ocs)
    /\ map datos_fila (filas_de_clave k filas) = map datos_ocurrencia ocs
    /\ Forall (fun f => f_cantidadOcurrencias f = List.length ocs)
         (filas_de_clave k filas).
Proof.
  intros archivos destino filas k ocs Hgen Hin Hlen.
  split; [now apply grupo_en_orden_de_recorrido|].
  apply generar_informe_generado in Hgen.
  assert (Hnd : NoDup (map fst (st_datos (explorar_directorios str_py archivos)))).
  { rewrite explorar_directorios_datos.
    apply claves_unicas_acumular. constructor. }
  assert (Hdup : In (k, ocs)
                   (filtrar_duplicados
                      (st_datos (explorar_directorios str_py archivos)))).
  { apply filter_In. split; [exact Hin|]. now apply Nat.ltb_lt. }
  destruct (construir_registros_grupo _ _ _ _ _ Hgen
              (claves_unicas_filtrar _ Hnd) Hdup) as [fs [Hfs Hk]].
  cbn [filas_de_clave filter app] in Hk. rewrite Hk.
  apply filas_de_grupo_ok in Hfs. tauto.
Qed.

(** C9: in the whole-tree detector, when a person filed under a key with
    two or more occurrences has a name field whose text holds the character
    [|], the report fails for the whole walk: unpacking the split key
    raises [ValueError], the handler catches it, the function returns
    [False], and no row reaches the sink. *)
Theorem barra_en_nombre_pierde_informe :
  forall (archivos : list archivo) (destino : string)
         (k : string) (ocs : list ocurrencia) (o : ocurrencia),
    In (k, ocs) (st_datos (explorar_directorios str_py archivos)) ->
    1 < List.length ocs ->
    In o ocs ->
    contiene barra (formato str_py (o_nombre o))
    || contiene barra (formato str_py (o_primerApellido o))
    || contiene barra (formato str_py (o_segundoApellido o)) = true ->
    let inf := generar_informe_duplicados escribir_excel
                 (st_datos (explorar_directorios str_py archivos)) destino in
    inf = ErrorInforme ValueError
    /\ retorno inf = false
    /\ filas_informe inf = [].
Proof.
  intros archivos destino k ocs o Hin Hlen Ho Hbar inf.
  assert (Hinf : inf = ErrorInforme ValueError).
  { pose proof (clave_de_ocurrencia _ _ _ _ Hin Ho) as Hk.
    assert (Hc : contar barra k <> 2).
    { rewrite Hk, contar_persona_key. unfold contiene in Hbar.
      destruct (contar barra (formato str_py (o_nombre o)));
        destruct (contar barra (formato str_py (o_primerApellido o)));
        destruct (contar barra (formato str_py (o_segundoApellido o)));
        cbn in Hbar; try discriminate; lia. }
    assert (Hdup : In (k, ocs)
                     (filtrar_duplicados
                        (st_datos (explorar_directorios str_py archivos)))).
    { apply filter_In. split; [exact Hin|]. now apply Nat.ltb_lt. }
    subst inf. unfold generar_informe_duplicados.
    rewrite (construir_registros_raise _ [] k ocs Hdup
               (filas_de_grupo_barras k ocs Hc)).
    destruct (filtrar_duplicados _); [destruct Hdup|reflexivity]. }
  rewrite Hinf. repeat split.
Qed.

(** *** Sorting *)

Section Orden.

Context {A : Type}.
Variable le : A -> A -> bool.

Lemma insertar_perm (x : A) (l : list A) : Permutation (insertar le x l) (x :: l).
Proof.
  induction l as [|y l IH]; cbn; [reflexivity|].
  destruct (le x y); [reflexivity|].
  rewrite IH. apply perm_swap.
Qed.

Lemma ordenar_perm (l : list A) : Permutation (ordenar le l) l.
Proof.
  induction l as [|x l IH]; cbn; [reflexivity|].
  now rewrite insertar_perm, IH.
Qed.

Hypothesis le_total : forall a b, le a b = false -> le b a = true.
Hypothesis le_trans : forall a b c, le a b = true -> le b c = true -> le a c = true.

Lemma insertar_sorted (x : A) (l : list A) :
  StronglySorted (fun a b => le a b = true) l ->
  StronglySorted (fun a b => le a b = true) (insertar le x l).
Proof.
  induction 1 as [|y l Hl IH Hy]; cbn.
  - constructor; constructor.
  - destruct (le x y) eqn:E.
    + constructor; [now constructor|].
      constructor; [exact E|].
      eapply Forall_impl; [|exact Hy]. intros z Hz. now apply le_trans with y.
    + constructor; [exact IH|].
      apply (Permutation_Forall (Permutation_sym (insertar_perm x l))).
      constructor; [now apply le_total|exact Hy].
Qed.

Lemma ordenar_sorted (l : list A) :
  StronglySorted (fun a b => le a b = true) (ordenar le l).
Proof.
  induction l as [|x l IH]; cbn; [constructor|]. now apply insertar_sorted.
Qed.

End Orden.

(** Rows that compare equal keep their input order. *)
Lemma filter_insertar {A : Type} (le : A -> A -> bool) (P : A -> bool)
  (x : A) (l : list A) :
  (forall y, In y l -> P x = true -> P y = true -> le x y = true) ->
  filter P (insertar le x l) = if P x then x :: filter P l else filter P l.
Proof.
  induction l as [|y l IH]; intros H; cbn; [reflexivity|].
  destruct (le x y) eqn:E; [reflexivity|].
  cbn. rewrite IH by (intros z Hz; apply H; now right).
  destruct (P x) eqn:Px, (P y) eqn:Py; try reflexivity.
  rewrite (H y (or_introl eq_refl) eq_refl Py) in E. discriminate.
Qed.

Lemma filter_ordenar {A : Type} (le : A -> A -> bool) (P : A -> bool) (l : list A) :
  (forall x y, In x l -> In y l -> P x = true -> P y = true -> le x y = true) ->
  filter P (ordenar le l) = filter P l.
Proof.
  induction l as [|x l IH]; intros H; cbn; [reflexivity|].
  rewrite filter_insertar.
  - rewrite IH; [reflexivity|]. intros a b Ha Hb. apply H; now right.
  - intros y Hy. apply H; [now left|right].
    now apply (Permutation_in _ (ordenar_perm le l)).
Qed.

Lemma filter_perm {A : Type} (P : A -> bool) (l1 l2 : list A) :
  Permutation l1 l2 -> Permutation (filter P l1) (filter P l2).
Proof.
  induction 1 as [|x l1 l2 _ IH|x y l|l1 l2 l3 _ IH1 _ IH2]; cbn.
  - reflexivity.
  - destruct (P x); [now constructor|exact IH].
  - destruct (P x), (P y); try reflexivity. apply perm_swap.
  - now transitivity (filter P l2).
Qed.

(** The order on the sort columns is a total order. *)
Lemma string_leb_refl (s : string) : (s <=? s)%string = true.
Proof. now destruct (String.leb_total s s). Qed.

Lemma string_leb_trans (s1 s2 s3 : string) :
  (s1 <=? s2)%string = true -> (s2 <=? s3)%string = true ->
  (s1 <=? s3)%string = true.
Proof.
  unfold String.leb. revert s2 s3.
  induction s1 as [|c1 s1 IH]; intros [|c2 s2] [|c3 s3]; cbn; try congruence.
  unfold Ascii.compare.
  destruct (N.compare_spec (N_of_ascii c1) (N_of_ascii c2)) as [E12|L12|G12];
    destruct (N.compare_spec (N_of_ascii c2) (N_of_ascii c3)) as [E23|L23|G23];
    destruct (N.compare_spec (N_of_ascii c1) (N_of_ascii c3)) as [E13|L13|G13];
    try congruence; try lia.
  apply IH.
Qed.

Lemma orden_claves_total (a b : nat * string) :
  orden_claves a b = false -> orden_claves b a = true.
Proof.
  unfold orden_claves. destruct a as [ca na], b as [cb nb]; cbn [fst snd].
  destruct (Nat.ltb_spec cb ca), (Nat.ltb_spec ca cb),
    (Nat.eqb_spec ca cb), (Nat.eqb_spec cb ca); cbn; try congruence; try lia.
  intros Hna. destruct (String.leb_total na nb); congruence.
Qed.

Lemma orden_claves_trans (a b c : nat * string) :
  orden_claves a b = true -> orden_claves b c = true -> orden_claves a c = true.
Proof.
  unfold orden_claves.
  destruct a as [ca na], b as [cb nb], c as [cc nc]; cbn [fst snd].
  destruct (Nat.ltb_spec cb ca), (Nat.ltb_spec cc cb), (Nat.ltb_spec cc ca),
    (Nat.eqb_spec ca cb), (Nat.eqb_spec cb cc), (Nat.eqb_spec ca cc);
    cbn; try congruence; try lia.
  apply string_leb_trans.
Qed.

Lemma orden_claves_antisym (a b : nat * string) :
  orden_claves a b = true -> orden_claves b a = true -> a = b.
Proof.
  unfold orden_claves. destruct a as [ca na], b as [cb nb]; cbn [fst snd].
  destruct (Nat.ltb_spec cb ca), (Nat.ltb_spec ca cb),
    (Nat.eqb_spec ca cb), (Nat.eqb_spec cb ca); cbn; try congruence; try lia.
  intros Hab Hba. subst. f_equal. now apply String.leb_antisym.
Qed.

Lemma orden_filas_claves (a b : fila_duplicado) :
  orden_filas a b = orden_claves (clave_orden a) (clave_orden b).
Proof. reflexivity. Qed.

(** Two sorted lists of sort columns with the same elements are equal. *)
Lemma claves_ordenadas_iguales (l1 l2 : list (nat * string)) :
  StronglySorted (fun a b => orden_claves a b = true) l1 ->
  StronglySorted (fun a b => orden_claves a b = true) l2 ->
  Permutation l1 l2 -> l1 = l2.
Proof.
  intros H1. revert l2. induction H1 as [|a l1 Hl1 IH Ha]; intros l2 H2 Hp.
  - apply Permutation_nil in Hp. now subst.
  - destruct H2 as [|b l2 Hl2 Hb].
    + apply Permutation_sym, Permutation_nil in Hp. discriminate.
    + assert (Hab : a = b).
      { assert (Hin1 : In b (a :: l1))
          by (apply (Permutation_in _ (Permutation_sym Hp)); now left).
        assert (Hin2 : In a (b :: l2))
          by (apply (Permutation_in _ Hp); now left).
        destruct Hin1 as [E|Hin1]; [exact E|].
        destruct Hin2 as [E|Hin2]; [now symmetry|].
        rewrite Forall_forall in Ha, Hb.
        apply orden_claves_antisym; [now apply Ha|now apply Hb]. }
      subst b. f_equal. apply IH; [exact Hl2|].
      now apply Permutation_cons_inv with a.
Qed.

Lemma sort_values_sorted (rows : list fila_duplicado) :
  StronglySorted (fun a b => orden_filas a b = true) (sort_values rows).
Proof.
  unfold sort_values. apply ordenar_sorted.
  - intros a b. rewrite !orden_filas_claves. apply orden_claves_total.
  - intros a b c. rewrite !orden_filas_claves. apply orden_claves_trans.
Qed.

Lemma claves_sorted (rows : list fila_duplicado) :
  StronglySorted (fun a b => orden_filas a b = true) rows ->
  StronglySorted (fun a b => orden_claves a b = true) (map clave_orden rows).
Proof.
  induction 1 as [|r rows _ IH Hr]; cbn; constructor; [exact IH|].
  apply Forall_map. exact Hr.
Qed.

(** *** The analyzer of the partitioned detectors *)

Lemma unique_in (x : string) (l : list string) : In x (unique l) <-> In x l.
Proof.
  induction l as [|y l IH]; cbn; [tauto|].
  rewrite filter_In, IH.
  destruct (String.eqb_spec x y) as [->|Hne]; cbn; intuition congruence.
Qed.

Lemma unique_nodup (l : list string) : NoDup (unique l).
Proof.
  induction l as [|y l IH]; cbn; constructor.
  - rewrite filter_In, String.eqb_refl. cbn. intros [_ H]. discriminate.
  - now apply NoDup_filter.
Qed.

Lemma filter_eqb_ausente (n : string) (u : list string) :
  ~ In n u -> filter (fun m => (m =? n)%string) u = [].
Proof.
  induction u as [|y u IH]; cbn; [reflexivity|]. intros H.
  destruct (String.eqb_spec y n) as [->|_].
  - destruct H. now left.
  - apply IH. intros Hin. apply H. now right.
Qed.

Lemma filter_eqb_nodup (n : string) (u : list string) :
  NoDup u -> In n u -> filter (fun m => (m =? n)%string) u = [n].
Proof.
  induction 1 as [|x u Hx Hu IH]; cbn; [intros []|].
  intros Hin. destruct (String.eqb_spec x n) as [->|Hne].
  - f_equal. now apply filter_eqb_ausente.
  - destruct Hin as [E|Hin]; [congruence|now apply IH].
Qed.

Lemma value_counts_fila (n : string) (l : list string) :
  In n l ->
  filter (fun kv => (fst kv =? n)%string) (value_counts l)
  = [(n, contar_nombre n l)].
Proof.
  intros Hin. unfold value_counts.
  apply Permutation_length_1_inv.
  rewrite (filter_perm _ _ _ (ordenar_perm _ _)).
  assert (E : filter (fun kv : string * nat => (fst kv =? n)%string)
                (map (fun m => (m, contar_nombre m l)) (unique l))
              = map (fun m => (m, contar_nombre m l))
                  (filter (fun m => (m =? n)%string) (unique l))).
  { induction (unique l) as [|x u IH]; cbn; [reflexivity|].
    destruct (x =? n)%string; cbn; now rewrite IH. }
  rewrite E, filter_eqb_nodup; [reflexivity|apply unique_nodup|].
  now apply unique_in.
Qed.

Lemma merge_left_conteo (df duplicados : list persona) :
  incl duplicados df ->
  merge_left duplicados (value_counts (map p_nombreCompleto df))
  = map (con_conteo df) duplicados.
Proof.
  induction duplicados as [|p ps IH]; intros Hinc; [reflexivity|].
  unfold merge_left in *. cbn [flat_map map].
  rewrite IH by (intros q Hq; apply Hinc; now right).
  rewrite value_counts_fila; [reflexivity|].
  apply in_map, Hinc. now left.
Qed.

(** [analizar_duplicados] in one expression: the duplicated rows of the
    frame with their counts, sorted. *)
Lemma analizar_duplicados_filas (df : list persona) :
  fst (analizar_duplicados df)
  = sort_values (map (con_conteo df) (filter (duplicated df) df)).
Proof.
  unfold analizar_duplicados.
  destruct df as [|p0 df0]; [reflexivity|].
  set (df := p0 :: df0).
  destruct (filter (duplicated df) df) as [|q qs] eqn:E; [reflexivity|].
  cbn [fst]. rewrite <- E at 1. rewrite merge_left_conteo; [now rewrite E|].
  intros x Hx. now apply filter_In in Hx.
Qed.

Lemma analizar_duplicados_nombres (df : list persona) :
  snd (analizar_duplicados df)
  = List.length (unique (map d_nombreCompleto (fst (analizar_duplicados df)))).
Proof.
  unfold analizar_duplicados.
  destruct df as [|p0 df0]; [reflexivity|].
  destruct (filter _ _); reflexivity.
Qed.

Lemma contar_nombre_perm (n : string) (l1 l2 : list string) :
  Permutation l1 l2 -> contar_nombre n l1 = contar_nombre n l2.
Proof.
  intros Hp. unfold contar_nombre.
  apply Permutation_length. now apply filter_perm.
Qed.

Lemma con_conteo_perm (df1 df2 : list persona) (p : persona) :
  Permutation df1 df2 -> con_conteo df1 p = con_conteo df2 p.
Proof.
  intros Hp. unfold con_conteo. f_equal.
  apply contar_nombre_perm. now apply Permutation_map.
Qed.

Lemma duplicated_perm (df1 df2 : list persona) (p : persona) :
  Permutation df1 df2 -> duplicated df1 p = duplicated df2 p.
Proof.
  intros Hp. unfold duplicated. f_equal.
  apply contar_nombre_perm. now apply Permutation_map.
Qed.

Lemma filas_perm (df1 df2 : list persona) :
  Permutation df1 df2 ->
  Permutation (fst (analizar_duplicados df1)) (fst (analizar_duplicados df2)).
Proof.
  intros Hp. rewrite !analizar_duplicados_filas. unfold sort_values.
  rewrite !ordenar_perm.
  rewrite (map_ext _ _ (fun p => con_conteo_perm df1 df2 p Hp)).
  apply Permutation_map.
  rewrite (filter_ext _ _ (fun p => duplicated_perm df1 df2 p Hp)).
  now apply filter_perm.
Qed.

(** A row of the result: a person of the batch, with the number of persons
    of the batch that have the same full name, two at least. *)
Lemma fila_de_analizar (df : list persona) (r : fila_duplicado) :
  In r (fst (analizar_duplicados df)) ->
  In (d_persona r) df
  /\ d_cantidadOcurrencias r
     = List.length (filter (fun p => (p_nombreCompleto p =? d_nombreCompleto r)%string) df)
  /\ 2 <= d_cantidadOcurrencias r.
Proof.
  rewrite analizar_duplicados_filas. unfold sort_values. intros Hin.
  apply (Permutation_in _ (ordenar_perm _ _)) in Hin.
  apply in_map_iff in Hin as [p [<- Hp]].
  apply filter_In in Hp as [Hp Hd].
  unfold duplicated in Hd. apply Nat.ltb_lt in Hd.
  unfold d_nombreCompleto. cbn [d_persona d_cantidadOcurrencias con_conteo].
  assert (E : contar_nombre (p_nombreCompleto p) (map p_nombreCompleto df)
              = List.length (filter (fun q => (p_nombreCompleto q =? p_nombreCompleto p)%string) df)).
  { unfold contar_nombre. clear. induction df as [|q df IH]; cbn; [reflexivity|].
    destruct (p_nombreCompleto q =? p_nombreCompleto p)%string; cbn; now rewrite IH. }
  rewrite <- E. repeat split; [exact Hp|lia].
Qed.

Lemma map_constante {A B : Type} (g : A -> B) (b : B) (l : list A) :
  Forall (fun x => g x = b) l -> map g l = repeat b (List.length l).
Proof.
  induction 1 as [|x l Hx _ IH]; cbn; [reflexivity|]. now rewrite Hx, IH.
Qed.

Lemma filter_ninguno {A : Type} (f : A -> bool) (l : list A) :
  (forall x, In x l -> f x = false) -> filter f l = [].
Proof.
  induction l as [|x l IH]; intros H; cbn; [reflexivity|].
  rewrite (H x (or_introl eq_refl)). apply IH. intros y Hy. apply H. now right.
Qed.

(** Without a repeated full name, and on the empty batch, the analyzer
    returns the empty frame and zero names. *)
Lemma analizar_duplicados_sin_repetidos (df : list persona) :
  NoDup (map p_nombreCompleto df) -> analizar_duplicados df = ([], 0).
Proof.
  intros Hnd. unfold analizar_duplicados.
  destruct df as [|p0 df0]; [reflexivity|].
  rewrite filter_ninguno; [reflexivity|].
  intros p Hp. unfold duplicated, contar_nombre.
  rewrite filter_eqb_nodup; [reflexivity|exact Hnd|now apply in_map].
Qed.

(** Without a key filed twice, the whole-tree report ends with the notice
    that there are no duplicates, not with an error. *)
Lemma generar_informe_sin_duplicados (d : datos_personas) (destino : string) :
  (forall kv, In kv d -> List.length (snd kv) <= 1) ->
  generar_informe_duplicados escribir_excel d destino = SinDuplicados.
Proof.
  intros H. unfold generar_informe_duplicados, filtrar_duplicados.
  rewrite filter_ninguno; [reflexivity|].
  intros kv Hkv. apply Nat.ltb_ge. now apply H.
Qed.

(** The rows of the whole-tree report follow the keys of the accumulator:
    no sort is applied. *)
Lemma construir_registros_orden (dups : datos_personas) (acc filas : list fila) :
  construir_registros dups acc = Ok filas ->
  map (fun f => (clave_fila f, f_cantidadOcurrencias f)) filas
  = map (fun f => (clave_fila f, f_cantidadOcurrencias f)) acc
    ++ flat_map (fun kv => repeat (fst kv, List.length (snd kv))
                                  (List.length (snd kv))) dups.
Proof.
  revert acc. induction dups as [|[k ocs] dups IH]; intros acc H.
  - cbn in H. inversion H. cbn. now rewrite app_nil_r.
  - cbn [construir_registros] in H.
    destruct (filas_de_grupo k ocs) as [fs|e] eqn:E; cbn [bind] in H;
      [|discriminate].
    rewrite (IH _ H), map_app, <- app_assoc. f_equal.
    cbn [flat_map fst snd]. f_equal.
    apply filas_de_grupo_ok in E as (Hk & Hn & _ & Hc).
    assert (Hl : List.length fs = List.length ocs)
      by (rewrite <- (length_map f_ocurrenciaNumero), Hn; apply length_seq).
    rewrite <- Hl at 2. apply map_constante.
    rewrite Forall_forall in Hk, Hc |- *. intros f Hf.
    now rewrite (Hk f Hf), (Hc f Hf).
Qed.

Lemma filas_de_nombre (f : persona -> fila_duplicado) (dup : persona -> bool)
  (n : string) (l : list persona) :
  (forall p, d_persona (f p) = p) ->
  map d_persona
    (filter (fun r => (d_nombreCompleto r =? n)%string) (map f (filter dup l)))
  = filter (fun p => (p_nombreCompleto p =? n)%string && dup p) l.
Proof.
  intros Hf. induction l as [|q l IH]; cbn [filter map]; [reflexivity|].
  destruct (dup q) eqn:Eq; cbn [filter map].
  - unfold d_nombreCompleto at 1. rewrite Hf.
    destruct (p_nombreCompleto q =? n)%string; cbn [andb map];
      now rewrite ?Hf, IH.
  - rewrite andb_false_r. exact IH.
Qed.

(** C3, amended: in the partitioned detectors the rows of
    [analizar_duplicados] are sorted by [cantidadOcurrencias] descending,
    then by [nombreCompleto] ascending; two batches that are permutations
    of each other give the same sequence of (count, full name) pairs and
    the same number of duplicated names; the rows of one full name keep
    the order they have in the batch.  The whole-tree report is not
    sorted: its rows follow the duplicated keys in the order the walk first
    met them, each key with all its rows together. *)
Theorem orden_de_filas :
  forall (df1 df2 : list persona),
    Permutation df1 df2 ->
    StronglySorted (fun a b => orden_filas a b = true)
      (fst (analizar_duplicados df1))
    /\ map clave_orden (fst (analizar_duplicados df1))
       = map clave_orden (fst (analizar_duplicados df2))
    /\ snd (analizar_duplicados df1) = snd (analizar_duplicados df2)
    /\ (forall n : string,
          map d_persona
            (filter (fun r => (d_nombreCompleto r =? n)%string)
               (fst (analizar_duplicados df1)))
          = filter (fun p => (p_nombreCompleto p =? n)%string && duplicated df1 p)
              df1)
    /\ (forall (archivos : list archivo) (destino : string) (filas : list fila),
          generar_informe_duplicados escribir_excel
            (st_datos (explorar_directorios str_py archivos)) destino
          = InformeGenerado filas ->
          map (fun f => (clave_fila f, f_cantidadOcurrencias f)) filas
          = flat_map (fun kv => repeat (fst kv, List.length (snd kv))
                                       (List.length (snd kv)))
              (filtrar_duplicados
                 (st_datos (explorar_directorios str_py archivos)))).
Proof.
  intros df1 df2 Hp.
  cut ((StronglySorted (fun a b => orden_filas a b = true)
          (fst (analizar_duplicados df1))
        /\ map clave_orden (fst (analizar_duplicados df1))
           = map clave_orden (fst (analizar_duplicados df2))
        /\ snd (analizar_duplicados df1) = snd (analizar_duplicados df2)
        /\ (forall n : string,
              map d_persona
                (filter (fun r => (d_nombreCompleto r =? n)%string)
                   (fst (analizar_duplicados df1)))
              = filter (fun p => (p_nombreCompleto p =? n)%string && duplicated df1 p)
                  df1))).
  { intros (H1 & H2 & H3 & H4). repeat (split; [assumption|]).
    intros archivos destino filas Hgen.
    apply generar_informe_generado in Hgen.
    now rewrite (construir_registros_orden _ _ _ Hgen). }
  assert (Hs : forall df, StronglySorted (fun a b => orden_filas a b = true)
                            (fst (analizar_duplicados df))).
  { intros df. rewrite analizar_duplicados_filas. apply sort_values_sorted. }
  assert (Hk : map clave_orden (fst (analizar_duplicados df1))
               = map clave_orden (fst (analizar_duplicados df2))).
  { apply claves_ordenadas_iguales; try (apply claves_sorted, Hs).
    apply Permutation_map. now apply filas_perm. }
  split; [apply Hs|]. split; [exact Hk|]. split.
  - rewrite !analizar_duplicados_nombres.
    assert (En : forall rows, map d_nombreCompleto rows
                              = map snd (map clave_orden rows))
      by (intros rows; rewrite map_map; reflexivity).
    now rewrite !En, Hk.
  - intros n. rewrite analizar_duplicados_filas. unfold sort_values.
    rewrite filter_ordenar.
    + now apply filas_de_nombre.
    + intros x y Hx Hy Ex Ey.
      apply in_map_iff in Hx as [p [<- _]]. apply in_map_iff in Hy as [q [<- _]].
      unfold d_nombreCompleto in Ex, Ey. cbn [d_persona con_conteo] in Ex, Ey.
      apply String.eqb_eq in Ex, Ey.
      unfold orden_filas, d_nombreCompleto.
      cbn [d_persona d_cantidadOcurrencias con_conteo].
      rewrite Ex, Ey, Nat.eqb_refl, string_leb_refl. now rewrite orb_true_r.
Qed.

End Propiedades.


(** ** The detectors on concrete batches *)

(** C1: two persons whose name tuples differ are filed as one person.  In
    the whole-tree detector both land under the key
    [Ana|Maria|Lopez|Garcia]; in the partitioned detectors both have the
    full name [Juan de la Cruz Perez] and come out as duplicates of each
    other. *)
Lemma tuplas_distintas_en_un_grupo :
  map (fun kv => (fst kv, map tupla_ocurrencia (snd kv)))
      (st_datos (explorar_directorios str_demo lote_barra))
  = [("Ana|Maria|Lopez|Garcia",
      [(JStr "Ana|Maria", JStr "Lopez", JStr "Garcia");
       (JStr "Ana", JStr "Maria|Lopez", JStr "Garcia")])]
  /\ map (fun r => (tupla_persona (d_persona r), d_nombreCompleto r))
         (fst (analizar_duplicados
                 (fst (leer_archivos_json_directorio str_demo (Ok lote_espacio)))))
     = [((JStr "Juan de", JStr "la Cruz", JStr "Perez"), "Juan de la Cruz Perez");
        ((JStr "Juan", JStr "de la Cruz", JStr "Perez"), "Juan de la Cruz Perez")].
Proof. split; reflexivity. Qed.

(** C2: in the partitioned detectors a row can carry a count larger than
    the number of persons of the batch that have its name tuple: each of
    the two tuples below occurs once in the batch and both rows say 2. *)
Lemma conteo_mayor_que_la_tupla :
  let df := fst (leer_archivos_json_directorio str_demo (Ok lote_espacio)) in
  map tupla_persona df
  = [(JStr "Juan de", JStr "la Cruz", JStr "Perez");
     (JStr "Juan", JStr "de la Cruz", JStr "Perez")]
  /\ map (fun r => (tupla_persona (d_persona r), d_cantidadOcurrencias r))
         (fst (analizar_duplicados df))
     = [((JStr "Juan de", JStr "la Cruz", JStr "Perez"), 2);
        ((JStr "Juan", JStr "de la Cruz", JStr "Perez"), 2)].
Proof. split; reflexivity. Qed.

(** C5: a batch in which every name tuple occurs once, for which the
    partitioned analyzer returns two rows and one duplicated name; and a
    walk in which every name tuple occurs once, for which the whole-tree
    report ends in the error handler instead of the notice that there are
    no duplicates. *)
Lemma tuplas_unicas_con_duplicados :
  let df := fst (leer_archivos_json_directorio str_demo (Ok lote_espacio)) in
  let es := emitidos str_demo lote_barra in
  NoDup (map tupla_persona df)
  /\ List.length (fst (analizar_duplicados df)) = 2
  /\ snd (analizar_duplicados df) = 1
  /\ NoDup (map (fun e => tupla_ocurrencia (snd e)) es)
  /\ generar_informe_duplicados excel_demo
       (st_datos (explorar_directorios str_demo lote_barra)) "out.xlsx"
     = ErrorInforme ValueError.
Proof.
  assert (Hnd : forall (a b : json * json * json), a <> b -> NoDup [a; b]).
  { intros a b Hab. constructor; [|constructor; [intros []|constructor]].
    intros [H|[]]. now apply Hab. }
  cbv zeta. split; [|split; [reflexivity|split; [reflexivity|split]]].
  - vm_compute. apply Hnd. discriminate.
  - vm_compute. apply Hnd. discriminate.
  - reflexivity.
Qed.

(** C3 fails as stated: the whole-tree report of a walk that meets a key
    twice and then another key three times lists the rows of count 2 before
    those of count 3; and the partitioned analyzer returns different row
    sequences for a batch and a permutation of it. *)
Lemma filas_sin_orden_por_conteo :
  map f_cantidadOcurrencias
      (filas_informe
         (generar_informe_duplicados excel_demo
            (st_datos (explorar_directorios str_demo lote_dos_tres)) "out.xlsx"))
  = [2; 2; 3; 3; 3]
  /\ Permutation (fst (leer_archivos_json_directorio str_demo (Ok lote_ida)))
                 (fst (leer_archivos_json_directorio str_demo (Ok lote_vuelta)))
  /\ fst (analizar_duplicados
            (fst (leer_archivos_json_directorio str_demo (Ok lote_ida))))
     <> fst (analizar_duplicados
               (fst (leer_archivos_json_directorio str_demo (Ok lote_vuelta)))).
Proof.
  split; [reflexivity|]. split.
  - vm_compute. apply perm_swap.
  - vm_compute. intros H. discriminate H.
Qed.

Lemma orden_de_filas_testigo :
  Permutation (fst (leer_archivos_json_directorio str_demo (Ok lote_ida)))
              (fst (leer_archivos_json_directorio str_demo (Ok lote_vuelta)))
  /\ map clave_orden
         (fst (analizar_duplicados
                 (fst (leer_archivos_json_directorio str_demo (Ok lote_ida)))))
     = map clave_orden
         (fst (analizar_duplicados
                 (fst (leer_archivos_json_directorio str_demo (Ok lote_vuelta))))).
Proof.
  assert (Hp : Permutation
                 (fst (leer_archivos_json_directorio str_demo (Ok lote_ida)))
                 (fst (leer_archivos_json_directorio str_demo (Ok lote_vuelta))))
    by (vm_compute; apply perm_swap).
  split; [exact Hp|].
  exact (proj1 (proj2 (orden_de_filas str_demo excel_demo _ _ Hp))).
Defined.

(** C4 fails as stated: the path is present, the three names resolve to
    empty strings, and the partitioned extractor returns nothing. *)
Lemma estructura_presente_sin_persona :
  dict_lookup "declaracion" registro_vacio
  = Some (JObj [("situacionPatrimonial", JObj [("datosGenerales", JObj [])])])
  /\ dict_lookup "situacionPatrimonial"
       [("situacionPatrimonial", JObj [("datosGenerales", JObj [])])]
     = Some (JObj [("datosGenerales", JObj [])])
  /\ dict_lookup "datosGenerales" [("datosGenerales", JObj [])] = Some (JObj [])
  /\ nombres_vacios [] = true
  /\ extraer_datos_persona str_demo (JObj registro_vacio) = None.
Proof. repeat split. Qed.

Lemma registro_sin_nombres_testigo :
  nombres_vacios
    [("nombre", JStr ""); ("primerApellido", JStr ""); ("segundoApellido", JStr "")]
  = true
  /\ extraer_registro str_demo "f.json" (JObj registro_sin_nombre) = Ok None
  /\ exists p, extraer_datos_persona str_demo (JObj registro_sin_nombre) = Some p
               /\ p_nombreCompleto p = "  ".
Proof.
  split; [reflexivity|].
  destruct (registro_sin_nombres str_demo registro_sin_nombre _ _ _ "f.json"
              eq_refl eq_refl eq_refl eq_refl) as (H1 & _ & H3).
  split; [exact H1|].
  destruct H3 as (p & Hp & _ & _ & _ & Hn); [discriminate|reflexivity|].
  exists p. now split.
Defined.

Lemma dos_validos_un_malformado_testigo :
  forallb forma_esperada
    ([declaracion "1" "Ana" "Lopez" "Garcia"] ++ [declaracion "2" "Bob" "Diaz" "Ruiz"])
  = true
  /\ navegacion_falla str_demo JNull = true
  /\ total_ocurrencias
       (st_datos (procesar_archivo_json str_demo
                    ("x.json", Ok (JArr archivo_con_nulo)) estado_inicial))
     = 2.
Proof.
  split; [reflexivity|]. split; [reflexivity|].
  exact (proj1 (dos_validos_un_malformado str_demo
                  [declaracion "1" "Ana" "Lopez" "Garcia"]
                  [declaracion "2" "Bob" "Diaz" "Ruiz"]
                  JNull "x.json" estado_inicial [] 0
                  eq_refl eq_refl eq_refl)).
Defined.

Lemma numeracion_en_orden_de_insercion_testigo :
  let datos := st_datos (explorar_directorios str_demo lote_ana) in
  let filas := filas_informe
                 (generar_informe_duplicados excel_demo datos "out.xlsx") in
  generar_informe_duplicados excel_demo datos "out.xlsx" = InformeGenerado filas
  /\ In ("Ana|Lopez|Garcia", buscar "Ana|Lopez|Garcia" datos) datos
  /\ 1 < List.length (buscar "Ana|Lopez|Garcia" datos)
  /\ map f_ocurrenciaNumero (filas_de_clave "Ana|Lopez|Garcia" filas)
     = seq 1 (List.length (buscar "Ana|Lopez|Garcia" datos)).
Proof.
  intros datos filas.
  assert (Hg : generar_informe_duplicados excel_demo datos "out.xlsx"
               = InformeGenerado filas) by reflexivity.
  assert (Hin : In ("Ana|Lopez|Garcia", buscar "Ana|Lopez|Garcia" datos) datos)
    by (left; reflexivity).
  assert (Hl : 1 < List.length (buscar "Ana|Lopez|Garcia" datos))
    by (vm_compute; lia).
  repeat (split; [assumption|]).
  exact (proj1 (proj2 (numeracion_en_orden_de_insercion str_demo excel_demo
                         lote_ana "out.xlsx" filas _ _ Hg Hin Hl))).
Defined.

Lemma barra_en_nombre_pierde_informe_testigo :
  let datos := st_datos (explorar_directorios str_demo lote_barra) in
  let ocs := buscar "Ana|Maria|Lopez|Garcia" datos in
  In ("Ana|Maria|Lopez|Garcia", ocs) datos
  /\ 1 < List.length ocs
  /\ generar_informe_duplicados excel_demo datos "out.xlsx"
     = ErrorInforme ValueError.
Proof.
  intros datos ocs.
  assert (Hin : In ("Ana|Maria|Lopez|Garcia", ocs) datos) by (left; reflexivity).
  assert (Hl : 1 < List.length ocs) by (vm_compute; lia).
  repeat (split; [assumption|]).
  refine (proj1 (barra_en_nombre_pierde_informe str_demo excel_demo
                   lote_barra "out.xlsx" _ ocs (hd (Build_ocurrencia JNull JNull JNull JNull JNull JNull "") ocs)
                   Hin Hl _ _)).
  - left. reflexivity.
  - reflexivity.
Defined.

Lemma datos_generales_vacio_sin_persona_testigo :
  dict_lookup "datosGenerales" [("datosGenerales", JObj [])] = Some (JObj [])
  /\ extraer_datos_persona str_demo (JObj registro_vacio) = None.
Proof.
  split; [reflexivity|].
  exact (proj2 (datos_generales_vacio_sin_persona str_demo registro_vacio _ _
                  eq_refl eq_refl (or_introl eq_refl))).
Defined.

(** ** Further properties of the scripts *)

Section MasPropiedades.

Variable str_py : json -> string.

(** *** The accumulator of the whole-tree walk *)

Lemma grupos_no_vacios_agregar (k : string) (o : ocurrencia) (d : datos_personas) :
  (forall kv, In kv d -> snd kv <> []) ->
  forall kv, In kv (agregar k o d) -> snd kv <> [].
Proof.
  induction d as [|[k' os] d IH]; cbn [agregar]; intros H kv Hin.
  - destruct Hin as [<-|[]]. discriminate.
  - destruct (k' =? k)%string.
    + destruct Hin as [<-|Hin]; [|apply H; now right].
      cbn. intros E. now apply app_eq_nil in E as [_ E].
    + destruct Hin as [<-|Hin]; [apply H; now left|].
      apply IH; [|exact Hin]. intros kv' Hkv'. apply H. now right.
Qed.

Lemma grupos_no_vacios_acumular (es : list (string * ocurrencia))
  (d : datos_personas) :
  (forall kv, In kv d -> snd kv <> []) ->
  forall kv, In kv (acumular es d) -> snd kv <> [].
Proof.
  revert d. induction es as [|[k o] es IH]; intros d H; [exact H|].
  change (acumular ((k, o) :: es) d) with (acumular es (agregar k o d)).
  apply IH. now apply grupos_no_vacios_agregar.
Qed.

Lemma buscar_presente (k : string) (d : datos_personas) :
  buscar k d <> [] -> In (k, buscar k d) d.
Proof.
  induction d as [|[k' os] d IH]; cbn; [congruence|].
  destruct (String.eqb_spec k' k) as [->|Hne]; [now left|].
  intros H. right. now apply IH.
Qed.

Lemma claves_unicas_explorar (archivos : list archivo) :
  NoDup (map fst (st_datos (explorar_directorios str_py archivos))).
Proof.
  rewrite explorar_directorios_datos.
  apply (claves_unicas_acumular excel_demo). constructor.
Qed.

Lemma ocurrencia_emitida (archivos : list archivo) (k : string)
  (ocs : list ocurrencia) (o : ocurrencia) :
  In (k, ocs) (st_datos (explorar_directorios str_py archivos)) ->
  In o ocs ->
  In (k, o) (emitidos str_py archivos).
Proof.
  intros Hin Ho.
  rewrite (grupo_en_orden_de_recorrido str_py excel_demo _ _ _ Hin) in Ho.
  apply in_map_iff in Ho as [[k' o'] [E Hf]]. cbn in E. subst o'.
  apply filter_In in Hf as [Hf Hk]. cbn in Hk.
  apply String.eqb_eq in Hk. now subst k'.
Qed.

(** X1: the accumulator of a whole-tree walk has each key once, has no
    empty list, and holds exactly the persons the elements of the files
    gave: as many, and each under the key it was emitted with. *)
Theorem acumulador_sin_perdidas :
  forall (archivos : list archivo),
    let d := st_datos (explorar_directorios str_py archivos) in
    NoDup (map fst d)
    /\ (forall k ocs, In (k, ocs) d -> ocs <> [])
    /\ total_ocurrencias d = List.length (emitidos str_py archivos)
    /\ (forall k o, In (k, o) (emitidos str_py archivos)
                    <-> exists ocs, In (k, ocs) d /\ In o ocs).
Proof.
  intros archivos d. subst d.
  split; [apply claves_unicas_explorar|]. split; [|split].
  - intros k ocs Hin. rewrite explorar_directorios_datos in Hin.
    apply (grupos_no_vacios_acumular _ [] (fun kv (H : In kv []) => match H with end)
             (k, ocs) Hin).
  - rewrite explorar_directorios_datos, total_ocurrencias_acumular. reflexivity.
  - intros k o. split.
    + intros Hin.
      assert (Ho : In o (buscar k (st_datos (explorar_directorios str_py archivos)))).
      { rewrite explorar_directorios_datos, buscar_acumular. cbn [buscar app].
        apply in_map_iff. exists (k, o). split; [reflexivity|].
        apply filter_In. split; [exact Hin|]. cbn. apply String.eqb_refl. }
      exists (buscar k (st_datos (explorar_directorios str_py archivos))).
      split; [|exact Ho]. apply buscar_presente. intros E. now rewrite E in Ho.
    + intros [ocs [Hin Ho]]. exact (ocurrencia_emitida _ _ _ _ Hin Ho).
Qed.

(** *** Files that fail *)

Lemma archivo_fallido_emitidos (a : archivo) :
  archivo_fallido a = true -> emitidos_archivo str_py a = [].
Proof.
  unfold archivo_fallido, emitidos_archivo.
  destruct (snd a) as [c|e]; [|reflexivity].
  destruct c; cbn; try discriminate; reflexivity.
Qed.

(** X2: in the whole-tree walk, a file whose reading raised or whose
    document is a scalar leaves the accumulator as it was and adds one
    file error to the log; the persons filed by a walk are those of the
    walk without that file. *)
Theorem archivo_fallido_no_cambia_acumulador :
  forall (l1 l2 : list archivo) (a : archivo) (st : estado),
    archivo_fallido a = true ->
    st_datos (procesar_archivo_json str_py a st) = st_datos st
    /\ (exists e, st_log (procesar_archivo_json str_py a st)
                  = st_log st ++ [ErrorArchivo (fst a) e])
    /\ st_datos (explorar_directorios str_py (l1 ++ a :: l2))
       = st_datos (explorar_directorios str_py (l1 ++ l2)).
Proof.
  intros l1 l2 a st Ha. split; [|split].
  - rewrite procesar_archivo_json_datos, archivo_fallido_emitidos by exact Ha.
    reflexivity.
  - destruct a as [ruta [c|e]]; unfold archivo_fallido in Ha; cbn [snd fst] in *.
    + destruct c; try discriminate; eexists; reflexivity.
    + eexists; reflexivity.
  - rewrite !explorar_directorios_datos. unfold emitidos.
    rewrite !flat_map_app. cbn [flat_map].
    now rewrite archivo_fallido_emitidos.
Qed.

(** *** What is filed *)

Ltac casos_bind_en H :=
  repeat match type of H with
         | context [bind ?c _] =>
             let E := fresh "E" in destruct c eqn:E; cbn [bind] in H
         | context [if ?b then _ else _] =>
             let E := fresh "E" in destruct b eqn:E
         end.

Lemma emitido_guardas (ruta : string) (v : json) (k : string) (o : ocurrencia) :
  In (k, o) (emitido str_py ruta v) ->
  truthy (o_nombre o) = true
  /\ truthy (o_primerApellido o) = true
  /\ o_rutaArchivo o = ruta.
Proof.
  unfold emitido.
  destruct (extraer_registro str_py ruta v) as [[ko|]|] eqn:E;
    [|intros []|intros []].
  intros [->|[]]. unfold extraer_registro in E.
  casos_bind_en E; try discriminate.
  inversion E; subst; cbn.
  match goal with
  | H : (_ && _)%bool = true |- _ => apply andb_prop in H as [H1 H2]
  end.
  now repeat split.
Qed.

(** X3: every person in the accumulator of a whole-tree walk has a name
    and a first surname that are not empty, is filed under the key made of
    its three name fields, and carries the path of a file of the walk. *)
Theorem personas_archivadas :
  forall (archivos : list archivo) (k : string) (ocs : list ocurrencia)
         (o : ocurrencia),
    In (k, ocs) (st_datos (explorar_directorios str_py archivos)) ->
    In o ocs ->
    truthy (o_nombre o) = true
    /\ truthy (o_primerApellido o) = true
    /\ k = persona_key str_py (o_nombre o) (o_primerApellido o) (o_segundoApellido o)
    /\ In (o_rutaArchivo o) (map fst archivos).
Proof.
  intros archivos k ocs o Hin Ho.
  assert (He : In (k, o) (emitidos str_py archivos))
    by exact (ocurrencia_emitida _ _ _ _ Hin Ho).
  split; [|split; [|split]].
  1-2,4: unfold emitidos in He; apply in_flat_map in He as [[ruta lectura] [Ha He]];
    unfold emitidos_archivo in He; cbn [fst snd] in He;
    destruct lectura as [c|]; [|destruct He];
    destruct (iterar (envolver c)); [|destruct He];
    apply in_flat_map in He as [v [_ He]];
    apply emitido_guardas in He as (H1 & H2 & H3).
  - exact H1.
  - exact H2.
  - rewrite H3. change ruta with (fst (ruta, Ok c)). now apply in_map.
  - now apply (clave_de_ocurrencia str_py excel_demo archivos k ocs).
Qed.

(** *** The report of the whole-tree detector, continued *)

Lemma filas_de_grupo_dos_barras (k : string) (ocs : list ocurrencia) :
  contar barra k = 2 -> exists fs, filas_de_grupo k ocs = Ok fs.
Proof.
  intros H. unfold filas_de_grupo.
  pose proof (split_length barra k) as Hl. rewrite H in Hl.
  destruct (split barra k) as [|a [|b [|c [|x t]]]]; try discriminate. eauto.
Qed.

Lemma construir_registros_ok_iff (dups : datos_personas) (acc : list fila) :
  (exists filas, construir_registros dups acc = Ok filas)
  <-> Forall (fun kv => contar barra (fst kv) = 2) dups.
Proof.
  revert acc. induction dups as [|[k ocs] dups IH]; intros acc.
  - split; [constructor|]. intros _. cbn. eauto.
  - cbn [construir_registros]. split.
    + intros [filas H].
      destruct (filas_de_grupo k ocs) as [fs|e] eqn:E; cbn [bind] in H;
        [|discriminate].
      constructor; [|apply (IH (acc ++ fs)); eauto].
      cbn [fst]. destruct (Nat.eq_dec (contar barra k) 2) as [E2|N2]; [exact E2|].
      rewrite (filas_de_grupo_barras k ocs N2) in E. discriminate.
    + intros H. inversion H as [|? ? Hk Hd]; subst. cbn [fst] in Hk.
      destruct (filas_de_grupo_dos_barras k ocs Hk) as [fs ->]. cbn [bind].
      now apply IH.
Qed.

Lemma construir_registros_datos (dups : datos_personas) (acc filas : list fila) :
  construir_registros dups acc = Ok filas ->
  map datos_fila filas
  = map datos_fila acc ++ flat_map (fun kv => map datos_ocurrencia (snd kv)) dups.
Proof.
  revert acc. induction dups as [|[k ocs] dups IH]; intros acc H.
  - cbn in H. inversion H. cbn. now rewrite app_nil_r.
  - cbn [construir_registros] in H.
    destruct (filas_de_grupo k ocs) as [fs|e] eqn:E; cbn [bind] in H;
      [|discriminate].
    rewrite (IH _ H), map_app, <- app_assoc. cbn [flat_map snd].
    apply filas_de_grupo_ok in E as (_ & _ & Hd & _). now rewrite Hd.
Qed.

Lemma filtrar_duplicados_no_vacio (d : datos_personas) :
  filtrar_duplicados d <> []
  <-> exists kv, In kv d /\ 1 < List.length (snd kv).
Proof.
  unfold filtrar_duplicados. split.
  - destruct (filter _ d) as [|kv l] eqn:E; [congruence|]. intros _.
    assert (H : In kv (filter (fun kv => (1 <? List.length (snd kv))%nat) d))
      by (rewrite E; now left).
    apply filter_In in H as [H1 H2]. exists kv. split; [exact H1|].
    now apply Nat.ltb_lt.
  - intros [kv [H1 H2]] E.
    assert (H : In kv (filter (fun kv => (1 <? List.length (snd kv))%nat) d))
      by (apply filter_In; split; [exact H1|now apply Nat.ltb_lt]).
    now rewrite E in H.
Qed.

Section Informe.

Variable escribir_excel : string -> list fila -> res unit.

(** X4: when the Excel sink accepts what it is given,
    [generar_informe_duplicados] returns [True] exactly when some key is
    filed at least twice and every key filed at least twice has exactly two
    [|]; a [|] in the name of a person filed once does not matter. *)
Theorem informe_generado_sii :
  forall (d : datos_personas) (destino : string),
    (forall filas, escribir_excel destino filas = Ok tt) ->
    (retorno (generar_informe_duplicados escribir_excel d destino) = true
     <-> (exists kv, In kv d /\ 1 < List.length (snd kv))
         /\ (forall kv, In kv d -> 1 < List.length (snd kv) ->
                        contar barra (fst kv) = 2)).
Proof.
  intros d destino Hsink.
  rewrite <- filtrar_duplicados_no_vacio.
  assert (Hf : (forall kv, In kv d -> 1 < List.length (snd kv) ->
                           contar barra (fst kv) = 2)
               <-> Forall (fun kv => contar barra (fst kv) = 2)
                          (filtrar_duplicados d)).
  { rewrite Forall_forall. unfold filtrar_duplicados. split.
    - intros H kv Hkv. apply filter_In in Hkv as [H1 H2].
      apply H; [exact H1|now apply Nat.ltb_lt].
    - intros H kv H1 H2. apply H. apply filter_In. split; [exact H1|].
      now apply Nat.ltb_lt. }
  rewrite Hf, <- (construir_registros_ok_iff _ []).
  unfold generar_informe_duplicados.
  destruct (filtrar_duplicados d) as [|kv dups] eqn:E.
  - cbn. split; [discriminate|]. intros [H _]. congruence.
  - destruct (construir_registros (kv :: dups) []) as [filas|e].
    + rewrite Hsink. cbn. split; [|reflexivity]. intros _.
      split; [discriminate|eauto].
    + cbn. split; [discriminate|]. intros [_ [filas H]]. discriminate.
Qed.

(** X5: when the whole-tree report is produced, its rows are the persons
    of the keys filed at least twice, all of them and no other, key after
    key in the order of the accumulator, and the sink has accepted exactly
    these rows. *)
Theorem informe_completo :
  forall (d : datos_personas) (destino : string) (filas : list fila),
    generar_informe_duplicados escribir_excel d destino = InformeGenerado filas ->
    map datos_fila filas
    = flat_map (fun kv => map datos_ocurrencia (snd kv)) (filtrar_duplicados d)
    /\ List.length filas = total_ocurrencias (filtrar_duplicados d)
    /\ escribir_excel destino filas = Ok tt.
Proof.
  intros d destino filas H.
  pose proof (generar_informe_generado _ _ _ _ H) as Hc.
  pose proof (construir_registros_datos _ _ _ Hc) as Hd. cbn [map app] in Hd.
  split; [exact Hd|]. split.
  - rewrite <- (length_map datos_fila), Hd. unfold total_ocurrencias.
    generalize (filtrar_duplicados d). intros l.
    induction l as [|kv l IH]; [reflexivity|].
    cbn [flat_map map list_sum]. rewrite length_app, length_map, IH.
    reflexivity.
  - unfold generar_informe_duplicados in H.
    destruct (filtrar_duplicados d) as [|kv dups]; [discriminate|].
    rewrite Hc in H.
    destruct (escribir_excel destino filas) as [[]|]; [reflexivity|discriminate].
Qed.

(** X6: when the report of a walk is produced, the three name columns of
    every row of a key are the texts of the name fields of every person
    filed under that key: the key is split back into the names it was made
    of. *)
Theorem nombres_de_fila :
  forall (archivos : list archivo) (destino : string) (filas : list fila)
         (k : string) (ocs : list ocurrencia) (o : ocurrencia) (f : fila),
    generar_informe_duplicados escribir_excel
      (st_datos (explorar_directorios str_py archivos)) destino
    = InformeGenerado filas ->
    In (k, ocs) (st_datos (explorar_directorios str_py archivos)) ->
    1 < List.length ocs ->
    In o ocs ->
    In f (filas_de_clave k filas) ->
    f_nombre f = formato str_py (o_nombre o)
    /\ f_primerApellido f = formato str_py (o_primerApellido o)
    /\ f_segundoApellido f = formato str_py (o_segundoApellido o).
Proof.
  intros archivos destino filas k ocs o f Hgen Hin Hlen Ho Hf.
  pose proof (clave_de_ocurrencia str_py excel_demo _ _ _ _ Hin Ho) as Hk.
  apply generar_informe_generado in Hgen.
  assert (Hnd : NoDup (map fst (st_datos (explorar_directorios str_py archivos))))
    by apply claves_unicas_explorar.
  assert (Hdup : In (k, ocs)
                   (filtrar_duplicados
                      (st_datos (explorar_directorios str_py archivos))))
    by (apply filter_In; split; [exact Hin|now apply Nat.ltb_lt]).
  destruct (construir_registros_grupo _ _ _ _ _ Hgen
              (claves_unicas_filtrar _ Hnd) Hdup) as [fs [Hfs Hkf]].
  cbn [filas_de_clave filter app] in Hkf.
  assert (H2 : contar barra k = 2).
  { destruct (Nat.eq_dec (contar barra k) 2) as [E2|N2]; [exact E2|].
    rewrite (filas_de_grupo_barras k ocs N2) in Hfs. discriminate. }
  assert (Hcf : clave_fila f = k).
  { apply filas_de_grupo_ok in Hfs as (Hall & _).
    rewrite Forall_forall in Hall. apply Hall.
    unfold filas_de_clave in Hkf. now rewrite <- Hkf. }
  pose proof H2 as H2'. rewrite Hk, contar_persona_key in H2.
  rewrite <- Hcf in H2'.
  change (clave_fila f)
    with (persona_key str_py (JStr (f_nombre f)) (JStr (f_primerApellido f))
            (JStr (f_segundoApellido f))) in H2', Hcf.
  rewrite contar_persona_key in H2'. cbn [formato] in H2'.
  rewrite Hk in Hcf.
  apply persona_key_inyectiva in Hcf; cbn [formato] in *; try lia.
  exact Hcf.
Qed.

End Informe.

(** *** The two extractors on one element *)

Ltac reescribir_binds :=
  cbn [bind];
  repeat match goal with
         | H : ?c = Ok _ |- context [bind ?c _] => rewrite H; cbn [bind]
         | H : ?b = true |- context [if ?b then _ else _] => rewrite H
         | H1 : ?a = true, H2 : ?b = true
           |- context [if (?a && ?b)%bool then _ else _] =>
             rewrite H1, H2; cbn [andb]
         end.

(** X7: on an element where the whole-tree extractor files a person, the
    partitioned extractor returns a person with the same identifier, names,
    institution and date; and where the partitioned extractor returns a
    person whose name and first surname are not empty, the whole-tree
    extractor files one. *)
Theorem extractores_de_acuerdo :
  forall (ruta : string) (v : json),
    (forall k o,
        extraer_registro str_py ruta v = Ok (Some (k, o)) ->
        exists p, extraer_datos_persona str_py v = Some p
                  /\ p_id p = o_id o
                  /\ tupla_persona p = tupla_ocurrencia o
                  /\ p_institucion p = o_institucion o
                  /\ p_fechaActualizacion p = o_fechaActualizacion o)
    /\ (forall p,
           extraer_datos_persona str_py v = Some p ->
           truthy (p_nombre p) = true ->
           truthy (p_primerApellido p) = true ->
           exists k o, extraer_registro str_py ruta v = Ok (Some (k, o))
                       /\ tupla_ocurrencia o = tupla_persona p).
Proof.
  intros ruta v. split.
  - intros k o H. unfold extraer_datos_persona, cuerpo_extraer.
    unfold extraer_registro in H.
    casos_bind_en H; try discriminate.
    inversion H; subst; clear H.
    match goal with
    | H : py_get ?m "institucion" _ = Ok _ |- _ =>
        destruct m; try discriminate H
    end.
    match goal with
    | H : py_get (JObj ?m) "institucion" _ = Ok _ |- _ =>
        destruct (py_get_obj_ok m "tipo" (JStr "Sin tipo")) as [vt Hvt]
    end.
    reescribir_binds.
    eexists. split; [reflexivity|]. now repeat split.
  - intros p H Hn Ha. unfold extraer_datos_persona in H.
    destruct (cuerpo_extraer str_py v) as [r|] eqn:Hc; [|discriminate].
    subst r. unfold cuerpo_extraer in Hc. unfold extraer_registro.
    casos_bind_en Hc; try discriminate.
    inversion Hc; subst; clear Hc. cbn in Hn, Ha.
    reescribir_binds.
    do 2 eexists. split; reflexivity.
Qed.

(** *** Reading a directory *)

Lemma paso_archivo_eq (acc : list persona * nat) (a : archivo) :
  paso_archivo str_py acc a
  = (fst acc ++ personas_archivo str_py a,
     snd acc + (if archivo_fallido a then 0 else 1)).
Proof.
  destruct acc as [regs n], a as [ruta [c|e]];
    unfold paso_archivo, personas_archivo, archivo_fallido; cbn [fst snd].
  - destruct c; cbn [envolver iterar es_escalar];
      rewrite ?app_nil_r, ?Nat.add_0_r, ?Nat.add_1_r, ?fold_paso_persona;
      reflexivity.
  - now rewrite app_nil_r, Nat.add_0_r.
Qed.

Lemma fold_paso_archivo (archivos : list archivo) (acc : list persona * nat) :
  fold_left (paso_archivo str_py) archivos acc
  = (fst acc ++ flat_map (personas_archivo str_py) archivos,
     snd acc + List.length (filter (fun a => negb (archivo_fallido a)) archivos)).
Proof.
  revert acc. induction archivos as [|a archivos IH]; intros acc.
  - cbn. rewrite app_nil_r, Nat.add_0_r. now destruct acc.
  - cbn [fold_left flat_map filter]. rewrite IH, paso_archivo_eq. cbn [fst snd].
    rewrite <- app_assoc. f_equal.
    destruct (archivo_fallido a); cbn [negb List.length]; lia.
Qed.

Lemma extraer_datos_persona_nombre (v : json) (p : persona) :
  extraer_datos_persona str_py v = Some p ->
  p_nombreCompleto p
  = nombre_completo str_py (p_nombre p) (p_primerApellido p) (p_segundoApellido p)
  /\ p_rutaArchivo p = None.
Proof.
  unfold extraer_datos_persona.
  destruct (cuerpo_extraer str_py v) as [r|] eqn:Hc; [|discriminate].
  intros ->. unfold cuerpo_extraer in Hc.
  casos_bind_en Hc; try discriminate.
  inversion Hc; subst. now split.
Qed.

Lemma registro_de_directorio (archivos : list archivo) (p : persona) :
  In p (fst (leer_archivos_json_directorio str_py (Ok archivos))) ->
  exists a, In a archivos
            /\ archivo_fallido a = false
            /\ p_rutaArchivo p = Some (fst a)
            /\ p_nombreCompleto p
               = nombre_completo str_py (p_nombre p)
                   (p_primerApellido p) (p_segundoApellido p).
Proof.
  unfold leer_archivos_json_directorio.
  rewrite fold_paso_archivo. cbn [fst snd app].
  intros Hp. apply in_flat_map in Hp as [a [Ha Hp]]. exists a.
  split; [exact Ha|].
  unfold personas_archivo in Hp. unfold archivo_fallido.
  destruct (snd a) as [c|]; [|destruct Hp].
  destruct (iterar (envolver c)) as [elems|] eqn:Hi; [|destruct Hp].
  split; [destruct c; try reflexivity; discriminate|].
  apply in_flat_map in Hp as [v [_ Hp]].
  destruct (extraer_datos_persona str_py v) as [q|] eqn:Hq; [|destruct Hp].
  destruct Hp as [<-|[]]. cbn [con_ruta p_rutaArchivo p_nombreCompleto p_nombre
                              p_primerApellido p_segundoApellido].
  split; [reflexivity|]. now apply extraer_datos_persona_nombre in Hq.
Qed.

(** X8: [leer_archivos_json_directorio] counts the files whose reading
    went through and whose document is not a scalar, and no other; every
    record it returns carries the path of such a file and a full name made
    of its own three name fields; a directory that cannot be listed gives
    no record and a count of zero. *)
Theorem lectura_de_directorio :
  forall (archivos : list archivo),
    snd (leer_archivos_json_directorio str_py (Ok archivos))
    = List.length (filter (fun a => negb (archivo_fallido a)) archivos)
    /\ (forall p,
           In p (fst (leer_archivos_json_directorio str_py (Ok archivos))) ->
           exists a, In a archivos
                     /\ archivo_fallido a = false
                     /\ p_rutaArchivo p = Some (fst a)
                     /\ p_nombreCompleto p
                        = nombre_completo str_py (p_nombre p)
                            (p_primerApellido p) (p_segundoApellido p))
    /\ (forall e, leer_archivos_json_directorio str_py (Raise e) = ([], 0)).
Proof.
  intros archivos.
  split; [|split; [intros p; apply registro_de_directorio|reflexivity]].
  unfold leer_archivos_json_directorio.
  rewrite fold_paso_archivo. reflexivity.
Qed.

(** X9: in a directory, a file whose reading raised or whose document is
    a scalar is skipped: the records and the count are those of the
    directory without that file, and the files after it are still read. *)
Theorem archivo_fallido_en_directorio :
  forall (l1 l2 : list archivo) (a : archivo),
    archivo_fallido a = true ->
    leer_archivos_json_directorio str_py (Ok (l1 ++ a :: l2))
    = leer_archivos_json_directorio str_py (Ok (l1 ++ l2)).
Proof.
  intros l1 l2 a Ha. unfold leer_archivos_json_directorio.
  rewrite !fold_paso_archivo, !flat_map_app, !filter_app.
  cbn [flat_map filter]. rewrite Ha. cbn [negb].
  unfold personas_archivo. unfold archivo_fallido in Ha.
  destruct (snd a) as [c|]; [|reflexivity].
  destruct c; try discriminate; reflexivity.
Qed.

(** *** The analyzer, continued *)

Lemma contar_nombre_map (n : string) (df : list persona) :
  contar_nombre n (map p_nombreCompleto df)
  = List.length (filter (fun p => (p_nombreCompleto p =? n)%string) df).
Proof.
  unfold contar_nombre. induction df as [|q df IH]; cbn; [reflexivity|].
  destruct (p_nombreCompleto q =? n)%string; cbn; now rewrite IH.
Qed.

Lemma personas_de_analizar (df : list persona) :
  Permutation (map d_persona (fst (analizar_duplicados df)))
              (filter (duplicated df) df).
Proof.
  rewrite (analizar_duplicados_filas excel_demo). unfold sort_values.
  rewrite ordenar_perm, map_map. cbn [d_persona con_conteo].
  now rewrite map_id.
Qed.

Lemma duplicated_dos_o_mas (df : list persona) (p : persona) :
  duplicated df p = true
  <-> 2 <= List.length
             (filter (fun q => (p_nombreCompleto q =? p_nombreCompleto p)%string) df).
Proof.
  unfold duplicated. rewrite contar_nombre_map.
  rewrite Nat.ltb_lt. lia.
Qed.

(** X10: the rows of [analizar_duplicados] are the persons of the batch
    whose full name is the full name of two or more persons of the batch:
    each of them once, and nobody else. *)
Theorem analizar_duplicados_completo :
  forall (df : list persona),
    Permutation (map d_persona (fst (analizar_duplicados df)))
                (filter (duplicated df) df)
    /\ (forall p, duplicated df p = true
                  <-> 2 <= List.length
                             (filter (fun q => (p_nombreCompleto q
                                                =? p_nombreCompleto p)%string) df)).
Proof.
  intros df. split; [apply personas_de_analizar|].
  intros p. apply duplicated_dos_o_mas.
Qed.

Lemma filter_filter_neq (x y : string) (l : list string) :
  filter (fun z => negb (z =? x)%string) (filter (fun z => negb (z =? y)%string) l)
  = filter (fun z => negb (z =? y)%string) (filter (fun z => negb (z =? x)%string) l).
Proof.
  induction l as [|z l IH]; cbn; [reflexivity|].
  destruct (z =? y)%string eqn:Ey, (z =? x)%string eqn:Ex; cbn;
    rewrite ?Ex, ?Ey; cbn; now rewrite IH.
Qed.

Lemma unique_filter (x : string) (l : list string) :
  filter (fun z => negb (z =? x)%string) (unique l)
  = unique (filter (fun z => negb (z =? x)%string) l).
Proof.
  induction l as [|y l IH]; cbn [unique filter]; [reflexivity|].
  destruct (String.eqb_spec y x) as [->|Hne]; cbn [negb unique].
  - rewrite <- IH.
    generalize (unique l). intros u.
    induction u as [|z u IHu]; cbn; [reflexivity|].
    destruct (z =? x)%string eqn:E; cbn; rewrite ?E; cbn; now rewrite IHu.
  - f_equal. now rewrite filter_filter_neq, IH.
Qed.

Lemma contar_nombre_filter (x n : string) (l : list string) :
  n <> x ->
  contar_nombre n (filter (fun z => negb (z =? x)%string) l) = contar_nombre n l.
Proof.
  intros Hne. unfold contar_nombre.
  induction l as [|z l IH]; cbn; [reflexivity|].
  destruct (String.eqb_spec z x) as [->|Hzx]; cbn.
  - apply String.eqb_neq in Hne. rewrite String.eqb_sym in Hne. now rewrite Hne.
  - destruct (z =? n)%string; cbn; now rewrite IH.
Qed.

Lemma length_filter_neq (x : string) (l : list string) :
  List.length l
  = contar_nombre x l + List.length (filter (fun z => negb (z =? x)%string) l).
Proof.
  unfold contar_nombre. induction l as [|z l IH]; cbn; [reflexivity|].
  destruct (z =? x)%string; cbn; lia.
Qed.

Lemma filter_filter_implica {A : Type} (P Q : A -> bool) (l : list A) :
  (forall x, P x = true -> Q x = true) ->
  filter P (filter Q l) = filter P l.
Proof.
  intros H. induction l as [|x l IH]; cbn; [reflexivity|].
  destruct (P x) eqn:Px.
  - rewrite (H x Px). cbn. rewrite Px. now f_equal.
  - destruct (Q x); cbn; rewrite ?Px; exact IH.
Qed.

(** Where every value occurs twice or more, there are at most half as many
    distinct values as values. *)
Lemma dos_por_valor (l : list string) :
  (forall n, In n l -> 2 <= contar_nombre n l) ->
  2 * List.length (unique l) <= List.length l.
Proof.
  remember (List.length l) as m eqn:Hm. revert l Hm.
  induction m as [m IH] using lt_wf_ind. intros l Hm H.
  destruct l as [|x l]; [cbn; lia|].
  cbn [unique List.length]. rewrite unique_filter.
  pose proof (length_filter_neq x (x :: l)) as Hl.
  pose proof (H x (or_introl eq_refl)) as Hx.
  cbn [filter] in Hl. rewrite String.eqb_refl in Hl. cbn [negb] in Hl.
  set (r := filter (fun z => negb (z =? x)%string) l) in *.
  assert (Hr : 2 * List.length (unique r) <= List.length r).
  { apply (IH (List.length r)); [cbn [List.length] in *; lia|reflexivity|].
    intros n Hn. subst r. pose proof Hn as Hn'.
    apply filter_In in Hn' as [Hnl Hnx].
    assert (Hne : n <> x).
    { intros ->. rewrite String.eqb_refl in Hnx. discriminate. }
    rewrite contar_nombre_filter by exact Hne.
    pose proof (H n (or_intror Hnl)) as H2.
    unfold contar_nombre in H2 |- *. cbn [filter] in H2.
    apply String.eqb_neq in Hne. rewrite String.eqb_sym in Hne.
    now rewrite Hne in H2. }
  cbn [List.length] in *. lia.
Qed.

Lemma analizar_duplicados_cotas (df : list persona) :
  let filas := fst (analizar_duplicados df) in
  let nombres := snd (analizar_duplicados df) in
  List.length filas <= List.length df
  /\ 2 * nombres <= List.length filas
  /\ List.length filas <> 1.
Proof.
  intros filas nombres.
  assert (Hlen : List.length filas <= List.length df).
  { subst filas. rewrite <- (length_map d_persona).
    rewrite (Permutation_length (personas_de_analizar df)).
    apply filter_length_le. }
  assert (Hn : nombres
               = List.length (unique (map d_nombreCompleto filas)))
    by apply analizar_duplicados_nombres.
  assert (H2 : 2 * nombres <= List.length filas).
  { rewrite Hn, <- (length_map d_nombreCompleto filas).
    apply dos_por_valor. intros n Hin.
    apply in_map_iff in Hin as [r [<- Hr]].
    destruct (fila_de_analizar excel_demo df r Hr) as (_ & Hc & Hge).
    assert (Hperm : Permutation (map d_nombreCompleto filas)
                      (map p_nombreCompleto (filter (duplicated df) df))).
    { subst filas. rewrite <- (Permutation_map _ (personas_de_analizar df)).
      rewrite map_map. reflexivity. }
    rewrite (contar_nombre_perm _ _ _ Hperm), contar_nombre_map.
    rewrite Hc in Hge.
    assert (E : filter (fun p => (p_nombreCompleto p =? d_nombreCompleto r)%string)
                  (filter (duplicated df) df)
                = filter (fun p => (p_nombreCompleto p =? d_nombreCompleto r)%string)
                    df).
    { apply filter_filter_implica. intros p Hp.
      apply String.eqb_eq in Hp. unfold duplicated.
      rewrite Hp, contar_nombre_map. now apply Nat.ltb_lt. }
    now rewrite E. }
  split; [exact Hlen|]. split; [exact H2|].
  intros H1. destruct filas as [|r [|r' l]] eqn:Ef; try discriminate.
  cbn in Hn. cbn in H2. lia.
Qed.

(** X11: [analizar_duplicados] never returns more rows than the batch has
    persons, never returns exactly one row, and returns at least two rows
    for each duplicated name it counts; it counts no name exactly when it
    returns no row. *)
Theorem analizar_duplicados_cuentas :
  forall (df : list persona),
    let filas := fst (analizar_duplicados df) in
    let nombres := snd (analizar_duplicados df) in
    List.length filas <= List.length df
    /\ 2 * nombres <= List.length filas
    /\ List.length filas <> 1
    /\ (nombres = 0 <-> filas = []).
Proof.
  intros df filas nombres.
  destruct (analizar_duplicados_cotas df) as (Hlen & H2 & H1).
  fold filas in Hlen, H2, H1. fold nombres in H2.
  assert (Hn : nombres
               = List.length (unique (map d_nombreCompleto filas)))
    by apply analizar_duplicados_nombres.
  split; [exact Hlen|]. split; [exact H2|]. split; [exact H1|].
  split.
  - intros H0. destruct filas as [|r l] eqn:Ef; [reflexivity|].
    rewrite Hn in H0. cbn in H0. discriminate.
  - intros Hf. rewrite Hn, Hf. reflexivity.
Qed.

(** X12: two records that [leer_archivos_json_directorio] returned with
    the same three name fields both come out of [analizar_duplicados]: a
    repeated name tuple is never missed. *)
Theorem tupla_repetida_detectada :
  forall (listado : res (list archivo)) (l1 l2 l3 : list persona)
         (p q : persona),
    fst (leer_archivos_json_directorio str_py listado) = l1 ++ p :: l2 ++ q :: l3 ->
    tupla_persona p = tupla_persona q ->
    let filas := fst (analizar_duplicados
                        (fst (leer_archivos_json_directorio str_py listado))) in
    In p (map d_persona filas) /\ In q (map d_persona filas).
Proof.
  intros listado l1 l2 l3 p q Hdf Ht filas.
  set (df := fst (leer_archivos_json_directorio str_py listado)) in *.
  assert (Hp : In p df) by (rewrite Hdf; apply in_elt).
  assert (Hq : In q df)
    by (rewrite Hdf; apply in_or_app; right; right; apply in_elt).
  assert (Hnom : forall x, In x df ->
                   p_nombreCompleto x
                   = nombre_completo str_py (p_nombre x) (p_primerApellido x)
                       (p_segundoApellido x)).
  { intros x Hx. subst df. destruct listado as [archivos|e]; [|destruct Hx].
    destruct (registro_de_directorio archivos x Hx)
      as (a & _ & _ & _ & Hn). exact Hn. }
  assert (Hpq : p_nombreCompleto p = p_nombreCompleto q).
  { rewrite (Hnom p Hp), (Hnom q Hq). unfold tupla_persona in Ht.
    inversion Ht. reflexivity. }
  assert (Hc : 2 <= List.length
                      (filter (fun x => (p_nombreCompleto x =? p_nombreCompleto p)%string)
                         df)).
  { assert (Ep : (p_nombreCompleto p =? p_nombreCompleto p)%string = true)
      by apply String.eqb_refl.
    assert (Eq : (p_nombreCompleto q =? p_nombreCompleto p)%string = true)
      by (rewrite Hpq; apply String.eqb_refl).
    rewrite Hdf, filter_app. cbn [filter]. rewrite Ep, filter_app.
    cbn [filter]. rewrite Eq.
    rewrite length_app. cbn [List.length]. rewrite length_app.
    cbn [List.length]. lia. }
  assert (Hdp : duplicated df p = true)
    by (apply duplicated_dos_o_mas; exact Hc).
  assert (Hdq : duplicated df q = true).
  { apply duplicated_dos_o_mas. now rewrite <- Hpq. }
  split.
  - apply (Permutation_in _ (Permutation_sym (personas_de_analizar df))).
    apply filter_In. now split.
  - apply (Permutation_in _ (Permutation_sym (personas_de_analizar df))).
    apply filter_In. now split.
Qed.

End MasPropiedades.

(** *** File names of the CSV sink *)

Lemma contar_replace_old (old new : ascii) (s : string) :
  old <> new -> contar old (replace old new s) = 0.
Proof.
  intros Hne. induction s as [|c s IH]; cbn; [reflexivity|].
  rewrite IH. destruct (Ascii.eqb_spec c old) as [->|Hc].
  - destruct (Ascii.eqb_spec new old); [congruence|reflexivity].
  - destruct (Ascii.eqb_spec c old); [congruence|reflexivity].
Qed.

Lemma contar_replace_cero (c old new : ascii) (s : string) :
  c <> new -> contar c s = 0 -> contar c (replace old new s) = 0.
Proof.
  intros Hne. induction s as [|x s IH]; cbn; [reflexivity|].
  destruct (Ascii.eqb_spec x c) as [->|Hx]; [discriminate|].
  cbn. intros H. rewrite (IH H).
  destruct (Ascii.eqb x old).
  - destruct (Ascii.eqb_spec new c); [congruence|reflexivity].
  - destruct (Ascii.eqb_spec x c); [congruence|reflexivity].
Qed.

Lemma replace_length (old new : ascii) (s : string) :
  String.length (replace old new s) = String.length s.
Proof. induction s as [|c s IH]; cbn; [reflexivity|]. now rewrite IH. Qed.

Lemma replace_ausente (old new : ascii) (s : string) :
  contar old s = 0 -> replace old new s = s.
Proof.
  induction s as [|c s IH]; cbn; [reflexivity|].
  destruct (Ascii.eqb c old); [discriminate|]. cbn. intros H. now rewrite IH.
Qed.

(** X13: the file name [guardar_csv] builds from a directory name has no
    slash, no backslash and no space in the part taken from the directory
    name, which keeps its length; a directory name without these characters
    is kept as it is; and the name built from a name already made safe is
    the same, so that a directory and a directory named by its safe name
    get the same CSV file. *)
Theorem nombre_archivo_seguro_limpio :
  forall (n : string),
    contar barra_diagonal (nombre_archivo_seguro n) = 0
    /\ contar contrabarra (nombre_archivo_seguro n) = 0
    /\ contar espacio (nombre_archivo_seguro n) = 0
    /\ String.length (nombre_archivo_seguro n) = String.length n
    /\ (contar barra_diagonal n = 0 -> contar contrabarra n = 0 ->
        contar espacio n = 0 -> nombre_archivo_seguro n = n)
    /\ nombre_archivo (nombre_archivo_seguro n) = nombre_archivo n.
Proof.
  intros n. unfold nombre_archivo_seguro.
  assert (H1 : contar barra_diagonal
                 (replace espacio guion_bajo
                    (replace contrabarra guion_bajo
                       (replace barra_diagonal guion_bajo n))) = 0).
  { apply contar_replace_cero; [discriminate|].
    apply contar_replace_cero; [discriminate|].
    apply contar_replace_old. discriminate. }
  assert (H2 : contar contrabarra
                 (replace espacio guion_bajo
                    (replace contrabarra guion_bajo
                       (replace barra_diagonal guion_bajo n))) = 0).
  { apply contar_replace_cero; [discriminate|].
    apply contar_replace_old. discriminate. }
  assert (H3 : contar espacio
                 (replace espacio guion_bajo
                    (replace contrabarra guion_bajo
                       (replace barra_diagonal guion_bajo n))) = 0).
  { apply contar_replace_old. discriminate. }
  assert (Hid : forall m, contar barra_diagonal m = 0 -> contar contrabarra m = 0 ->
                          contar espacio m = 0 ->
                          replace espacio guion_bajo
                            (replace contrabarra guion_bajo
                               (replace barra_diagonal guion_bajo m)) = m).
  { intros m A B C. now rewrite (replace_ausente _ _ m A),
      (replace_ausente _ _ m B), (replace_ausente _ _ m C). }
  repeat split; try assumption.
  - now rewrite !replace_length.
  - exact (Hid n).
  - unfold nombre_archivo, nombre_archivo_seguro. now rewrite (Hid _ H1 H2 H3).
Qed.

(** *** The CSV sinks *)

Ltac paso_sistema :=
  match goal with
  | |- context [match efecto ?s ?h ?c with _ => _ end] =>
      destruct (efecto s h c) eqn:?
  | |- context [if consulta ?s ?h ?c then _ else _] =>
      destruct (consulta s h c) eqn:?
  | |- context [if es_subcadena ?a ?b then _ else _] =>
      destruct (es_subcadena a b) eqn:?
  | |- context [if es_windows ?s then _ else _] =>
      destruct (es_windows s) eqn:?
  | |- context [if negb (consulta ?s ?h ?c) then _ else _] =>
      destruct (consulta s h c) eqn:?
  | |- context [if negb (es_windows ?s) then _ else _] =>
      destruct (es_windows s) eqn:?
  end.

Ltac casos_sistema :=
  cbn [negb andb fst snd];
  repeat (paso_sistema; cbn [negb andb fst snd]).

Ltac reescribir_efectos :=
  repeat match goal with
         | H : efecto _ _ _ = _ |- _ => rewrite H
         end.

(** X14: [guardar_csv] returns [True] exactly when one of its [to_csv]
    calls went through, and then exactly one did, on the file named after
    the directory, in the destination directory or in the temporary
    directory; it calls [to_csv] at most twice; and with [usar_temp] set,
    every path it touches is the temporary directory or that file in the
    temporary directory. *)
Theorem guardar_csv_escribe :
  forall (sis : sistema) (df : list fila_duplicado)
         (directorio_destino nombre_directorio : string) (usar_temp : bool)
         (h : list llamada),
    let sal := guardar_csv sis df directorio_destino nombre_directorio usar_temp h in
    let en_destino :=
      os_path_join sis directorio_destino (nombre_archivo nombre_directorio) in
    let en_temporal :=
      os_path_join sis (gettempdir sis) (nombre_archivo nombre_directorio) in
    exists nuevas,
      snd sal = h ++ nuevas
      /\ (fst sal = true ->
          csv_escritos sis h nuevas = [en_destino]
          \/ csv_escritos sis h nuevas = [en_temporal])
      /\ (fst sal = false -> csv_escritos sis h nuevas = [])
      /\ List.length (csv_intentados nuevas) <= 2
      /\ Forall (fun r => r = en_destino \/ r = en_temporal)
                (csv_intentados nuevas)
      /\ (usar_temp = true ->
          Forall (fun r => r = en_temporal) (csv_intentados nuevas)
          /\ Forall (fun c => ruta_llamada c = gettempdir sis
                              \/ ruta_llamada c = en_temporal) nuevas).
Proof.
  intros sis df directorio_destino nombre_directorio usar_temp h sal
         en_destino en_temporal.
  subst sal en_destino en_temporal.
  unfold guardar_csv, consultar, efectuar.
  destruct usar_temp; casos_sistema;
    eexists; (split; [rewrite <- ?app_assoc; cbn [app]; reflexivity|]);
    cbn [csv_escritos csv_intentados flat_map ruta_csv app List.length];
    reescribir_efectos; cbn [app];
    (split; [intros; try discriminate; auto|]);
    (split; [intros; try discriminate; auto|]);
    (split; [lia|]);
    (split; [repeat (apply Forall_cons; [auto|]); apply Forall_nil|]);
    intros; try discriminate;
    (split; repeat (apply Forall_cons; [cbn [ruta_llamada]; auto|]);
     apply Forall_nil).
Qed.

(** X15: [guardar_resumen] returns [True] exactly when one of its
    [to_csv] calls went through, and then exactly one did; without
    [usar_temp] it returns [False] only after it has tried the file in the
    destination directory and then the same file name in the temporary
    directory, whatever the first error was; with [usar_temp] set it makes
    one call, in the temporary directory. *)
Theorem guardar_resumen_escribe :
  forall (sis : sistema) (resumen_df : list fila_resumen)
         (directorio_destino : string) (usar_temp : bool) (h : list llamada),
    let sal := guardar_resumen sis resumen_df directorio_destino usar_temp h in
    let nombre := ("resumen_duplicados_" ++ fecha_hora sis h ++ ".csv")%string in
    let en_destino := os_path_join sis directorio_destino nombre in
    let en_temporal := os_path_join sis (gettempdir sis) nombre in
    exists nuevas,
      snd sal = h ++ nuevas
      /\ (fst sal = true ->
          csv_escritos sis h nuevas = [en_destino]
          \/ csv_escritos sis h nuevas = [en_temporal])
      /\ (fst sal = false -> csv_escritos sis h nuevas = [])
      /\ (usar_temp = true -> csv_intentados nuevas = [en_temporal])
      /\ (usar_temp = false ->
          csv_intentados nuevas = [en_destino]
          \/ csv_intentados nuevas = [en_destino; en_temporal])
      /\ (usar_temp = false -> fst sal = false ->
          csv_intentados nuevas = [en_destino; en_temporal]).
Proof.
  intros sis resumen_df directorio_destino usar_temp h sal nombre
         en_destino en_temporal.
  subst sal en_destino en_temporal nombre.
  unfold guardar_resumen, efectuar.
  destruct usar_temp; casos_sistema;
    eexists; (split; [rewrite <- ?app_assoc; cbn [app]; reflexivity|]);
    cbn [csv_escritos csv_intentados flat_map ruta_csv app];
    reescribir_efectos; cbn [app];
    repeat split; intros; try discriminate; auto.
Qed.

(** X16: [guardar_csv] calls [to_csv] a second time only when [usar_temp]
    is not set and the first call raised an error whose text holds
    [Permission denied]; the second call is on the same file name in the
    temporary directory. *)
Theorem guardar_csv_reintento :
  forall (sis : sistema) (df : list fila_duplicado)
         (directorio_destino nombre_directorio : string) (usar_temp : bool)
         (h nuevas : list llamada),
    snd (guardar_csv sis df directorio_destino nombre_directorio usar_temp h)
    = h ++ nuevas ->
    List.length (csv_intentados nuevas) = 2 ->
    usar_temp = false
    /\ (exists antes ruta m,
           In (ToCsv ruta df, Some m) (efectos sis h nuevas)
           /\ nuevas = antes ++ [ToCsv ruta df;
                                 ToCsv (os_path_join sis (gettempdir sis)
                                          (nombre_archivo nombre_directorio)) df]
           /\ es_subcadena "Permission denied" m = true).
Proof.
  intros sis df directorio_destino nombre_directorio usar_temp h nuevas.
  unfold guardar_csv, consultar, efectuar.
  destruct usar_temp; casos_sistema;
    rewrite <- ?app_assoc; cbn [app]; intros E; apply app_inv_head in E;
    subst nuevas; cbn [csv_intentados flat_map ruta_csv app List.length];
    intros Hl; try discriminate Hl;
    (split; [reflexivity|]);
    cbn [efectos]; reescribir_efectos;
    first
      [ exists [OsPathExists directorio_destino]; do 2 eexists;
        split; [right; left; reflexivity|];
        split; [reflexivity|assumption]
      | exists [OsPathExists directorio_destino;
                OsMakedirs directorio_destino None];
        do 2 eexists;
        split; [right; right; left; reflexivity|];
        split; [reflexivity|assumption] ].
Qed.

(** *** The permission check *)

Ltac reescribir_consultas :=
  repeat match goal with
         | H : consulta _ _ _ = _ |- _ => rewrite H
         end.

(** X17: [verificar_permisos_directorio] only makes calls on the
    normalized directory and on a file inside it, and never runs [chmod]
    on Windows; when it returns [True] the system has answered that the
    path is a directory and that it is writable, and unless [chmod] was
    run a test file was written in the directory and removed. *)
Theorem verificar_permisos_directorio_cierto :
  forall (sis : sistema) (ruta : string) (h : list llamada),
    let sal := verificar_permisos_directorio sis ruta h in
    let r := os_path_normpath sis ruta in
    exists nuevas,
      snd sal = h ++ nuevas
      /\ Forall (fun c => ruta_llamada c = r
                          \/ exists t, ruta_llamada c = os_path_join sis r t)
                nuevas
      /\ (es_windows sis = true -> existsb es_chmod nuevas = false)
      /\ (fst sal = true ->
          In (OsPathIsdir r, true) (consultas sis h nuevas)
          /\ In (OsAccess r, true) (consultas sis h nuevas)
          /\ (existsb es_chmod nuevas = false ->
              exists t, In (EscribirPrueba (os_path_join sis r t), None)
                           (efectos sis h nuevas)
                        /\ In (OsRemove (os_path_join sis r t), None)
                              (efectos sis h nuevas))).
Proof.
  intros sis ruta h sal r. subst sal r.
  unfold verificar_permisos_directorio, consultar, efectuar.
  casos_sistema;
    eexists; (split; [rewrite <- ?app_assoc; cbn [app]; reflexivity|]);
    (split; [repeat (apply Forall_cons; [cbn [ruta_llamada]; eauto|]);
             apply Forall_nil|]);
    (split; [intros; try discriminate; reflexivity|]);
    intros Ht; try discriminate Ht;
    cbn [consultas efectos];
    rewrite <- ?app_assoc in *; cbn [app] in *;
    reescribir_consultas; reescribir_efectos;
    cbn [existsb es_chmod orb];
    (split; [auto 8 using in_eq, in_cons|]);
    (split; [auto 8 using in_eq, in_cons|]);
    intros Hc; try discriminate Hc;
    eexists; split; cbn [In]; repeat (first [left; reflexivity|right]).
Qed.

(** *** The loop over the subdirectories *)

Section Raiz.

Variable str_py : json -> string.

Lemma v2_paso_subdirectorio_eq (st : V2.estado_bucle) (sd : subdirectorio) :
  V2.paso_subdirectorio str_py st sd
  = let c := V2.contadores st in
    let f := fila_de_subdirectorio str_py sd in
    {| V2.contadores :=
         {| total_archivos := total_archivos c + r_archivos f;
            total_directorios :=
              total_directorios c
              + (if (0 <? r_archivos f)%nat then 1 else 0);
            total_registros := total_registros c + r_registros f;
            total_duplicados := total_duplicados c + r_cantidadDuplicados f;
            resultados_directorios := resultados_directorios c ++ [f] |};
       V2.hojas := V2.hojas st ++ hoja_de_subdirectorio str_py sd |}.
Proof.
  destruct sd as [subdir listado].
  unfold V2.paso_subdirectorio, fila_de_subdirectorio, hoja_de_subdirectorio.
  cbn [fst snd].
  destruct (leer_archivos_json_directorio str_py listado) as [regs n].
  cbn [fst snd].
  assert (Hd : (if (0 <? n)%nat then S (total_directorios (V2.contadores st))
                else total_directorios (V2.contadores st))
               = total_directorios (V2.contadores st)
                 + (if (0 <? n)%nat then 1 else 0))
    by (destruct (0 <? n)%nat; lia).
  cbv zeta. rewrite Hd.
  destruct regs as [|p regs].
  - cbn [analizar_duplicados fst snd List.length].
    rewrite !Nat.add_0_r, app_nil_r. reflexivity.
  - destruct (analizar_duplicados (p :: regs)) as [dups num]. cbn [fst snd].
    destruct dups; cbn [List.length];
      rewrite ?Nat.add_0_r, ?app_nil_r; reflexivity.
Qed.

Lemma estado_raiz_igual (a a' b b' c c' d d' : nat) (e e' : list fila_resumen) :
  a = a' -> b = b' -> c = c' -> d = d' -> e = e' ->
  {| total_archivos := a; total_directorios := b; total_registros := c;
     total_duplicados := d; resultados_directorios := e |}
  = {| total_archivos := a'; total_directorios := b'; total_registros := c';
       total_duplicados := d'; resultados_directorios := e' |}.
Proof. now intros -> -> -> -> ->. Qed.

Lemma v2_fold_paso (l : list subdirectorio) (st : V2.estado_bucle) :
  fold_left (V2.paso_subdirectorio str_py) l st
  = let c := V2.contadores st in
    let fs := map (fila_de_subdirectorio str_py) l in
    {| V2.contadores :=
         {| total_archivos := total_archivos c + list_sum (map r_archivos fs);
            total_directorios :=
              total_directorios c
              + List.length (filter (fun f => (0 <? r_archivos f)%nat) fs);
            total_registros := total_registros c + list_sum (map r_registros fs);
            total_duplicados :=
              total_duplicados c + list_sum (map r_cantidadDuplicados fs);
            resultados_directorios := resultados_directorios c ++ fs |};
       V2.hojas := V2.hojas st ++ flat_map (hoja_de_subdirectorio str_py) l |}.
Proof.
  revert st. induction l as [|sd l IH]; intros st.
  - cbn. rewrite !Nat.add_0_r, !app_nil_r. now destruct st as [[]].
  - cbn [fold_left]. rewrite IH, v2_paso_subdirectorio_eq.
    cbn [V2.contadores V2.hojas total_archivos total_directorios total_registros
         total_duplicados resultados_directorios map flat_map filter].
    rewrite <- !app_assoc. cbn [app].
    destruct (0 <? r_archivos (fila_de_subdirectorio str_py sd))%nat;
      cbn [List.length list_sum fold_right];
      (apply f_equal2; [|reflexivity]);
      apply estado_raiz_igual; unfold list_sum; simpl; try lia; reflexivity.
Qed.

Lemma fila_de_subdirectorio_cuentas (sd : subdirectorio) :
  let f := fila_de_subdirectorio str_py sd in
  r_directorio f = fst sd
  /\ r_cantidadDuplicados f <= r_registros f
  /\ 2 * r_nombresDuplicados f <= r_cantidadDuplicados f
  /\ r_cantidadDuplicados f <> 1.
Proof.
  unfold fila_de_subdirectorio. cbn.
  pose proof (analizar_duplicados_cotas
                (fst (leer_archivos_json_directorio str_py (snd sd)))) as H.
  cbv zeta in H. tauto.
Qed.



Variable sis : sistema.

Lemma filas_escritas_app (h a b : list llamada) :
  filas_escritas sis h (a ++ b)
  = filas_escritas sis h a + filas_escritas sis (h ++ a) b.
Proof.
  revert h. induction a as [|c a IH]; intros h.
  - cbn. now rewrite app_nil_r.
  - cbn [app filas_escritas]. rewrite IH, <- app_assoc. cbn [app]. lia.
Qed.

Lemma guardar_csv_filas (df : list fila_duplicado)
  (directorio_destino nombre_directorio : string) (usar_temp : bool)
  (h : list llamada) :
  let sal := guardar_csv sis df directorio_destino nombre_directorio usar_temp h in
  exists nuevas,
    snd sal = h ++ nuevas
    /\ filas_escritas sis h nuevas = (if fst sal then List.length df else 0)
    /\ Forall (fun r => exists n, r = os_path_join sis directorio_destino n
                                  \/ r = os_path_join sis (gettempdir sis) n)
              (csv_intentados nuevas)
    /\ (usar_temp = true ->
        Forall (fun r => exists n, r = os_path_join sis (gettempdir sis) n)
               (csv_intentados nuevas)).
Proof.
  intros sal. subst sal.
  unfold guardar_csv, consultar, efectuar.
  destruct usar_temp; casos_sistema;
    eexists; (split; [rewrite <- ?app_assoc; cbn [app]; reflexivity|]);
    cbn [filas_escritas csv_intentados flat_map ruta_csv app];
    reescribir_efectos;
    (split; [lia|]);
    (split; [repeat (apply Forall_cons; [eauto|]); apply Forall_nil|]);
    intros; try discriminate;
    repeat (apply Forall_cons; [eauto|]); apply Forall_nil.
Qed.

Lemma verificar_permisos_directorio_sin_csv (ruta : string) (h : list llamada) :
  exists nuevas,
    snd (verificar_permisos_directorio sis ruta h) = h ++ nuevas
    /\ csv_intentados nuevas = []
    /\ filas_escritas sis h nuevas = 0.
Proof.
  unfold verificar_permisos_directorio, consultar, efectuar.
  casos_sistema;
    eexists; (split; [rewrite <- ?app_assoc; cbn [app]; reflexivity|]);
    split; reflexivity.
Qed.

Lemma guardar_resumen_sin_filas (resumen_df : list fila_resumen)
  (directorio_destino : string) (usar_temp : bool) (h : list llamada) :
  exists nuevas,
    snd (guardar_resumen sis resumen_df directorio_destino usar_temp h)
    = h ++ nuevas
    /\ filas_escritas sis h nuevas = 0
    /\ Forall (fun r => exists n, r = os_path_join sis directorio_destino n
                                  \/ r = os_path_join sis (gettempdir sis) n)
              (csv_intentados nuevas)
    /\ (usar_temp = true ->
        Forall (fun r => exists n, r = os_path_join sis (gettempdir sis) n)
               (csv_intentados nuevas)).
Proof.
  unfold guardar_resumen, efectuar.
  destruct usar_temp; casos_sistema;
    eexists; (split; [rewrite <- ?app_assoc; cbn [app]; reflexivity|]);
    (split; [reflexivity|]);
    cbn [csv_intentados flat_map ruta_csv app];
    (split; [repeat (apply Forall_cons; [eauto|]); apply Forall_nil|]);
    intros; try discriminate;
    repeat (apply Forall_cons; [eauto|]); apply Forall_nil.
Qed.

(** The loop of the third script: the counters are those of the second
    script, but for [total_duplicados], which counts the rows written. *)
Lemma v3_fold_paso (dir_destino : string) (usar_temp : bool)
  (l : list subdirectorio) (st : V3.estado_bucle) :
  let fin := fold_left (V3.paso_subdirectorio sis str_py dir_destino usar_temp)
               l st in
  let c := V3.contadores st in
  let fs := map (fila_de_subdirectorio str_py) l in
  exists nuevas,
    V3.historia fin = V3.historia st ++ nuevas
    /\ total_archivos (V3.contadores fin)
       = total_archivos c + list_sum (map r_archivos fs)
    /\ total_directorios (V3.contadores fin)
       = total_directorios c
         + List.length (filter (fun f => (0 <? r_archivos f)%nat) fs)
    /\ total_registros (V3.contadores fin)
       = total_registros c + list_sum (map r_registros fs)
    /\ total_duplicados (V3.contadores fin)
       = total_duplicados c + filas_escritas sis (V3.historia st) nuevas
    /\ filas_escritas sis (V3.historia st) nuevas
       <= list_sum (map r_cantidadDuplicados fs)
    /\ resultados_directorios (V3.contadores fin)
       = resultados_directorios c ++ fs
    /\ Forall (fun r => exists n, r = os_path_join sis dir_destino n
                                  \/ r = os_path_join sis (gettempdir sis) n)
              (csv_intentados nuevas)
    /\ (usar_temp = true ->
        Forall (fun r => exists n, r = os_path_join sis (gettempdir sis) n)
               (csv_intentados nuevas)).
Proof.
  revert st. induction l as [|sd l IH]; intros st fin c fs.
  - exists []. subst fin c fs. cbn. rewrite !Nat.add_0_r, !app_nil_r.
    repeat split; auto.
  - subst fin. cbn [fold_left].
    set (st1 := V3.paso_subdirectorio sis str_py dir_destino usar_temp st sd).
    assert (H1 : exists n1,
               V3.historia st1 = V3.historia st ++ n1
               /\ total_archivos (V3.contadores st1)
                  = total_archivos c + r_archivos (fila_de_subdirectorio str_py sd)
               /\ total_directorios (V3.contadores st1)
                  = total_directorios c
                    + (if (0 <? r_archivos (fila_de_subdirectorio str_py sd))%nat
                       then 1 else 0)
               /\ total_registros (V3.contadores st1)
                  = total_registros c + r_registros (fila_de_subdirectorio str_py sd)
               /\ total_duplicados (V3.contadores st1)
                  = total_duplicados c + filas_escritas sis (V3.historia st) n1
               /\ filas_escritas sis (V3.historia st) n1
                  <= r_cantidadDuplicados (fila_de_subdirectorio str_py sd)
               /\ resultados_directorios (V3.contadores st1)
                  = resultados_directorios c ++ [fila_de_subdirectorio str_py sd]
               /\ Forall (fun r => exists n, r = os_path_join sis dir_destino n
                                             \/ r = os_path_join sis (gettempdir sis) n)
                         (csv_intentados n1)
               /\ (usar_temp = true ->
                   Forall (fun r => exists n, r = os_path_join sis (gettempdir sis) n)
                          (csv_intentados n1))).
    { subst st1 c. destruct sd as [subdir listado].
      unfold V3.paso_subdirectorio, fila_de_subdirectorio. cbn [fst snd].
      destruct (leer_archivos_json_directorio str_py listado) as [regs n].
      cbn [fst snd]. cbv zeta.
      assert (Hd : (if (0 <? n)%nat then S (total_directorios (V3.contadores st))
                    else total_directorios (V3.contadores st))
                   = total_directorios (V3.contadores st)
                     + (if (0 <? n)%nat then 1 else 0))
        by (destruct (0 <? n)%nat; lia).
      rewrite Hd.
      destruct regs as [|p regs].
      - exists []. cbn. rewrite !Nat.add_0_r, !app_nil_r. repeat split; auto.
      - destruct (analizar_duplicados (p :: regs)) as [dups num]. cbn [fst snd].
        destruct dups as [|d dups].
        + exists []. cbn. rewrite !Nat.add_0_r, !app_nil_r. repeat split; auto.
        + destruct (guardar_csv_filas (d :: dups) dir_destino subdir usar_temp
                      (V3.historia st)) as (n1 & Hs & Hf & Hi & Ht).
          cbv zeta in Hs, Hf.
          destruct (guardar_csv sis (d :: dups) dir_destino subdir usar_temp
                      (V3.historia st)) as [ok h1].
          cbn [fst snd] in Hs, Hf. exists n1. cbn [V3.historia V3.contadores
            total_archivos total_directorios total_registros total_duplicados
            resultados_directorios].
          rewrite Hf. destruct ok; repeat split; auto; lia. }
    destruct H1 as (n1 & Hh1 & Ha1 & Hd1 & Hr1 & Ht1 & Hle1 & Hrs1 & Hi1 & Hu1).
    destruct (IH st1) as (n2 & Hh2 & Ha2 & Hd2 & Hr2 & Ht2 & Hle2 & Hrs2 & Hi2 & Hu2).
    exists (n1 ++ n2). subst fs c. cbn [map filter].
    rewrite Hh1 in Ht2, Hle2.
    split; [rewrite Hh2, Hh1; now rewrite <- app_assoc|].
    split; [rewrite Ha2, Ha1; unfold list_sum; simpl; lia|].
    split; [rewrite Hd2, Hd1;
            destruct (0 <? r_archivos (fila_de_subdirectorio str_py sd))%nat;
            simpl; lia|].
    split; [rewrite Hr2, Hr1; unfold list_sum; simpl; lia|].
    split; [rewrite Ht2, Ht1, filas_escritas_app; lia|].
    split; [rewrite filas_escritas_app; unfold list_sum in *;
            cbn [map fold_right] in *; lia|].
    split; [rewrite Hrs2, Hrs1, <- app_assoc; reflexivity|].
    unfold csv_intentados in *. rewrite flat_map_app.
    split; [apply Forall_app; now split|].
    intros Hu. apply Forall_app. split; auto.
Qed.

(** X19: when [procesar_directorio_raiz] of
    [detector_duplicados_s1_v3.py] returns [True], the origin was a
    directory with at least one subdirectory; the summary has one row per
    subdirectory in the order of the listing, with the same bounds between
    its columns as in the second script, and the totals of files and of
    records are the sums of its columns; [total_duplicados] is the number
    of rows of the frames that [to_csv] wrote, at most the sum of the
    column of duplicated rows. *)
Theorem v3_resumen_y_totales :
  forall (sort_resumen : list fila_resumen -> list fila_resumen)
         (dir_origen dir_destino : string) (usar_temp : bool)
         (subdirectorios : res (list subdirectorio)) (h : list llamada),
    let sal := V3.procesar_directorio_raiz sis str_py sort_resumen dir_origen
                 dir_destino usar_temp subdirectorios h in
    let c := V3.contadores (V3.final sal) in
    let rs := resultados_directorios c in
    V3.retorno_raiz sal = true ->
    consulta sis h (OsPathIsdir dir_origen) = true
    /\ exists subdirs nuevas,
         subdirectorios = Ok subdirs
         /\ subdirs <> []
         /\ V3.historia (V3.final sal) = h ++ nuevas
         /\ map r_directorio rs = map fst subdirs
         /\ total_archivos c = list_sum (map r_archivos rs)
         /\ total_registros c = list_sum (map r_registros rs)
         /\ total_directorios c
            = List.length (filter (fun f => (0 <? r_archivos f)%nat) rs)
         /\ total_duplicados c = filas_escritas sis h nuevas
         /\ total_duplicados c <= list_sum (map r_cantidadDuplicados rs)
         /\ Forall (fun f => r_cantidadDuplicados f <= r_registros f
                             /\ 2 * r_nombresDuplicados f <= r_cantidadDuplicados f
                             /\ r_cantidadDuplicados f <> 1) rs.
Proof.
  intros sort_resumen dir_origen dir_destino usar_temp subdirectorios h sal c rs.
  subst rs c sal. unfold V3.procesar_directorio_raiz, consultar.
  destruct (consulta sis h (OsPathIsdir dir_origen)) eqn:Hdir; cbn [negb];
    [|discriminate].
  set (h0 := h ++ [OsPathIsdir dir_origen]).
  assert (Hpre : exists ut dd n0,
             (if negb usar_temp
              then
                let (permisos, h1) :=
                  verificar_permisos_directorio sis
                    (if usar_temp then gettempdir sis else dir_destino) h0 in
                if negb permisos then (true, gettempdir sis, h1)
                else (usar_temp,
                      if usar_temp then gettempdir sis else dir_destino, h1)
              else (usar_temp,
                    if usar_temp then gettempdir sis else dir_destino, h0))
             = (ut, dd, h0 ++ n0)
             /\ filas_escritas sis h0 n0 = 0).
  { destruct usar_temp; cbn [negb].
    - exists true, (gettempdir sis), []. now rewrite app_nil_r.
    - destruct (verificar_permisos_directorio_sin_csv dir_destino h0)
        as (n0 & Hs & _ & Hf).
      destruct (verificar_permisos_directorio sis dir_destino h0) as [ok h1].
      cbn [snd] in Hs. subst h1.
      destruct ok; cbn [negb]; eauto 6. }
  destruct Hpre as (ut & dd & n0 & -> & Hf0).
  destruct subdirectorios as [[|sd l]|e]; try discriminate.
  intros _. split; [reflexivity|].
  cbn [V3.final V3.contadores V3.historia].
  destruct (v3_fold_paso dd ut (sd :: l)
              {| V3.contadores := estado_raiz_inicial; V3.historia := h0 ++ n0 |})
    as (n1 & Hh & Ha & Hd & Hr & Ht & Hle & Hrs & _ & _).
  cbv zeta in Hh, Ha, Hd, Hr, Ht, Hle, Hrs.
  cbn [V3.contadores V3.historia estado_raiz_inicial total_archivos
       total_directorios total_registros total_duplicados
       resultados_directorios app Nat.add] in Hh, Ha, Hd, Hr, Ht, Hle, Hrs.
  set (fin := fold_left (V3.paso_subdirectorio sis str_py dd ut) (sd :: l)
                {| V3.contadores := estado_raiz_inicial;
                   V3.historia := h0 ++ n0 |}) in *.
  assert (Hres : exists n2,
             match resultados_directorios (V3.contadores fin) with
             | [] => V3.historia fin
             | f :: fs =>
                 snd (guardar_resumen sis (sort_resumen (f :: fs)) dd ut
                        (V3.historia fin))
             end = V3.historia fin ++ n2
             /\ filas_escritas sis (V3.historia fin) n2 = 0).
  { destruct (resultados_directorios (V3.contadores fin)) as [|f fs'].
    - exists []. now rewrite app_nil_r.
    - destruct (guardar_resumen_sin_filas (sort_resumen (f :: fs')) dd ut
                  (V3.historia fin)) as (n2 & Hs2 & Hf2 & _). eauto. }
  destruct Hres as (n2 & -> & Hf2).
  exists (sd :: l), ([OsPathIsdir dir_origen] ++ n0 ++ n1 ++ n2).
  split; [reflexivity|]. split; [discriminate|].
  split; [rewrite Hh; subst h0; now rewrite <- !app_assoc|].
  rewrite Hrs, Ha, Hr, Hd, Ht.
  split; [rewrite map_map; apply map_ext; intros x;
          apply (fila_de_subdirectorio_cuentas x)|].
  split; [reflexivity|]. split; [reflexivity|]. split; [reflexivity|].
  split.
  - rewrite !filas_escritas_app. cbn [filas_escritas].
    fold h0. rewrite Hf0. rewrite Hh in Hf2.
    rewrite <- !app_assoc in Hf2. rewrite <- !app_assoc.
    cbn [app] in *. subst h0. rewrite <- !app_assoc in *. cbn [app] in *.
    rewrite Hf2. lia.
  - split; [exact Hle|].
    apply Forall_forall. intros f Hf. apply in_map_iff in Hf as [x [<- _]].
    apply (fila_de_subdirectorio_cuentas x).
Qed.

(** X20: every CSV file [procesar_directorio_raiz] of the third script
    tries to write is in the destination directory or in the temporary
    directory; when the run ends in temporary mode, because [usar_temp]
    was set or because the permission check failed, every one of them is
    in the temporary directory; and when it returns [False] it has tried
    to write none. *)
Theorem v3_rutas_de_csv :
  forall (sort_resumen : list fila_resumen -> list fila_resumen)
         (dir_origen dir_destino : string) (usar_temp : bool)
         (subdirectorios : res (list subdirectorio)) (h : list llamada),
    let sal := V3.procesar_directorio_raiz sis str_py sort_resumen dir_origen
                 dir_destino usar_temp subdirectorios h in
    exists nuevas,
      V3.historia (V3.final sal) = h ++ nuevas
      /\ Forall (fun r => exists n, r = os_path_join sis dir_destino n
                                    \/ r = os_path_join sis (gettempdir sis) n)
                (csv_intentados nuevas)
      /\ (V3.temporal sal = true ->
          Forall (fun r => exists n, r = os_path_join sis (gettempdir sis) n)
                 (csv_intentados nuevas))
      /\ (V3.retorno_raiz sal = false -> csv_intentados nuevas = []).
Proof.
  intros sort_resumen dir_origen dir_destino usar_temp subdirectorios h sal.
  subst sal. unfold V3.procesar_directorio_raiz, consultar.
  destruct (consulta sis h (OsPathIsdir dir_origen)) eqn:Hdir; cbn [negb];
    [|exists [OsPathIsdir dir_origen]; cbn; repeat split; auto].
  set (h0 := h ++ [OsPathIsdir dir_origen]).
  assert (Hpre : exists ut dd n0,
             (if negb usar_temp
              then
                let (permisos, h1) :=
                  verificar_permisos_directorio sis
                    (if usar_temp then gettempdir sis else dir_destino) h0 in
                if negb permisos then (true, gettempdir sis, h1)
                else (usar_temp,
                      if usar_temp then gettempdir sis else dir_destino, h1)
              else (usar_temp,
                    if usar_temp then gettempdir sis else dir_destino, h0))
             = (ut, dd, h0 ++ n0)
             /\ csv_intentados n0 = []
             /\ (dd = dir_destino \/ dd = gettempdir sis)
             /\ (ut = true -> dd = gettempdir sis)).
  { destruct usar_temp; cbn [negb].
    - exists true, (gettempdir sis), []. rewrite app_nil_r. repeat split; auto.
    - destruct (verificar_permisos_directorio_sin_csv dir_destino h0)
        as (n0 & Hs & Hc & _).
      destruct (verificar_permisos_directorio sis dir_destino h0) as [ok h1].
      cbn [snd] in Hs. subst h1.
      destruct ok; cbn [negb].
      + exists false, dir_destino, n0. repeat split; auto. discriminate.
      + exists true, (gettempdir sis), n0. repeat split; auto. }
  destruct Hpre as (ut & dd & n0 & -> & Hc0 & Hdd & Hut).
  assert (Hmono : forall rutas,
             Forall (fun r => exists n, r = os_path_join sis dd n
                                        \/ r = os_path_join sis (gettempdir sis) n)
                    rutas ->
             Forall (fun r => exists n, r = os_path_join sis dir_destino n
                                        \/ r = os_path_join sis (gettempdir sis) n)
                    rutas).
  { intros rutas Hr. eapply Forall_impl; [|exact Hr]. cbn beta.
    intros r [n [->| ->]]; destruct Hdd as [->| ->]; eauto. }
  destruct subdirectorios as [[|sd l]|e].
  - exists ([OsPathIsdir dir_origen] ++ n0).
    cbn [V3.final V3.historia V3.temporal V3.retorno_raiz].
    subst h0. rewrite <- app_assoc. unfold csv_intentados in *.
    rewrite flat_map_app, Hc0. cbn. repeat split; auto.
  - cbn [V3.final V3.contadores V3.historia V3.temporal V3.retorno_raiz].
    destruct (v3_fold_paso dd ut (sd :: l)
                {| V3.contadores := estado_raiz_inicial; V3.historia := h0 ++ n0 |})
      as (n1 & Hh & _ & _ & _ & _ & _ & _ & Hi1 & Hu1).
    cbv zeta in Hh. cbn [V3.historia] in Hh.
    set (fin := fold_left (V3.paso_subdirectorio sis str_py dd ut) (sd :: l)
                  {| V3.contadores := estado_raiz_inicial;
                     V3.historia := h0 ++ n0 |}) in *.
    assert (Hres : exists n2,
               match resultados_directorios (V3.contadores fin) with
               | [] => V3.historia fin
               | f :: fs =>
                   snd (guardar_resumen sis (sort_resumen (f :: fs)) dd ut
                          (V3.historia fin))
               end = V3.historia fin ++ n2
               /\ Forall (fun r => exists n, r = os_path_join sis dd n
                                             \/ r = os_path_join sis (gettempdir sis) n)
                         (csv_intentados n2)
               /\ (ut = true ->
                   Forall (fun r => exists n, r = os_path_join sis (gettempdir sis) n)
                          (csv_intentados n2))).
    { destruct (resultados_directorios (V3.contadores fin)) as [|f fs'].
      - exists []. rewrite app_nil_r. cbn. repeat split; auto.
      - destruct (guardar_resumen_sin_filas (sort_resumen (f :: fs')) dd ut
                    (V3.historia fin)) as (n2 & Hs2 & _ & Hi2 & Hu2). eauto. }
    destruct Hres as (n2 & -> & Hi2 & Hu2).
    exists ([OsPathIsdir dir_origen] ++ n0 ++ n1 ++ n2).
    split; [rewrite Hh; subst h0; now rewrite <- !app_assoc|].
    unfold csv_intentados in *. rewrite !flat_map_app, Hc0.
    cbn [flat_map ruta_csv app].
    split; [apply Forall_app; split; now apply Hmono|].
    split; [|discriminate].
    intros Ht. apply Forall_app. split; auto.
  - exists ([OsPathIsdir dir_origen] ++ n0).
    cbn [V3.final V3.historia V3.temporal V3.retorno_raiz].
    subst h0. rewrite <- app_assoc. unfold csv_intentados in *.
    rewrite flat_map_app, Hc0. cbn. repeat split; auto.
Qed.

(** X21: in the second script duplicates are looked for inside each
    subdirectory only: when no subdirectory holds two records with the
    same full name, no row is counted as duplicated and no sheet is saved,
    whatever names the subdirectories share. *)
Theorem v2_sin_duplicados_entre_directorios :
  forall (os_remove : res unit) (destino_existe : bool)
         (subdirs : list subdirectorio),
    (forall sd, In sd subdirs ->
                NoDup (map p_nombreCompleto
                         (fst (leer_archivos_json_directorio str_py (snd sd))))) ->
    let sal := V2.procesar_directorio_raiz str_py true destino_existe os_remove
                 (Ok subdirs) in
    total_duplicados (V2.contadores (V2.final sal)) = 0
    /\ V2.hojas (V2.final sal) = []
    /\ Forall (fun f => r_cantidadDuplicados f = 0 /\ r_nombresDuplicados f = 0)
              (resultados_directorios (V2.contadores (V2.final sal))).
Proof.
  intros os_remove destino_existe subdirs H sal.
  assert (Hf : forall sd, In sd subdirs ->
                 r_cantidadDuplicados (fila_de_subdirectorio str_py sd) = 0
                 /\ r_nombresDuplicados (fila_de_subdirectorio str_py sd) = 0
                 /\ hoja_de_subdirectorio str_py sd = []).
  { intros sd Hsd. unfold fila_de_subdirectorio, hoja_de_subdirectorio.
    cbn [r_cantidadDuplicados r_nombresDuplicados].
    rewrite (analizar_duplicados_sin_repetidos _ (H sd Hsd)).
    now repeat split. }
  assert (Hfin : V2.final sal
                 = fold_left (V2.paso_subdirectorio str_py) subdirs V2.bucle_inicial
                   \/ V2.final sal = V2.bucle_inicial).
  { subst sal. unfold V2.procesar_directorio_raiz. cbn [negb].
    destruct (if destino_existe then os_remove else Ok tt); cbn; auto. }
  destruct Hfin as [-> | ->]; [|cbn; repeat split; constructor].
  rewrite v2_fold_paso.
  cbn [V2.contadores V2.hojas V2.bucle_inicial estado_raiz_inicial
       total_duplicados resultados_directorios app Nat.add].
  clear sal. induction subdirs as [|sd l IH]; [cbn; repeat split; constructor|].
  destruct IH as (I1 & I2 & I3);
    [intros x Hx; apply H; now right|intros x Hx; apply Hf; now right|].
  destruct (Hf sd (or_introl eq_refl)) as (F1 & F2 & F3).
  cbn [map flat_map]. rewrite F3. cbn [app].
  split; [unfold list_sum in *; cbn [fold_right]; rewrite F1; exact I1|].
  split; [exact I2|].
  constructor; [now split|exact I3].
Qed.

End Raiz.

(** ** The further properties on concrete inputs *)

Lemma archivo_fallido_no_cambia_acumulador_testigo :
  archivo_fallido ("roto.json", Raise OSError) = true
  /\ st_datos (explorar_directorios str_demo
                (lote_ida ++ ("roto.json", Raise OSError) :: lote_vuelta))
     = st_datos (explorar_directorios str_demo (lote_ida ++ lote_vuelta)).
Proof.
  split; [reflexivity|].
  exact (proj2 (proj2 (archivo_fallido_no_cambia_acumulador str_demo
                         lote_ida lote_vuelta ("roto.json", Raise OSError)
                         estado_inicial eq_refl))).
Defined.

Lemma personas_archivadas_testigo :
  let datos := st_datos (explorar_directorios str_demo lote_ana) in
  let ocs := buscar "Ana|Lopez|Garcia" datos in
  let o := hd (Build_ocurrencia JNull JNull JNull JNull JNull JNull "") ocs in
  In ("Ana|Lopez|Garcia", ocs) datos
  /\ In o ocs
  /\ In (o_rutaArchivo o) (map fst lote_ana).
Proof.
  intros datos ocs o.
  assert (Hin : In ("Ana|Lopez|Garcia", ocs) datos) by (left; reflexivity).
  assert (Ho : In o ocs) by (left; reflexivity).
  repeat (split; [assumption|]).
  exact (proj2 (proj2 (proj2 (personas_archivadas str_demo lote_ana _ _ _ Hin Ho)))).
Defined.

Lemma informe_generado_sii_testigo :
  (forall filas, excel_demo "out.xlsx" filas = Ok tt)
  /\ (retorno (generar_informe_duplicados excel_demo
                 (st_datos (explorar_directorios str_demo lote_barra)) "out.xlsx")
      = true
      <-> (exists kv, In kv (st_datos (explorar_directorios str_demo lote_barra))
                      /\ 1 < List.length (snd kv))
          /\ (forall kv, In kv (st_datos (explorar_directorios str_demo lote_barra)) ->
                         1 < List.length (snd kv) -> contar barra (fst kv) = 2)).
Proof.
  split; [reflexivity|].
  exact (informe_generado_sii excel_demo _ "out.xlsx" (fun _ => eq_refl)).
Defined.

Lemma informe_completo_testigo :
  let datos := st_datos (explorar_directorios str_demo lote_ana) in
  let filas := filas_informe
                 (generar_informe_duplicados excel_demo datos "out.xlsx") in
  generar_informe_duplicados excel_demo datos "out.xlsx" = InformeGenerado filas
  /\ List.length filas = total_ocurrencias (filtrar_duplicados datos).
Proof.
  intros datos filas.
  assert (Hg : generar_informe_duplicados excel_demo datos "out.xlsx"
               = InformeGenerado filas) by reflexivity.
  split; [exact Hg|].
  exact (proj1 (proj2 (informe_completo excel_demo datos "out.xlsx" filas Hg))).
Defined.

Lemma nombres_de_fila_testigo :
  let datos := st_datos (explorar_directorios str_demo lote_ana) in
  let filas := filas_informe
                 (generar_informe_duplicados excel_demo datos "out.xlsx") in
  let ocs := buscar "Ana|Lopez|Garcia" datos in
  let o := hd (Build_ocurrencia JNull JNull JNull JNull JNull JNull "") ocs in
  let f := hd (Build_fila "" "" "" 0 0 JNull JNull JNull "")
              (filas_de_clave "Ana|Lopez|Garcia" filas) in
  generar_informe_duplicados excel_demo datos "out.xlsx" = InformeGenerado filas
  /\ In ("Ana|Lopez|Garcia", ocs) datos
  /\ 1 < List.length ocs
  /\ In o ocs
  /\ In f (filas_de_clave "Ana|Lopez|Garcia" filas)
  /\ f_nombre f = formato str_demo (o_nombre o).
Proof.
  intros datos filas ocs o f.
  assert (Hg : generar_informe_duplicados excel_demo datos "out.xlsx"
               = InformeGenerado filas) by reflexivity.
  assert (Hin : In ("Ana|Lopez|Garcia", ocs) datos) by (left; reflexivity).
  assert (Hl : 1 < List.length ocs) by (vm_compute; lia).
  assert (Ho : In o ocs) by (left; reflexivity).
  assert (Hf : In f (filas_de_clave "Ana|Lopez|Garcia" filas))
    by (left; reflexivity).
  repeat (split; [assumption|]).
  exact (proj1 (nombres_de_fila str_demo excel_demo lote_ana "out.xlsx" filas
                  _ _ _ _ Hg Hin Hl Ho Hf)).
Defined.

Lemma archivo_fallido_en_directorio_testigo :
  archivo_fallido ("nulo.json", Ok JNull) = true
  /\ leer_archivos_json_directorio str_demo
       (Ok (lote_ida ++ ("nulo.json", Ok JNull) :: lote_vuelta))
     = leer_archivos_json_directorio str_demo (Ok (lote_ida ++ lote_vuelta)).
Proof.
  split; [reflexivity|].
  exact (archivo_fallido_en_directorio str_demo lote_ida lote_vuelta
           ("nulo.json", Ok JNull) eq_refl).
Defined.

Lemma tupla_repetida_detectada_testigo :
  let df := fst (leer_archivos_json_directorio str_demo (Ok lote_ida)) in
  let p := nth 0 df (Build_persona JNull JNull JNull JNull "" JNull JNull JNull None) in
  let q := nth 1 df (Build_persona JNull JNull JNull JNull "" JNull JNull JNull None) in
  df = [] ++ p :: [] ++ q :: []
  /\ tupla_persona p = tupla_persona q
  /\ In p (map d_persona (fst (analizar_duplicados df))).
Proof.
  intros df p q.
  assert (Hdf : df = [] ++ p :: [] ++ q :: []) by reflexivity.
  assert (Ht : tupla_persona p = tupla_persona q) by reflexivity.
  repeat (split; [assumption|]).
  exact (proj1 (tupla_repetida_detectada str_demo (Ok lote_ida) [] [] [] p q
                  Hdf Ht)).
Defined.

Lemma guardar_csv_reintento_testigo :
  let nuevas :=
    [OsPathExists "/datos/salida";
     ToCsv "/datos/salida/duplicados_entidad_uno.csv" [];
     ToCsv "/tmp/duplicados_entidad_uno.csv" []] in
  snd (guardar_csv sistema_demo [] "/datos/salida" "entidad uno" false [])
  = [] ++ nuevas
  /\ List.length (csv_intentados nuevas) = 2
  /\ (exists antes ruta m,
         In (ToCsv ruta [], Some m) (efectos sistema_demo [] nuevas)
         /\ nuevas = antes ++ [ToCsv ruta [];
                               ToCsv (os_path_join sistema_demo
                                        (gettempdir sistema_demo)
                                        (nombre_archivo "entidad uno")) []]
         /\ es_subcadena "Permission denied" m = true).
Proof.
  intros nuevas.
  assert (Hs : snd (guardar_csv sistema_demo [] "/datos/salida" "entidad uno"
                      false []) = [] ++ nuevas) by reflexivity.
  assert (Hl : List.length (csv_intentados nuevas) = 2) by reflexivity.
  repeat (split; [assumption|]).
  exact (proj2 (guardar_csv_reintento sistema_demo [] "/datos/salida"
                  "entidad uno" false [] nuevas Hs Hl)).
Defined.


Lemma v3_resumen_y_totales_testigo :
  let sal := V3.procesar_directorio_raiz sistema_demo str_demo sort_demo
               "/datos" "/datos/salida" false (Ok raiz_demo) [] in
  V3.retorno_raiz sal = true
  /\ consulta sistema_demo [] (OsPathIsdir "/datos") = true.
Proof.
  intros sal.
  assert (Hr : V3.retorno_raiz sal = true) by reflexivity.
  split; [exact Hr|].
  exact (proj1 (v3_resumen_y_totales str_demo sistema_demo sort_demo
                  "/datos" "/datos/salida" false (Ok raiz_demo) [] Hr)).
Defined.

Lemma v2_sin_duplicados_entre_directorios_testigo :
  (forall sd, In sd raiz_repartida ->
              NoDup (map p_nombreCompleto
                       (fst (leer_archivos_json_directorio str_demo (snd sd)))))
  /\ V2.hojas (V2.final (V2.procesar_directorio_raiz str_demo true false (Ok tt)
                           (Ok raiz_repartida))) = [].
Proof.
  assert (H : forall sd, In sd raiz_repartida ->
                NoDup (map p_nombreCompleto
                         (fst (leer_archivos_json_directorio str_demo (snd sd))))).
  { intros sd [<-|[<-|[]]]; vm_compute;
      (constructor; [intros []|constructor]). }
  split; [exact H|].
  exact (proj1 (proj2 (v2_sin_duplicados_entre_directorios str_demo (Ok tt) false
                         raiz_repartida H))).
Defined.
